(** * DTransformer/data.py: record file, record transform, batch assembler
      and prefetching iterator

    A shallow embedding of [DTransformer/data.py].  Python integers are [Z],
    text is [string] (a character is a code point below 256), a Python list
    is a [list], an exception is a constructor of [exn] carried by the error
    monad [result].
    The worker thread of [Iterator] is a program counter stored in the
    iterator; a run is a schedule of worker steps and calls of [__next__].

    Library functions are modelled by their documented behaviour:
    [linecache.getline], [wc -l], [str.strip], [str.split], [int],
    [random.shuffle] (a function handed to [__init__]) and torch's [tensor]
    and [pad_sequence].  [torch.tensor] refuses an integer outside the signed
    64-bit range.  [math.ceil(a / b)] is the exact ceiling, which is what
    Python computes when both operands are below 2^53 in magnitude. *)

From Stdlib Require Import ZArith List String Ascii Bool Lia Permutation.
Import ListNotations.
Open Scope Z_scope.

(* ===================================================================== *)
(** ** Exceptions and the error monad                                     *)
(* ===================================================================== *)

(** The Python exception classes the module can raise.  The specification
    calls [OSError] FileAccess, [IndexError] IndexOutOfRange, [ValueError]
    ParseError and [AssertionError] LengthMismatch.  All of them derive from
    [Exception], which is what [except Exception] catches. *)
Inductive exn : Set :=
| OSError
| IndexError
| ValueError
| TypeError
| KeyError
| ZeroDivisionError
| AssertionError
| RuntimeError.

Inductive result (A : Type) : Type :=
| Ok (a : A)
| Raise (e : exn).
Arguments Ok {A} a.
Arguments Raise {A} e.

Definition bind {A B : Type} (c : result A) (k : A -> result B) : result B :=
  match c with
  | Ok a => k a
  | Raise e => Raise e
  end.

Notation "x <- c ;; k" := (bind c (fun x => k))
  (at level 61, c at next level, right associativity).

(** A list comprehension whose element expression may raise: the first
    failure, left to right, is the failure of the comprehension. *)
Fixpoint mapM {A B : Type} (f : A -> result B) (l : list A) : result (list B) :=
  match l with
  | [] => Ok []
  | x :: t => y <- f x ;; ys <- mapM f t ;; Ok (y :: ys)
  end.

(* ===================================================================== *)
(** ** Python built-ins used by the module                                *)
(* ===================================================================== *)

(** [range(lo, hi)] *)
Definition zrange (lo hi : Z) : list Z :=
  map (fun k => lo + Z.of_nat k) (seq 0 (Z.to_nat (hi - lo))).

(** One bound of a list slice [l[lo:hi]] on a list of [n] elements. *)
Definition norm_bound (n b : Z) : Z :=
  if b <? 0 then Z.max (b + n) 0 else Z.min b n.

(** [l[lo:hi]] on a list (and on one axis of a tensor). *)
Definition py_slice {A : Type} (l : list A) (lo hi : Z) : list A :=
  let n := Z.of_nat (List.length l) in
  let lo' := norm_bound n lo in
  let hi' := norm_bound n hi in
  firstn (Z.to_nat (hi' - lo')) (skipn (Z.to_nat lo') l).

(** [l[i]] on a list: negative indices count from the end. *)
Definition list_getitem {A : Type} (l : list A) (i : Z) : result A :=
  let n := Z.of_nat (List.length l) in
  let j := if i <? 0 then i + n else i in
  if (0 <=? j) && (j <? n) then
    match nth_error l (Z.to_nat j) with
    | Some x => Ok x
    | None => Raise IndexError
    end
  else Raise IndexError.

(** [math.ceil(a / b)] as the exact ceiling of the quotient.  In Python
    [a / b] is the double nearest to the quotient; for operands below 2^53 in
    magnitude that double cannot lie on the other side of an integer, so the
    two agree there.  Larger operands are outside the model. *)
Definition ceil_div (a b : Z) : result Z :=
  if b =? 0 then Raise ZeroDivisionError else Ok (- ((- a) / b)).

(** *** Strings *)

Definition is_crlf (c : ascii) : bool :=
  let n := nat_of_ascii c in (n =? 13)%nat || (n =? 10)%nat.

(** [str.isspace] on one character, the white space [str.strip()] removes:
    tab to carriage return, the separators 28 to 31, the space, and above
    ASCII the next-line control 133 and the no-break space 160. *)
Definition is_space (c : ascii) : bool :=
  let n := nat_of_ascii c in
  ((9 <=? n)%nat && (n <=? 13)%nat) || ((28 <=? n)%nat && (n <=? 32)%nat)
  || (n =? 133)%nat || (n =? 160)%nat.

(** The white space [int] skips around a literal: C's [isspace] on ASCII
    (the separators 28 to 31 are not part of it), and the white space above
    ASCII. *)
Definition is_int_space (c : ascii) : bool :=
  let n := nat_of_ascii c in
  ((9 <=? n)%nat && (n <=? 13)%nat) || (n =? 32)%nat
  || (n =? 133)%nat || (n =? 160)%nat.

Fixpoint lstrip (p : ascii -> bool) (s : string) : string :=
  match s with
  | EmptyString => EmptyString
  | String c t => if p c then lstrip p t else s
  end.

Fixpoint rstrip (p : ascii -> bool) (s : string) : string :=
  match s with
  | EmptyString => EmptyString
  | String c t =>
      match rstrip p t with
      | EmptyString => if p c then EmptyString else String c EmptyString
      | t' => String c t'
      end
  end.

(** [s.strip(chars)]: [p] decides membership in [chars]. *)
Definition strip (p : ascii -> bool) (s : string) : string :=
  rstrip p (lstrip p s).

(** [s.split(sep)] for a one-character separator: never the empty list. *)
Fixpoint str_split (sep : ascii) (s : string) : list string :=
  match s with
  | EmptyString => [EmptyString]
  | String c t =>
      if Ascii.eqb c sep then EmptyString :: str_split sep t
      else match str_split sep t with
           | h :: r => String c h :: r
           | [] => [String c EmptyString]
           end
  end.

Definition digit_val (c : ascii) : option Z :=
  let n := nat_of_ascii c in
  if (48 <=? n)%nat && (n <=? 57)%nat then Some (Z.of_nat (n - 48)) else None.

(** Decimal digits, where single underscores may separate digits.
    [prev] says that the previous character was a digit. *)
Fixpoint int_digits (acc : Z) (prev : bool) (s : string) : option Z :=
  match s with
  | EmptyString => if prev then Some acc else None
  | String c t =>
      match digit_val c with
      | Some d => int_digits (10 * acc + d) true t
      | None =>
          if Ascii.eqb c "_"%char && prev then int_digits acc false t else None
      end
  end.

(** The number of decimal digits of a literal, underscores left out. *)
Fixpoint digit_count (s : string) : nat :=
  match s with
  | EmptyString => 0
  | String c t =>
      match digit_val c with
      | Some _ => S (digit_count t)
      | None => digit_count t
      end
  end.

(** [sys.get_int_max_str_digits()], as the interpreter starts. *)
Definition max_str_digits : nat := 4300.

(** [int(s)] on a string: surrounding white space, an optional sign, decimal
    digits, no more than [max_str_digits] of them.  Anything else is a
    [ValueError]. *)
Definition int (s : string) : result Z :=
  let body := strip is_int_space s in
  let '(sign, digits) :=
    match body with
    | String "-"%char t => (-1, t)
    | String "+"%char t => (1, t)
    | _ => (1, body)
    end in
  match int_digits 0 false digits with
  | Some v =>
      if (max_str_digits <? digit_count digits)%nat then Raise ValueError
      else Ok (sign * v)
  | None => Raise ValueError
  end.

(** A physical line without its terminator, which is a carriage return
    followed by a line feed, or one of the two alone. *)
Fixpoint chomp (line : string) : string :=
  match line with
  | EmptyString => EmptyString
  | String c t =>
      match t with
      | EmptyString => if is_crlf c then EmptyString else line
      | String c' EmptyString =>
          if ((nat_of_ascii c =? 13)%nat && (nat_of_ascii c' =? 10)%nat)%bool
          then EmptyString else String c (chomp t)
      | _ => String c (chomp t)
      end
  end.

(** A line as [linecache] caches it: the file is read with universal
    newlines, so every terminator comes back as one line feed, and a last
    line without a terminator is given one. *)
Definition cached_line (line : string) : string :=
  (chomp line ++ String (ascii_of_nat 10) EmptyString)%string.

(** [linecache.getline(filename, lineno)]: the cached line [lineno]
    (1-based), or the empty string when there is no such line.  [file] is the
    list of the file's physical lines as universal-newline reading delimits
    them, terminators kept. *)
Definition getline (file : list string) (lineno : Z) : string :=
  if (1 <=? lineno) && (lineno <=? Z.of_nat (List.length file)) then
    cached_line (nth (Z.to_nat (lineno - 1)) file EmptyString)
  else EmptyString.

(** What [wc -l] prints: the number of line feeds, that is of physical lines
    that end in one (a line ended by a lone carriage return is not
    counted). *)
Fixpoint ends_with_newline (s : string) : bool :=
  match s with
  | EmptyString => false
  | String c EmptyString => (nat_of_ascii c =? 10)%nat
  | String _ t => ends_with_newline t
  end.

Definition wc_l (file : list string) : Z :=
  Z.of_nat (List.length (filter ends_with_newline file)).

(** *** Tensors *)

(** A 1-D integer tensor is the list of its entries, a 2-D tensor the list of
    its rows. *)
Abbreviation tensor1 := (list Z) (only parsing).
Abbreviation tensor2 := (list (list Z)) (only parsing).

(** The signed 64-bit range of torch's integer tensors. *)
Definition in_int64 (z : Z) : bool :=
  (- 9223372036854775808 <=? z) && (z <=? 9223372036854775807).

(** [torch.tensor(x)] on a list of Python integers: a value outside the
    64-bit range is a [RuntimeError] (overflow when unpacking).  A tensor is
    the list of its entries; its element type is not part of the model. *)
Definition torch_tensor (x : list Z) : result tensor1 :=
  if forallb in_int64 x then Ok x else Raise RuntimeError.

(** [t.size(1)] of a 2-D tensor with at least one row. *)
Definition size1 (t : tensor2) : Z :=
  match t with
  | [] => 0
  | r :: _ => Z.of_nat (List.length r)
  end.

Definition max_len (seqs : list tensor1) : nat :=
  fold_right (fun s m => Nat.max (List.length s) m) 0%nat seqs.

(** [torch.nn.utils.rnn.pad_sequence(seqs, batch_first=True,
    padding_value=v)]: one row per sequence, every row extended on the right
    with [v] to the length of the longest sequence. *)
Definition pad_sequence (seqs : list tensor1) (padding_value : Z) : tensor2 :=
  map (fun s => s ++ repeat padding_value (max_len seqs - List.length s)%nat) seqs.

(** [zip] over the unpacked [batch]: the columns of [batch], as many as its
    shortest row has entries. *)
Definition zip_cons {A : Type} (r : list A) (cols : list (list A)) : list (list A) :=
  map (fun p => fst p :: snd p) (combine r cols).

Fixpoint zip_star {A : Type} (batch : list (list A)) : list (list A) :=
  match batch with
  | [] => []
  | r :: rest =>
      match rest with
      | [] => map (fun x => [x]) r
      | _ :: _ => zip_cons r (zip_star rest)
      end
  end.

(** [t[:, lo:hi]] *)
Definition col_slice (t : tensor2) (lo hi : Z) : tensor2 :=
  map (fun row => py_slice row lo hi) t.

(* ===================================================================== *)
(** ** class Batch, _transform_batch                                      *)
(* ===================================================================== *)

Module Batch.

Record t : Type := mk {
  data : list tensor2;
  stoi : list (string * Z);
  seq_len : Z
}.

(** [d[k] = v] on a dict kept in insertion order. *)
Fixpoint dict_set (d : list (string * Z)) (k : string) (v : Z) : list (string * Z) :=
  match d with
  | [] => [(k, v)]
  | (k', v') :: r =>
      if String.eqb k' k then (k', v) :: r else (k', v') :: dict_set r k v
  end.

(** [d[k]]: [None] stands for [KeyError]. *)
Fixpoint dict_get (d : list (string * Z)) (k : string) : option Z :=
  match d with
  | [] => None
  | (k', v') :: r => if String.eqb k' k then Some v' else dict_get r k
  end.

(** [{f: i for i, f in enumerate(fields)}]: a later occurrence of a field
    name replaces the index of an earlier one. *)
Fixpoint enumerate_dict (fields : list string) (i : Z) (d : list (string * Z))
  : list (string * Z) :=
  match fields with
  | [] => d
  | f :: rest => enumerate_dict rest (i + 1) (dict_set d f i)
  end.

Definition __init__ (data : list tensor2) (fields : list string) (seq_len : Z) : t :=
  mk data (enumerate_dict fields 0 []) seq_len.

(** The windows of one field: [range(L // seq_len)] is evaluated first, the
    look-ups [stoi[f]] and [data[...]] once per window. *)
Definition windows (self : t) (L : Z) (f : string) : result (list tensor2) :=
  if seq_len self =? 0 then Raise ZeroDivisionError
  else
    mapM (fun i =>
            match dict_get (stoi self) f with
            | None => Raise KeyError
            | Some j =>
                m <- list_getitem (data self) j ;;
                Ok (col_slice m (i * seq_len self) ((i + 1) * seq_len self))
            end)
         (zrange 0 (L / seq_len self)).

Definition get (self : t) (fields : list string) : result (list (list tensor2)) :=
  match data self with
  | [] => Raise IndexError
  | d0 :: _ =>
      let L := size1 d0 in
      mapM (windows self L) fields
  end.

End Batch.

(** [batch] is a list of records, a record the list of its field sequences.
    Every sequence is a tensor here, which line 38 keeps as it is. *)
Definition _transform_batch (batch : list (list tensor1)) (fields : list string)
    (seq_len : Z) : Batch.t :=
  let batch := zip_star batch in
  let batch := map (fun item => pad_sequence item (-1)) batch in
  Batch.__init__ batch fields seq_len.

(** [_transform_batch] on records whose sequences are Python lists: line 38
    turns every list of a zipped column into a tensor before the column is
    padded, and fails on an entry outside the 64-bit range.  A sequence that
    [zip] drops is not converted. *)
Definition _transform_batch_lists (batch : list (list (list Z))) (fields : list string)
    (seq_len : Z) : result Batch.t :=
  let batch := zip_star batch in
  batch <- mapM (fun item => tensors <- mapM torch_tensor item ;;
                             Ok (pad_sequence tensors (-1))) batch ;;
  Ok (Batch.__init__ batch fields seq_len).

(* ===================================================================== *)
(** ** class Lines                                                        *)
(* ===================================================================== *)

Definition _clip (v low high : Z) : Z :=
  let v := if v <? low then low else v in
  let v := if v >? high then high else v in
  v.

Module Lines.

Record t : Type := mk {
  file : list string;    (* the physical lines of [filename], terminators kept *)
  length : Z;
  skip : Z;
  group : Z;
  preserve_newline : bool
}.

(** [contents] is what opening [filename] gives: [None] when it cannot be
    opened.  [win32] is [sys.platform == "win32"]. *)
Definition __init__ (contents : option (list string)) (win32 : bool)
    (skip group : Z) (preserve_newline : bool) : result t :=
  match contents with
  | None => Raise OSError
  | Some lines =>
      let linecount := if win32 then Z.of_nat (List.length lines) else wc_l lines in
      if group =? 0 then Raise ZeroDivisionError
      else Ok (mk lines ((linecount - skip) / group) skip group preserve_newline)
  end.

(** [len(self)]: the built-in refuses a negative [__len__]. *)
Definition __len__ (self : t) : result Z :=
  if length self <? 0 then Raise ValueError else Ok (length self).

(** What [self[...]] is asked for: an integer, a slice (its step is never
    read), or anything else. *)
Inductive key : Type :=
| Int (item : Z)
| Slice (start stop : option Z)
| Other.

(** One record: a single line when [group == 1], else a list of lines. *)
Inductive record : Type :=
| Line (line : string)
| Group (lines : list string).

Inductive value : Type :=
| One (r : record)
| Many (ls : list record).

Definition strip_newline (self : t) (line : string) : string :=
  if preserve_newline self then line else strip is_crlf line.

(** Lines 116-126, and again 140-150: the lines of record [i]. *)
Definition read (self : t) (i : Z) : record :=
  let d := skip self + 1 in
  if group self =? 1 then
    Line (strip_newline self (getline (file self) (i + d)))
  else
    Group (map (fun k => strip_newline self
                           (getline (file self) (d + i * group self + k)))
               (zrange 0 (group self))).

Definition __getitem__ (self : t) (item : key) : result value :=
  match item with
  | Int item =>
      n <- __len__ self ;;
      if item <? n then Ok (One (read self item)) else Raise IndexError
  | Slice start stop =>
      let low := match start with None => 0 | Some s => s end in
      n <- __len__ self ;;
      let low := _clip low (- n) (n - 1) in
      let low := if low <? 0 then low + n else low in
      let high := match stop with None => n | Some s => s end in
      let high := _clip high (- n) n in
      let high := if high <? 0 then high + n else high in
      Ok (Many (map (read self) (zrange low high)))
  | Other => Raise IndexError
  end.

(** [list(self)]: the records the generator [__iter__] yields, in order. *)
Definition __iter__ (self : t) : result (list value) :=
  n <- __len__ self ;;
  mapM (fun i => __getitem__ self (Int i)) (zrange 0 n).

End Lines.

(* ===================================================================== *)
(** ** class Transform                                                    *)
(* ===================================================================== *)

Module Transform.

Record t : Type := mk {
  data : Lines.t;
  inputs : list string;
  seq_len : Z
}.

Definition __len__ (self : t) : result Z := Lines.__len__ (data self).

(** [[int(x) for x in line.strip().split(",")]] *)
Definition parse_line (line : string) : result (list Z) :=
  mapM int (str_split ","%char (strip is_space line)).

(** [del batch[0]] followed by the comprehension over the remaining lines:
    the lists of integers, not yet tensors. *)
Definition parse_record (r : Lines.record) : result (list (list Z)) :=
  match r with
  | Lines.Line _ => Raise TypeError
  | Lines.Group [] => Raise IndexError
  | Lines.Group (_ :: rest) => mapM parse_line rest
  end.

Inductive value : Type :=
| Sequences (items : list tensor1)
| Assembled (b : Batch.t).

Definition __getitem__ (self : t) (index : Lines.key) : result value :=
  batch <- Lines.__getitem__ (data self) index ;;
  match index with
  | Lines.Int _ =>
      (* single sequence *)
      match batch with
      | Lines.One r =>
          items <- parse_record r ;;
          tensors <- mapM torch_tensor items ;;
          Ok (Sequences tensors)
      | Lines.Many _ => Raise TypeError
      end
  | _ =>
      (* batch *)
      match batch with
      | Lines.Many ls =>
          items <- mapM parse_record ls ;;
          b <- _transform_batch_lists items (inputs self) (seq_len self) ;;
          Ok (Assembled b)
      | Lines.One _ => Raise TypeError
      end
  end.

End Transform.

(* ===================================================================== *)
(** ** class Iterator                                                     *)
(* ===================================================================== *)

(** A Python value as the iterator sees it: an element of a source, which it
    never looks into, or a list it built itself. *)
#[local] Unset Elimination Schemes.
Inductive pyval (A : Type) : Type :=
| Atom (a : A)
| PList (l : list (pyval A)).
#[local] Set Elimination Schemes.
Arguments Atom {A} a.
Arguments PList {A} l.

(** A data or label source: what [len(s)], [callable(s)], [s[i]], [s[lo:hi]]
    and [s(lo, hi)] give. *)
Record Source (A : Type) : Type := mkSource {
  src_len : Z;
  src_callable : bool;
  src_getitem : Z -> result (pyval A);
  src_getslice : Z -> Z -> result (pyval A);
  src_call : Z -> Z -> result (pyval A)
}.
Arguments mkSource {A}.
Arguments src_len {A}.
Arguments src_callable {A}.
Arguments src_getitem {A}.
Arguments src_getslice {A}.
Arguments src_call {A}.

Module Iterator.

(** Where the worker thread stands inside [produce(daemon=True)]. *)
Inductive pc : Set :=
| Start                (* created, [produce] not entered yet *)
| NoBatch (i : Z)      (* lines 224-233, before iteration [i] *)
| Enter                (* line 242, before [range(self.pos, len(self))] *)
| Batched (i : Z)      (* lines 243-306, before iteration [i] *)
| Done.                (* [produce] has returned *)

Section WithElements.
Context {A : Type}.

Record t : Type := mk {
  data : Source A;
  label : list (Source A);
  prefetch : bool;
  batch_size : option Z;
  queue : list (result (pyval A));   (* [queue.Queue(maxsize=8)], oldest first *)
  length : Z;
  transform : option (pyval A -> result (pyval A));
  index : list Z;
  full_index : option (list Z);
  thread : option pc;
  pos : Z
}.

Definition maxsize : nat := 8.

Definition set_queue (self : t) (q : list (result (pyval A))) : t :=
  mk (data self) (label self) (prefetch self) (batch_size self) q (length self)
     (transform self) (index self) (full_index self) (thread self) (pos self).

Definition set_thread (self : t) (th : option pc) : t :=
  mk (data self) (label self) (prefetch self) (batch_size self) (queue self)
     (length self) (transform self) (index self) (full_index self) th (pos self).

Definition set_pos (self : t) (p : Z) : t :=
  mk (data self) (label self) (prefetch self) (batch_size self) (queue self)
     (length self) (transform self) (index self) (full_index self) (thread self) p.

(** [len(self)] *)
Definition __len__ (self : t) : result Z :=
  n <- match batch_size self with
       | None => Ok (length self)
       | Some bs => ceil_div (length self) bs
       end ;;
  if n <? 0 then Raise ValueError else Ok n.

(** [rnd_index] and [rnd_full] are the two draws of [random.shuffle]. *)
Definition __init__ (data : Source A) (label : list (Source A)) (prefetch : bool)
    (length : option Z) (batch_size : option Z)
    (transform : option (pyval A -> result (pyval A)))
    (shuffle full_shuffle : bool) (rnd_index rnd_full : list Z -> list Z)
  : result t :=
  let length := match length with Some n => n | None => src_len data end in
  if negb (forallb (fun lab => length =? src_len lab) label)
  then Raise AssertionError
  else
    let self := mk data label prefetch batch_size [] length transform [] None None 0 in
    n <- __len__ self ;;
    let index := zrange 0 n in
    let index := if shuffle then rnd_index index else index in
    let full_index :=
      if full_shuffle then Some (rnd_full (zrange 0 length)) else None in
    Ok (mk data label prefetch batch_size [] length transform index full_index None 0).

(** [[data] + label] when there are labels, else [data]. *)
Definition compose (d : pyval A) (labs : list (pyval A)) : pyval A :=
  match labs with
  | [] => d
  | _ :: _ => PList (d :: labs)
  end.

(** [i * bs] *)
Definition mul_bs (i : Z) (bs : option Z) : result Z :=
  match bs with
  | Some b => Ok (i * b)
  | None => Raise TypeError
  end.

(** Lines 225-230: the item of position [i] when there is no batch size. *)
Definition nobatch_body (self : t) (i : Z) : result (pyval A) :=
  d <- src_getitem (data self) i ;;
  labs <- mapM (fun lab => src_getitem lab i) (label self) ;;
  Ok (compose d labs).

Definition apply_transform (self : t) (raw : list (pyval A)) : result (pyval A) :=
  match transform self with
  | None => Ok (PList raw)
  | Some f => f (PList raw)
  end.

(** Lines 245-262: batch [i] of the element permutation [fi]. *)
Definition full_body (self : t) (fi : list Z) (i : Z) : result (pyval A) :=
  lo <- mul_bs i (batch_size self) ;;
  hi <- mul_bs (i + 1) (batch_size self) ;;
  let inds := py_slice fi lo hi in
  data_batch <- mapM (src_getitem (data self)) inds ;;
  data_batch <- apply_transform self data_batch ;;
  label_batch <- mapM (fun lab => raw <- mapM (src_getitem lab) inds ;;
                                  apply_transform self raw) (label self) ;;
  Ok (compose data_batch label_batch).

Definition fetch_range (s : Source A) (lo hi : Z) : result (pyval A) :=
  if src_callable s then src_call s lo hi else src_getslice s lo hi.

(** Lines 277-296: the contiguous batch that [self.index[i]] names. *)
Definition contiguous_body (self : t) (i : Z) : result (pyval A) :=
  index <- list_getitem (index self) i ;;
  lo <- mul_bs index (batch_size self) ;;
  hi <- mul_bs (index + 1) (batch_size self) ;;
  data_batch <- fetch_range (data self) lo hi ;;
  label_batch <- mapM (fun lab => fetch_range lab lo hi) (label self) ;;
  Ok (compose data_batch label_batch).

(** [if self.full_index: ... else: ...]: an empty permutation is false. *)
Definition batched_body (self : t) (i : Z) : result (pyval A) :=
  match full_index self with
  | Some (x :: fi) => full_body self (x :: fi) i
  | _ => contiguous_body self i
  end.

(** *** [produce(False)]: one step, run by the caller of [__next__] *)

Inductive outcome : Type :=
| Returned (self : t)
| Raised (e : exn)
| Blocked.               (* [queue.put] on a full queue, nobody to empty it *)

Definition put_sync (self : t) (item : pyval A) : outcome :=
  if (List.length (queue self) <? maxsize)%nat
  then Returned (set_queue self (queue self ++ [Ok item]))
  else Blocked.

Definition produce_batched_sync (self : t) : outcome :=
  match __len__ self with
  | Raise e => Raised e
  | Ok n =>
      if pos self <? n then
        match batched_body self (pos self) with
        | Ok item => put_sync self item
        | Raise e => Raised e
        end
      else Returned self
  end.

Definition produce_sync (self : t) : outcome :=
  match batch_size self with
  | None =>
      if pos self <? length self then
        match nobatch_body self (pos self) with
        | Ok item => put_sync self item
        | Raise e => Raised e
        end
      else produce_batched_sync self
  | Some _ => produce_batched_sync self
  end.

(** *** [produce()] in the worker thread, one step at a time *)

(** The end of one loop iteration: [queue.put(item)] and on to [next], or
    [queue.put(e); return].  A full queue blocks the worker where it is. *)
Definition emit (self : t) (r : result (pyval A)) (next : pc) : t :=
  if (List.length (queue self) <? maxsize)%nat then
    match r with
    | Ok item => set_thread (set_queue self (queue self ++ [Ok item])) (Some next)
    | Raise e => set_thread (set_queue self (queue self ++ [Raise e])) (Some Done)
    end
  else self.

Definition worker_step (self : t) : t :=
  match thread self with
  | None => self
  | Some Start =>
      match batch_size self with
      | None => set_thread self (Some (NoBatch (pos self)))
      | Some _ => set_thread self (Some Enter)
      end
  | Some (NoBatch i) =>
      if i <? length self then emit self (nobatch_body self i) (NoBatch (i + 1))
      else set_thread self (Some Enter)
  | Some Enter =>
      match __len__ self with
      | Ok _ => set_thread self (Some (Batched (pos self)))
      | Raise _ => set_thread self (Some Done)
      end
  | Some (Batched i) =>
      match __len__ self with
      | Ok n =>
          if i <? n then emit self (batched_body self i) (Batched (i + 1))
          else set_thread self (Some Done)
      | Raise _ => set_thread self (Some Done)
      end
  | Some Done => self
  end.

(** *** [__next__] *)

Inductive event : Type :=
| Item (v : pyval A)     (* the call returned [v] *)
| Exc (e : exn)          (* the call raised [e] *)
| StopIteration
| Waiting                (* blocked in [queue.get], the worker may still put *)
| Hang.                  (* blocked for good: there is no worker *)

Definition __next__ (self : t) : event * t :=
  let self :=
    match thread self with
    | None => if prefetch self then set_thread self (Some Start) else self
    | Some _ => self
    end in
  if Z.of_nat (List.length (index self)) <=? pos self then (StopIteration, self)
  else
    match (if prefetch self then Returned self else produce_sync self) with
    | Raised e => (Exc e, self)
    | Blocked => (Hang, self)
    | Returned self =>
        match queue self with
        | [] => (if prefetch self then Waiting else Hang, self)
        | Ok item :: q => (Item item, set_pos (set_queue self q) (pos self + 1))
        | Raise e :: q => (Exc e, set_queue self q)
        end
    end.

(** *** Runs *)

(** A run interleaves steps of the worker with calls of [__next__] (a call
    that found the queue empty is made again). *)
Inductive action : Set := Work | Next.

Fixpoint run (sched : list action) (self : t) : list event * t :=
  match sched with
  | [] => ([], self)
  | Work :: rest => run rest (worker_step self)
  | Next :: rest =>
      let '(ev, self') := __next__ self in
      match ev with
      | Hang => ([Hang], self')
      | _ => let '(evs, self'') := run rest self' in (ev :: evs, self'')
      end
  end.

(** The values a run handed to the caller, in order. *)
Fixpoint delivered (evs : list event) : list (pyval A) :=
  match evs with
  | [] => []
  | Item v :: rest => v :: delivered rest
  | _ :: rest => delivered rest
  end.

(** *** Notions used to state the properties of runs *)

(** The iterator [cfg] with another queue, worker and position. *)
Definition with_state (cfg : t) (q : list (result (pyval A))) (th : option pc)
    (ps : Z) : t :=
  mk (data cfg) (label cfg) (prefetch cfg) (batch_size cfg) q (length cfg)
     (transform cfg) (index cfg) (full_index cfg) th ps.

(** The item of position [i]: which loop of [produce] serves the caller. *)
Definition primary_body (cfg : t) (i : Z) : result (pyval A) :=
  match batch_size cfg with
  | None => nobatch_body cfg i
  | Some _ => batched_body cfg i
  end.

(** [len(self.index)], where [__next__] stops. *)
Definition bound (cfg : t) : Z := Z.of_nat (List.length (index cfg)).

(** What [__init__] establishes: [self.index] has [len(self)] entries. *)
Definition well_formed (cfg : t) : Prop := __len__ cfg = Ok (bound cfg).

Definition is_failure (x : result (pyval A)) : Prop :=
  match x with
  | Raise _ => True
  | Ok _ => False
  end.

(** [vs] are the items of the positions [from .. to). *)
Definition produced (cfg : t) (from to : Z) (vs : list (pyval A)) : Prop :=
  Forall2 (fun j v => primary_body cfg j = Ok v) (zrange from to) vs.

(** What the program counter of the worker says about the queue: before the
    first item nothing was put; in the loop that serves the caller the worker
    stands at position [k] and has put no failure. *)
Definition pc_ok (cfg : t) (c : pc) (q : list (result (pyval A))) (k : Z)
    (tail : list (result (pyval A))) : Prop :=
  match c, batch_size cfg with
  | Start, _ => q = []
  | NoBatch i, None => i = k /\ tail = []
  | NoBatch _, Some _ => False
  | Enter, Some _ => q = []
  | Batched i, Some _ => i = k /\ tail = []
  | _, _ => True
  end.

(** What holds of queue, worker and position during a run with a worker: the
    queue holds the items of the positions [ps .. k) and then failures
    only. *)
Definition worker_inv (cfg : t) (q : list (result (pyval A))) (th : option pc)
    (ps : Z) : Prop :=
  match th with
  | None => q = []
  | Some c =>
      exists k vs tail,
        q = map Ok vs ++ tail /\ ps <= k /\ produced cfg ps k vs /\
        Forall is_failure tail /\ pc_ok cfg c q k tail
  end.

(** The worker has returned after putting a failure, which is the last entry
    of the queue; or there is no failure in the queue. *)
Definition failure_last (q : list (result (pyval A))) (th : option pc) : Prop :=
  (exists vs, q = map Ok vs) \/
  (th = Some Done /\ exists vs e, q = map Ok vs ++ [Raise e]).

(** The production step that [self] runs next, if there is one: the loop
    iteration the worker stands before, or the one [produce(False)] would
    run. *)
Definition next_step (self : t) : option (result (pyval A)) :=
  if prefetch self then
    match thread self with
    | Some (NoBatch i) =>
        if i <? length self then Some (nobatch_body self i) else None
    | Some (Batched i) =>
        match __len__ self with
        | Ok n => if i <? n then Some (batched_body self i) else None
        | Raise _ => None
        end
    | _ => None
    end
  else
    match batch_size self with
    | None =>
        if pos self <? length self then Some (nobatch_body self (pos self))
        else match __len__ self with
             | Ok n => if pos self <? n then Some (batched_body self (pos self)) else None
             | Raise _ => None
             end
    | Some _ =>
        match __len__ self with
        | Ok n => if pos self <? n then Some (batched_body self (pos self)) else None
        | Raise _ => None
        end
    end.

(** The program counter of the worker inside the loop that serves the
    caller. *)
Definition loop_pc (cfg : t) (i : Z) : pc :=
  match batch_size cfg with
  | None => NoBatch i
  | Some _ => Batched i
  end.

(** The iterator [self] with another transform. *)
Definition set_transform (self : t) (tr : option (pyval A -> result (pyval A))) : t :=
  mk (data self) (label self) (prefetch self) (batch_size self) (queue self)
     (length self) tr (index self) (full_index self) (thread self) (pos self).

(** The data batch inside a delivered item: the item itself when there are no
    labels, else the first entry of the list [[data_batch] + label_batch]. *)
Definition data_batch (labels : list (Source A)) (item : pyval A)
  : option (list (pyval A)) :=
  match labels, item with
  | [], PList es => Some es
  | _ :: _, PList (PList es :: _) => Some es
  | _, _ => None
  end.

(** A schedule that lets the worker put one item and the caller take it, [n]
    times over, and then calls [__next__] once more. *)
Definition lockstep (prefetch : bool) (bs : option Z) (n : nat) : list action :=
  if prefetch then
    Next :: Work :: match bs with None => [] | Some _ => [Work] end
      ++ flat_map (fun _ => [Work; Next]) (seq 0 n) ++ [Next]
  else repeat Next n ++ [Next].

End WithElements.
Arguments t A : clear implicits.
Arguments event A : clear implicits.
Arguments outcome A : clear implicits.

End Iterator.

(* ===================================================================== *)
(** ** class KTData                                                       *)
(* ===================================================================== *)

Module KTData.

Record t : Type := mk {
  inputs : list string;
  data : Lines.t;
  batch_size : option Z;
  seq_len : Z;
  shuffle : bool
}.

(** [contents] and [win32] stand for the file at [data_path] and the
    platform, as in [Lines.__init__]. *)
Definition __init__ (contents : option (list string)) (win32 : bool)
    (inputs : option (list string)) (batch_size : option Z) (seq_len : Z)
    (shuffle : bool) : result t :=
  let inputs := match inputs with None => ["q"; "s"]%string | Some l => l end in
  data <- Lines.__init__ contents win32 0 (Z.of_nat (List.length inputs) + 1) false ;;
  Ok (mk inputs data batch_size seq_len shuffle).

(** The [Transform] object as a source of the iterator; [n] is its [len]. *)
Definition source (tr : Transform.t) (n : Z) : Source Transform.value :=
  mkSource n false
    (fun i => v <- Transform.__getitem__ tr (Lines.Int i) ;; Ok (Atom v))
    (fun lo hi =>
       v <- Transform.__getitem__ tr (Lines.Slice (Some lo) (Some hi)) ;; Ok (Atom v))
    (fun _ _ => Raise TypeError).

(** [lambda x: _transform_batch(x, self.inputs, self.seq_len)] on the list of
    elements the iterator fetched: each element must be a record's list of
    sequences (a [Batch] cannot be unpacked by [zip]). *)
Definition transform (self : t) (x : pyval Transform.value)
  : result (pyval Transform.value) :=
  match x with
  | PList items =>
      seqs <- mapM (fun it => match it with
                              | Atom (Transform.Sequences s) => Ok s
                              | _ => Raise TypeError
                              end) items ;;
      Ok (Atom (Transform.Assembled (_transform_batch seqs (inputs self) (seq_len self))))
  | Atom _ => Raise TypeError
  end.

Definition __iter__ (self : t) (rnd_index rnd_full : list Z -> list Z)
  : result (Iterator.t Transform.value) :=
  let tr := Transform.mk (data self) (inputs self) (seq_len self) in
  n <- Transform.__len__ tr ;;
  Iterator.__init__ (source tr n) [] true None (batch_size self)
                    (Some (transform self)) false (shuffle self) rnd_index rnd_full.

End KTData.

(** Projections of an iterator whose state is written out. *)
Ltac st_simpl :=
  cbn [Iterator.with_state Iterator.data Iterator.label Iterator.prefetch
       Iterator.batch_size Iterator.queue Iterator.length Iterator.transform
       Iterator.index Iterator.full_index Iterator.thread Iterator.pos
       Iterator.set_queue Iterator.set_thread Iterator.set_pos] in *.

(* ===================================================================== *)
(** ** Reference notions used by the statements                           *)
(* ===================================================================== *)

(** The sequences of field [f], one per record of the batch. *)
Definition field_seqs (batch : list (list tensor1)) (f : nat) : list tensor1 :=
  map (fun rec => nth f rec []) batch.

(** Window [k] of a padded matrix: its columns [k*seq_len .. (k+1)*seq_len). *)
Definition window (M : tensor2) (seq_len k : Z) : tensor2 :=
  col_slice M (k * seq_len) ((k + 1) * seq_len).

(** Every sequence of one record has the same length. *)
Definition aligned_record (rec : list tensor1) : Prop :=
  forall s s', In s rec -> In s' rec -> List.length s = List.length s'.

(** Array-slice normalisation of a pair of bounds over [n] elements, as the
    specification words it: an absent bound is [0] or [n], a negative one
    counts from the end, and both are clamped into [0, n]. *)
Definition normalized_range (n : Z) (lo hi : option Z) : list Z :=
  zrange (norm_bound n (match lo with None => 0 | Some l => l end))
         (norm_bound n (match hi with None => n | Some h => h end)).

(** Operands of [math.ceil(a / b)] for which Python's result is the exact
    ceiling: both below 2^53 in magnitude, so that the double nearest to the
    quotient never lies on the other side of an integer. *)
Definition float_exact (a b : Z) : Prop :=
  Z.abs a < 2 ^ 53 /\ Z.abs b < 2 ^ 53.

(** The comma-separated tokens of one field line. *)
Definition tokens (line : string) : list string :=
  str_split ","%char (strip is_space line).

(** The file of the specification's scenario: three records of two lines. *)
Definition newline : string := String (ascii_of_nat 10) EmptyString.

Definition sample_file : list string :=
  map (fun s => (s ++ newline)%string)
      ["2"; "1,2"; "3"; "4,5,6"; "1"; "7"]%string.

Definition sample_lines : Lines.t := Lines.mk sample_file 3 0 2 false.

Definition sample_transform : Transform.t :=
  Transform.mk sample_lines ["q"%string] 200.

(** A source that indexes and slices the Python list [l]. *)
Definition list_source (l : list Z) : Source Z :=
  mkSource (Z.of_nat (List.length l)) false
    (fun i => x <- list_getitem l i ;; Ok (Atom x))
    (fun lo hi => Ok (PList (map Atom (py_slice l lo hi))))
    (fun _ _ => Raise TypeError).

(** A source of three elements whose file cannot be read. *)
Definition broken_source : Source Z :=
  mkSource 3 false (fun _ => Raise OSError) (fun _ _ => Raise OSError)
    (fun _ _ => Raise TypeError).

(** A transform that is easy to recognise. *)
Definition mark_transform (x : pyval Z) : result (pyval Z) := Ok (PList [Atom 99; x]).

(* ===================================================================== *)
(** ** General lemmas                                                     *)
(* ===================================================================== *)

Section ErrorMonad.
Context {A B : Type}.
Variable f : A -> result B.

Lemma mapM_ok_iff (l : list A) (ys : list B) :
  mapM f l = Ok ys <-> Forall2 (fun x y => f x = Ok y) l ys.
Proof.
  revert ys. induction l as [|x l IH]; intros ys; simpl.
  - split; intros H.
    + injection H as <-. constructor.
    + inversion H. reflexivity.
  - destruct (f x) as [y|e] eqn:Hx; simpl.
    + destruct (mapM f l) as [zs|e] eqn:Hl; simpl.
      * split; intros H.
        -- injection H as <-. constructor; [assumption|]. now apply IH.
        -- inversion H as [|? y' ? zs' Hy Hzs]; subst.
           rewrite Hx in Hy. injection Hy as <-.
           apply IH in Hzs. now injection Hzs as <-.
      * split; intros H; [discriminate|].
        inversion H as [|? y' ? zs' Hy Hzs]; subst.
        apply IH in Hzs. discriminate.
    + split; intros H; [discriminate|].
      inversion H as [|? y' ? zs' Hy Hzs]; subst. congruence.
Qed.

Lemma mapM_raise_iff (l : list A) (e : exn) :
  mapM f l = Raise e <->
  exists l1 x l2, l = l1 ++ x :: l2 /\ f x = Raise e /\
                  Forall (fun a => exists b, f a = Ok b) l1.
Proof.
  induction l as [|x l IH]; simpl.
  - split; [discriminate|]. intros (l1 & x & l2 & H & _). now destruct l1.
  - destruct (f x) as [y|e'] eqn:Hx; simpl.
    + destruct (mapM f l) as [zs|e'] eqn:Hl; simpl.
      * split; [discriminate|].
        intros (l1 & a & l2 & H & Ha & Hl1).
        destruct l1 as [|b l1]; simpl in H; injection H as -> ->; [congruence|].
        inversion Hl1; subst.
        assert (Hr : Ok zs = Raise e) by (apply IH; exists l1, a, l2; auto).
        discriminate.
      * split.
        -- intros H. injection H as ->.
           destruct (proj1 IH eq_refl) as (l1 & a & l2 & -> & Ha & Hl1).
           exists (x :: l1), a, l2. repeat split; eauto.
        -- intros (l1 & a & l2 & H & Ha & Hl1).
           destruct l1 as [|b l1]; simpl in H; injection H as -> ->; [congruence|].
           inversion Hl1; subst.
           assert (Hr : Raise e' = Raise e) by (apply IH; exists l1, a, l2; auto).
           exact Hr.
    + split.
      * intros H. injection H as ->. exists [], x, l. repeat split; auto.
      * intros (l1 & a & l2 & H & Ha & Hl1).
        destruct l1 as [|b l1]; simpl in H; injection H as -> ->; [congruence|].
        inversion Hl1 as [|? ? [b' Hb] ?]; subst. congruence.
Qed.

End ErrorMonad.

Lemma mapM_pure {A B : Type} (g : A -> B) (l : list A) :
  mapM (fun x => Ok (g x)) l = Ok (map g l).
Proof.
  induction l as [|x l IH]; simpl; [reflexivity|]. now rewrite IH.
Qed.

Lemma mapM_ext {A B : Type} (f g : A -> result B) (l : list A) :
  (forall x, In x l -> f x = g x) -> mapM f l = mapM g l.
Proof.
  induction l as [|x l IH]; intros H; simpl; [reflexivity|].
  rewrite (H x (or_introl eq_refl)), IH; [reflexivity|].
  intros y Hy. apply H. now right.
Qed.

Lemma zrange_length (lo hi : Z) : List.length (zrange lo hi) = Z.to_nat (hi - lo).
Proof. unfold zrange. now rewrite length_map, length_seq. Qed.

Lemma zrange_nth_error (lo hi : Z) (k : nat) :
  (k < Z.to_nat (hi - lo))%nat -> nth_error (zrange lo hi) k = Some (lo + Z.of_nat k).
Proof.
  intros H. unfold zrange.
  rewrite nth_error_map, nth_error_seq.
  destruct (Nat.ltb_spec k (Z.to_nat (hi - lo))); [reflexivity|lia].
Qed.

Lemma zrange_In (lo hi x : Z) : In x (zrange lo hi) <-> lo <= x < hi.
Proof.
  unfold zrange. rewrite in_map_iff. split.
  - intros (k & <- & Hk). apply in_seq in Hk. lia.
  - intros H. exists (Z.to_nat (x - lo)). split; [lia|]. apply in_seq. lia.
Qed.

Lemma zrange_empty (lo hi : Z) : hi <= lo -> zrange lo hi = [].
Proof.
  intros H. unfold zrange. replace (Z.to_nat (hi - lo)) with 0%nat by lia. reflexivity.
Qed.

Lemma zrange_cons (lo hi : Z) : lo < hi -> zrange lo hi = lo :: zrange (lo + 1) hi.
Proof.
  intros H. unfold zrange.
  replace (Z.to_nat (hi - lo)) with (S (Z.to_nat (hi - (lo + 1)))) by lia.
  simpl. f_equal; [lia|].
  rewrite <- seq_shift, map_map. apply map_ext. intros k. lia.
Qed.

Lemma zrange_snoc (lo hi : Z) : lo <= hi -> zrange lo (hi + 1) = zrange lo hi ++ [hi].
Proof.
  intros H. unfold zrange.
  replace (Z.to_nat (hi + 1 - lo)) with (Z.to_nat (hi - lo) + 1)%nat by lia.
  rewrite seq_app, map_app. simpl. do 2 f_equal. lia.
Qed.

(* ===================================================================== *)
(** ** The batch assembler                                                *)
(* ===================================================================== *)

Section Transpose.
Context {A : Type}.

Lemma zip_cons_nth_error (r : list A) (cols : list (list A)) (f : nat) (col : list A) :
  nth_error (zip_cons r cols) f = Some col <->
  exists x c, nth_error r f = Some x /\ nth_error cols f = Some c /\ col = x :: c.
Proof.
  unfold zip_cons. revert cols f.
  induction r as [|x r IH]; intros cols f.
  - simpl. split.
    + destruct f; discriminate.
    + intros (y & c & H & _). destruct f; discriminate.
  - destruct cols as [|c cols]; simpl.
    + split.
      * destruct f; discriminate.
      * intros (y & c & _ & H & _). destruct f; discriminate.
    + destruct f as [|f]; simpl.
      * split.
        -- intros H. injection H as <-. eauto.
        -- intros (y & c' & Hy & Hc & ->). congruence.
      * apply IH.
Qed.

(** Column [f] of [zip_star batch] exists exactly when the batch is not empty
    and every record has more than [f] entries; it then lists entry [f] of
    each record. *)
Lemma zip_star_nth_error (batch : list (list A)) (f : nat) (col : list A) :
  nth_error (zip_star batch) f = Some col <->
  batch <> [] /\ Forall2 (fun rec x => nth_error rec f = Some x) batch col.
Proof.
  revert col. induction batch as [|r rest IH]; intros col.
  - simpl. split.
    + destruct f; discriminate.
    + intros [H _]. congruence.
  - destruct rest as [|r2 rest].
    + simpl. rewrite nth_error_map. split.
      * destruct (nth_error r f) as [x|] eqn:Hx; simpl; [|discriminate].
        intros H. injection H as <-. split; [discriminate|].
        repeat constructor. assumption.
      * intros [_ H]. inversion H as [|? x ? col' Hx Hc]; subst.
        inversion Hc; subst. now rewrite Hx.
    + change (zip_star (r :: r2 :: rest)) with (zip_cons r (zip_star (r2 :: rest))).
      rewrite zip_cons_nth_error. split.
      * intros (x & c & Hx & Hc & ->). split; [discriminate|].
        constructor; [assumption|]. now apply IH.
      * intros [_ H]. inversion H as [|? x ? c Hx Hc]; subst.
        exists x, c. repeat split; [assumption|]. apply IH. split; [discriminate|assumption].
Qed.

End Transpose.

Lemma field_seqs_column (batch : list (list tensor1)) (f : nat) (col : list tensor1) :
  Forall2 (fun rec x => nth_error rec f = Some x) batch col -> col = field_seqs batch f.
Proof.
  unfold field_seqs. induction 1 as [|rec x batch col Hx _ IH]; simpl; [reflexivity|].
  rewrite <- IH. f_equal. symmetry. now apply nth_error_nth.
Qed.

Lemma column_of_field_seqs (batch : list (list tensor1)) (f : nat) :
  Forall (fun rec => (f < List.length rec)%nat) batch ->
  Forall2 (fun rec x => nth_error rec f = Some x) batch (field_seqs batch f).
Proof.
  unfold field_seqs. induction 1 as [|rec batch Hf _ IH]; simpl; constructor; [|assumption].
  now apply nth_error_nth'.
Qed.

Lemma max_len_ge (seqs : list tensor1) (s : tensor1) :
  In s seqs -> (List.length s <= max_len seqs)%nat.
Proof.
  induction seqs as [|x seqs IH]; simpl; [tauto|].
  intros [->|H]; [lia|]. specialize (IH H). lia.
Qed.

Lemma max_len_const (seqs : list tensor1) (n : nat) :
  seqs <> [] -> Forall (fun s => List.length s = n) seqs -> max_len seqs = n.
Proof.
  intros Hne H. revert Hne.
  induction H as [|s seqs Hs Hrest IH]; intros Hne; [now elim Hne|].
  simpl. destruct seqs as [|s' seqs]; [simpl; lia|].
  rewrite IH by discriminate. lia.
Qed.

Lemma pad_sequence_length (seqs : list tensor1) (v : Z) :
  List.length (pad_sequence seqs v) = List.length seqs.
Proof. unfold pad_sequence. apply length_map. Qed.

(** Row [r] of the padded matrix: the sequence, then the padding value up to
    the common width. *)
Lemma pad_sequence_row (seqs : list tensor1) (v : Z) (r : nat) (s : tensor1) :
  nth_error seqs r = Some s ->
  exists row,
    nth_error (pad_sequence seqs v) r = Some row /\
    List.length row = max_len seqs /\
    forall c, (c < max_len seqs)%nat ->
      nth_error row c = Some (if (c <? List.length s)%nat then nth c s 0 else v).
Proof.
  intros Hs. unfold pad_sequence. rewrite nth_error_map, Hs. simpl.
  eexists. split; [reflexivity|].
  assert (Hle : (List.length s <= max_len seqs)%nat)
    by (apply max_len_ge; eapply nth_error_In; eassumption).
  split.
  - rewrite length_app, repeat_length. lia.
  - intros c Hc. destruct (Nat.ltb_spec c (List.length s)) as [Hlt|Hge].
    + rewrite nth_error_app1 by assumption. now apply nth_error_nth'.
    + rewrite nth_error_app2 by assumption.
      apply nth_error_repeat. lia.
Qed.

Lemma pad_sequence_widths (seqs : list tensor1) (v : Z) :
  Forall (fun row => List.length row = max_len seqs) (pad_sequence seqs v).
Proof.
  apply Forall_forall. intros row Hin.
  apply In_nth_error in Hin. destruct Hin as [r Hr].
  assert (Hlt : (r < List.length seqs)%nat).
  { rewrite <- (pad_sequence_length seqs v). apply nth_error_Some. congruence. }
  destruct (nth_error seqs r) as [s|] eqn:Hs; [|apply nth_error_None in Hs; lia].
  destruct (pad_sequence_row seqs v r s Hs) as (row' & Hrow' & Hlen & _).
  congruence.
Qed.

Lemma pad_sequence_size1 (seqs : list tensor1) (v : Z) :
  seqs <> [] -> size1 (pad_sequence seqs v) = Z.of_nat (max_len seqs).
Proof.
  intros Hne. pose proof (pad_sequence_widths seqs v) as H.
  destruct seqs as [|s seqs]; [congruence|].
  unfold pad_sequence in *. simpl in *. inversion H; subst. unfold size1. lia.
Qed.

(** The matrix of field [f] in an assembled batch is the padding of that
    field's sequences. *)
Lemma transform_batch_field (batch : list (list tensor1)) (fields : list string)
    (seq_len : Z) (f : nat) (M : tensor2) :
  nth_error (Batch.data (_transform_batch batch fields seq_len)) f = Some M <->
  batch <> [] /\ Forall (fun rec => (f < List.length rec)%nat) batch /\
  M = pad_sequence (field_seqs batch f) (-1).
Proof.
  unfold _transform_batch, Batch.__init__. simpl. rewrite nth_error_map.
  split.
  - destruct (nth_error (zip_star batch) f) as [col|] eqn:Hcol; simpl; [|discriminate].
    intros H. injection H as <-. apply zip_star_nth_error in Hcol.
    destruct Hcol as [Hne Hcol]. split; [assumption|]. split.
    + clear Hne. induction Hcol as [|rec x b c Hx _ IH]; constructor; [|assumption].
      apply nth_error_Some. congruence.
    + f_equal. now apply field_seqs_column.
  - intros (Hne & Hall & ->).
    assert (Hcol : nth_error (zip_star batch) f = Some (field_seqs batch f)).
    { apply zip_star_nth_error. split; [assumption|]. now apply column_of_field_seqs. }
    now rewrite Hcol.
Qed.

Lemma field_seqs_length (batch : list (list tensor1)) (f : nat) :
  List.length (field_seqs batch f) = List.length batch.
Proof. unfold field_seqs. apply length_map. Qed.

(** C5 (padding law).  In the batch assembled from a non-empty list of
    records that all have a field [f], the matrix of field [f] has one row per
    record and as many columns as the longest sequence of that field; cell
    (r, c) holds entry [c] of record [r]'s sequence when the sequence is that
    long, and the sentinel -1 otherwise. *)
Theorem padding_law (batch : list (list tensor1)) (fields : list string)
    (seq_len : Z) (f : nat) :
  batch <> [] ->
  Forall (fun rec => (f < List.length rec)%nat) batch ->
  exists M,
    nth_error (Batch.data (_transform_batch batch fields seq_len)) f = Some M /\
    List.length M = List.length batch /\
    size1 M = Z.of_nat (max_len (field_seqs batch f)) /\
    forall r, (r < List.length batch)%nat ->
      exists row,
        nth_error M r = Some row /\
        List.length row = max_len (field_seqs batch f) /\
        forall c, (c < max_len (field_seqs batch f))%nat ->
          nth_error row c =
          Some (if (c <? List.length (nth r (field_seqs batch f) []))%nat
                then nth c (nth r (field_seqs batch f) []) 0
                else -1).
Proof.
  intros Hne Hall.
  exists (pad_sequence (field_seqs batch f) (-1)).
  split; [now apply transform_batch_field|].
  split; [now rewrite pad_sequence_length, field_seqs_length|].
  split.
  - apply pad_sequence_size1. intros H.
    apply (f_equal (@List.length _)) in H. rewrite field_seqs_length in H.
    destruct batch; [congruence|discriminate].
  - intros r Hr. apply pad_sequence_row.
    apply nth_error_nth'. now rewrite field_seqs_length.
Qed.

Lemma padding_law_witness :
  exists M,
    nth_error (Batch.data (_transform_batch [[[1; 2]]; [[4; 5; 6]]]
                                            ["q"%string] 2)) 0 = Some M /\
    M = [[1; 2; -1]; [4; 5; 6]].
Proof.
  destruct (padding_law [[[1; 2]]; [[4; 5; 6]]] ["q"%string] 2 0)
    as (M & HM & _); [discriminate|repeat constructor|].
  exists M. split; [exact HM|].
  vm_compute in HM. now injection HM as <-.
Defined.

Lemma max_len_map_length (s1 s2 : list (list Z)) :
  map (@List.length Z) s1 = map (@List.length Z) s2 -> max_len s1 = max_len s2.
Proof.
  revert s2. induction s1 as [|x s1 IH]; intros [|y s2] H; try discriminate; simpl.
  - reflexivity.
  - simpl in H. injection H as Hxy H. rewrite Hxy, (IH s2 H). reflexivity.
Qed.

Lemma aligned_field_lengths (batch : list (list (list Z))) (f g : nat) :
  Forall aligned_record batch ->
  Forall (fun rec => (f < List.length rec)%nat) batch ->
  Forall (fun rec => (g < List.length rec)%nat) batch ->
  map (@List.length Z) (field_seqs batch f) = map (@List.length Z) (field_seqs batch g).
Proof.
  unfold field_seqs. induction 1 as [|rec batch Hal _ IH]; intros Hf Hg; simpl; [reflexivity|].
  inversion Hf; inversion Hg; subst. f_equal; [|now apply IH].
  apply Hal; apply nth_In; assumption.
Qed.

(** C9, as stated, fails: one record whose two fields have 3 and 1 entries
    gives a batch whose arrays have 3 and 1 columns. *)
Lemma batch_extents_counterexample :
  exists M N,
    Batch.data (_transform_batch [[[1; 2; 3]; [4]]] ["q"%string; "s"%string] 2)
      = [M; N] /\
    List.length M = List.length N /\ size1 M = 3 /\ size1 N = 1.
Proof.
  exists [[1; 2; 3]], [[4]]. repeat split.
Qed.

(** C9, amended.  Every array of an assembled batch has one row per record;
    the array of field [f] has as many columns as the longest sequence of
    field [f], so two arrays agree in width exactly when those maxima agree,
    as they do when the sequences of each record have one common length. *)
Theorem batch_extents (batch : list (list (list Z))) (fields : list string)
    (seq_len : Z) (f : nat) (M : list (list Z)) :
  nth_error (Batch.data (_transform_batch batch fields seq_len)) f = Some M ->
  List.length M = List.length batch /\
  Forall (fun row => List.length row = max_len (field_seqs batch f)) M /\
  (Forall aligned_record batch ->
   forall (g : nat) (N : list (list Z)),
     nth_error (Batch.data (_transform_batch batch fields seq_len)) g = Some N ->
     List.length N = List.length M /\ size1 N = size1 M /\
     Forall (fun row => List.length row = max_len (field_seqs batch f)) N).
Proof.
  intros HM. apply transform_batch_field in HM. destruct HM as (Hne & Hf & ->).
  split; [now rewrite pad_sequence_length, field_seqs_length|].
  split; [apply pad_sequence_widths|].
  intros Hal g N HN. apply transform_batch_field in HN. destruct HN as (_ & Hg & ->).
  assert (Hmax : max_len (field_seqs batch g) = max_len (field_seqs batch f))
    by (apply max_len_map_length; now apply aligned_field_lengths).
  assert (Hseqs : forall h, field_seqs batch h <> []).
  { intros h H. apply (f_equal (@List.length _)) in H.
    rewrite field_seqs_length in H. destruct batch; [congruence|discriminate]. }
  split; [now rewrite !pad_sequence_length, !field_seqs_length|].
  split; [rewrite !pad_sequence_size1 by apply Hseqs; now rewrite Hmax|].
  rewrite <- Hmax. apply pad_sequence_widths.
Qed.

Lemma batch_extents_witness :
  let b := _transform_batch [[[1; 2]; [3; 4]]; [[5]; [6]]] ["q"%string; "s"%string] 2 in
  exists M N,
    nth_error (Batch.data b) 0 = Some M /\ nth_error (Batch.data b) 1 = Some N /\
    List.length M = 2%nat /\ List.length N = List.length M /\ size1 N = size1 M.
Proof.
  exists [[1; 2]; [5; -1]], [[3; 4]; [6; -1]].
  pose proof (batch_extents [[[1; 2]; [3; 4]]; [[5]; [6]]] ["q"%string; "s"%string] 2 0
                [[1; 2]; [5; -1]] eq_refl) as (Hrows & _ & Heq).
  split; [reflexivity|]. split; [reflexivity|]. split; [exact Hrows|].
  assert (Hal : Forall aligned_record [[[1; 2]; [3; 4]]; [[5]; [6]]]).
  { repeat constructor; intros s s' Hs Hs'; simpl in Hs, Hs';
      repeat (destruct Hs as [<-|Hs]; [|]); try contradiction;
      repeat (destruct Hs' as [<-|Hs']; [|]); try contradiction; reflexivity. }
  destruct (Heq Hal 1%nat [[3; 4]; [6; -1]] eq_refl) as (H1 & H2 & _).
  split; [exact H1|exact H2].
Defined.

(** *** Windows *)

Lemma py_slice_length {A : Type} (l : list A) (lo hi : Z) :
  0 <= lo <= hi ->
  Z.of_nat (List.length (py_slice l lo hi)) =
  Z.min (hi - lo) (Z.max 0 (Z.of_nat (List.length l) - lo)).
Proof.
  intros H. unfold py_slice, norm_bound.
  destruct (Z.ltb_spec lo 0); [lia|]. destruct (Z.ltb_spec hi 0); [lia|].
  rewrite length_firstn, length_skipn. lia.
Qed.

Lemma size1_nonneg (t : list (list Z)) : 0 <= size1 t.
Proof. destruct t; simpl; lia. Qed.

Lemma windows_ok (b : Batch.t) (L : Z) (f : string) (j : Z) (M : list (list Z)) :
  Batch.seq_len b <> 0 ->
  Batch.dict_get (Batch.stoi b) f = Some j ->
  list_getitem (Batch.data b) j = Ok M ->
  Batch.windows b L f =
  Ok (map (window M (Batch.seq_len b)) (zrange 0 (L / Batch.seq_len b))).
Proof.
  intros Hsl Hj HM. unfold Batch.windows.
  destruct (Z.eqb_spec (Batch.seq_len b) 0); [contradiction|].
  rewrite Hj, HM. simpl. apply mapM_pure.
Qed.

(** C6, as stated, fails: field [s] is padded to width 2 and [seq_len] is 2,
    so one window is announced; [get] returns two, because it counts them on
    the first field (width 4), and the second one is empty. *)
Lemma batch_get_counterexample :
  let b := _transform_batch [[[1; 2; 3; 4]; [5; 6]]] ["q"%string; "s"%string] 2 in
  nth_error (Batch.data b) 1 = Some [[5; 6]] /\
  size1 [[5; 6]] / Batch.seq_len b = 1 /\
  Batch.get b ["s"%string] = Ok [[ [[5; 6]]; [[]] ]].
Proof. repeat split. Qed.

(** C6, amended.  With a positive [seq_len], [get] returns for every
    requested field exactly floor(L / seq_len) windows, where L is the width of
    the first array of the batch, whichever field is asked for; window [k]
    holds the columns [k*seq_len .. (k+1)*seq_len) of the field's own array, so
    the same column range for every field, cut at the array's width: a row of
    it has min(seq_len, max(0, width - k*seq_len)) entries, which is [seq_len]
    whenever the array is at least as wide as the first one. *)
Theorem batch_get_windows (b : Batch.t) (d0 : list (list Z))
    (rest : list (list (list Z))) (fields : list string) :
  Batch.data b = d0 :: rest ->
  0 < Batch.seq_len b ->
  Forall (fun f => exists j M, Batch.dict_get (Batch.stoi b) f = Some j /\
                               list_getitem (Batch.data b) j = Ok M) fields ->
  exists res,
    Batch.get b fields = Ok res /\
    Forall2 (fun f ws =>
      exists j M,
        Batch.dict_get (Batch.stoi b) f = Some j /\
        list_getitem (Batch.data b) j = Ok M /\
        ws = map (window M (Batch.seq_len b)) (zrange 0 (size1 d0 / Batch.seq_len b)) /\
        Z.of_nat (List.length ws) = size1 d0 / Batch.seq_len b /\
        forall k row, 0 <= k < size1 d0 / Batch.seq_len b -> In row M ->
          let w := py_slice row (k * Batch.seq_len b) ((k + 1) * Batch.seq_len b) in
          Z.of_nat (List.length w) =
            Z.min (Batch.seq_len b)
                  (Z.max 0 (Z.of_nat (List.length row) - k * Batch.seq_len b)) /\
          (size1 d0 <= Z.of_nat (List.length row) ->
           Z.of_nat (List.length w) = Batch.seq_len b))
      fields res.
Proof.
  intros Hd Hsl Hfields.
  assert (Hget : forall fs, Batch.get b fs = mapM (Batch.windows b (size1 d0)) fs)
    by (intros fs; unfold Batch.get; now rewrite Hd).
  rewrite Hget. clear Hget.
  set (sl := Batch.seq_len b) in *. set (L := size1 d0).
  assert (HL : 0 <= L / sl) by (apply Z.div_pos; [apply size1_nonneg|lia]).
  induction Hfields as [|f fields (j & M & Hj & HM) _ IH].
  - exists []. split; [reflexivity|constructor].
  - destruct IH as (res & Hres & Hall).
    exists (map (window M sl) (zrange 0 (L / sl)) :: res). split.
    + simpl. rewrite (windows_ok b L f j M) by (subst sl; lia || assumption).
      fold sl. simpl. rewrite Hres. reflexivity.
    + constructor; [|exact Hall].
      exists j, M. split; [assumption|]. split; [assumption|].
      split; [reflexivity|]. split.
      * rewrite length_map, zrange_length. lia.
      * intros k row Hk Hrow. cbv zeta. split.
        -- rewrite py_slice_length by nia. nia.
        -- intros Hw. rewrite py_slice_length by nia.
           assert (sl * (L / sl) <= L) by (apply Z.mul_div_le; lia). nia.
Qed.

Lemma batch_get_windows_witness :
  exists res,
    Batch.get (_transform_batch [[[1; 2; 3; 4]; [5; 6; 7]]] ["q"%string; "s"%string] 2)
              ["s"%string] = Ok res /\
    res = [[ [[5; 6]]; [[7]] ]].
Proof.
  destruct (batch_get_windows
              (_transform_batch [[[1; 2; 3; 4]; [5; 6; 7]]] ["q"%string; "s"%string] 2)
              [[1; 2; 3; 4]] [[[5; 6; 7]]] ["s"%string] eq_refl eq_refl)
    as (res & Hres & _).
  - repeat constructor. exists 1, [[5; 6; 7]]. split; reflexivity.
  - exists res. split; [exact Hres|].
    vm_compute in Hres. now injection Hres as <-.
Defined.

(* ===================================================================== *)
(** ** The record file                                                    *)
(* ===================================================================== *)

Lemma sample_lines_init :
  Lines.__init__ (Some sample_file) false 0 2 false = Ok sample_lines.
Proof. reflexivity. Qed.

(** The derived record count: floor((L - skip) / group). *)
Lemma lines_count (contents : list string) (win32 : bool) (skip group : Z)
    (preserve : bool) (self : Lines.t) :
  Lines.__init__ (Some contents) win32 skip group preserve = Ok self ->
  Lines.length self =
  ((if win32 then Z.of_nat (List.length contents) else wc_l contents) - skip) / group.
Proof.
  unfold Lines.__init__. destruct (group =? 0); [discriminate|].
  intros H. injection H as <-. reflexivity.
Qed.

Lemma lines_len_ok (self : Lines.t) :
  0 <= Lines.length self -> Lines.__len__ self = Ok (Lines.length self).
Proof.
  intros H. unfold Lines.__len__. destruct (Z.ltb_spec (Lines.length self) 0); [lia|reflexivity].
Qed.

(** Scalar access below the count returns the record, whatever the sign of
    the index. *)
Lemma getitem_below_count (self : Lines.t) (i : Z) :
  0 <= Lines.length self -> i < Lines.length self ->
  Lines.__getitem__ self (Lines.Int i) = Ok (Lines.One (Lines.read self i)).
Proof.
  intros Hn Hi. unfold Lines.__getitem__. rewrite lines_len_ok by assumption. simpl.
  destruct (Z.ltb_spec i (Lines.length self)); [reflexivity|lia].
Qed.

(** Scalar access at or above the count raises [IndexError]. *)
Lemma getitem_above_count (self : Lines.t) (i : Z) :
  0 <= Lines.length self -> Lines.length self <= i ->
  Lines.__getitem__ self (Lines.Int i) = Raise IndexError.
Proof.
  intros Hn Hi. unfold Lines.__getitem__. rewrite lines_len_ok by assumption. simpl.
  destruct (Z.ltb_spec i (Lines.length self)); [lia|reflexivity].
Qed.


(** C3, at a negative index: the spec asks for IndexOutOfRange, the code
    answers with a record read off line numbers that are not positive. *)
Theorem get_negative_index :
  Lines.__getitem__ sample_lines (Lines.Int (-1))
  = Ok (Lines.One (Lines.Group [""; ""]%string)).
Proof. reflexivity. Qed.

(** With at least one record and a start below the count, the slice is the
    list of records at the normalised range. *)
Lemma slice_start_in_range (self : Lines.t) (lo hi : option Z) :
  0 < Lines.length self ->
  match lo with None => True | Some l => l < Lines.length self end ->
  Lines.__getitem__ self (Lines.Slice lo hi)
  = Ok (Lines.Many (map (Lines.read self) (normalized_range (Lines.length self) lo hi))).
Proof.
  intros Hn Hlo. unfold Lines.__getitem__. rewrite lines_len_ok by lia. simpl.
  do 3 f_equal. unfold normalized_range, norm_bound, _clip.
  set (n := Lines.length self) in *.
  f_equal.
  - destruct lo as [l|].
    + repeat match goal with
             | |- context [?a <? ?b] => destruct (Z.ltb_spec a b)
             | |- context [?a >? ?b] => destruct (Z.gtb_spec a b)
             end; lia.
    + repeat match goal with
             | |- context [?a <? ?b] => destruct (Z.ltb_spec a b)
             | |- context [?a >? ?b] => destruct (Z.gtb_spec a b)
             end; lia.
  - destruct hi as [h|];
      repeat match goal with
             | |- context [?a <? ?b] => destruct (Z.ltb_spec a b)
             | |- context [?a >? ?b] => destruct (Z.gtb_spec a b)
             end; lia.
Qed.

(** C2, at a start bound equal to the count: the normalised range is empty,
    the code returns the last record. *)
Theorem slice_past_end :
  normalized_range (Lines.length sample_lines) (Some 3) None = [] /\
  Lines.__getitem__ sample_lines (Lines.Slice (Some 3) None)
  = Ok (Lines.Many [Lines.Group ["1"; "7"]%string]).
Proof. split; reflexivity. Qed.

(** On a file without records every slice holds one phantom record. *)
Lemma slice_of_empty_file :
  Lines.__getitem__ (Lines.mk [] 0 0 2 false) (Lines.Slice None None)
  = Ok (Lines.Many [Lines.Group [""; ""]%string]).
Proof. reflexivity. Qed.

(* ===================================================================== *)
(** ** The record transform                                               *)
(* ===================================================================== *)

Lemma mapM_raise_In {A B : Type} (f : A -> result B) (l : list A) (e : exn) :
  mapM f l = Raise e -> exists x, In x l /\ f x = Raise e.
Proof.
  intros H. apply mapM_raise_iff in H. destruct H as (l1 & x & l2 & -> & Hx & _).
  exists x. split; [|assumption]. apply in_or_app. right. now left.
Qed.

Lemma mapM_In_raise {A B : Type} (f : A -> result B) (l : list A) (x : A) (e : exn) :
  In x l -> f x = Raise e -> exists e', mapM f l = Raise e'.
Proof.
  induction l as [|y l IH]; simpl; [tauto|].
  intros Hin Hx. destruct (f y) as [b|e'] eqn:Hy; simpl; [|eauto].
  destruct Hin as [->|Hin]; [congruence|].
  destruct (IH Hin Hx) as [e' He']. rewrite He'. simpl. eauto.
Qed.



Lemma torch_tensor_ok (x : list Z) (y : list Z) :
  torch_tensor x = Ok y <-> y = x /\ forallb in_int64 x = true.
Proof.
  unfold torch_tensor. destruct (forallb in_int64 x); split.
  - intros [= <-]. auto.
  - intros [-> _]. reflexivity.
  - discriminate.
  - intros [_ H]. discriminate.
Qed.

Lemma torch_tensor_raise (x : list Z) (e : exn) :
  torch_tensor x = Raise e -> e = RuntimeError /\ forallb in_int64 x = false.
Proof.
  unfold torch_tensor. destruct (forallb in_int64 x); [discriminate|].
  intros [= <-]. auto.
Qed.

(** Converting the sequences of a record changes none of them; it succeeds
    when every entry lies in the 64-bit range. *)
Lemma tensors_ok (items ts : list (list Z)) :
  mapM torch_tensor items = Ok ts <->
  ts = items /\ Forall (fun x => forallb in_int64 x = true) items.
Proof.
  rewrite mapM_ok_iff. split.
  - induction 1 as [|x y items ts Hxy _ [-> IH]]; [auto|].
    apply torch_tensor_ok in Hxy. destruct Hxy as [-> Hx]. auto.
  - intros [-> H]. induction H as [|x items Hx _ IH]; constructor; [|exact IH].
    now apply torch_tensor_ok.
Qed.

Lemma tensors_raise (items : list (list Z)) (e : exn) :
  mapM torch_tensor items = Raise e ->
  e = RuntimeError /\ exists x z, In x items /\ In z x /\ in_int64 z = false.
Proof.
  intros H. apply mapM_raise_In in H. destruct H as (x & Hx & He).
  apply torch_tensor_raise in He. destruct He as [-> Hbad]. split; [reflexivity|].
  assert (Hex : existsb (fun z => negb (in_int64 z)) x = true).
  { clear Hx. induction x as [|z x IH]; simpl in *; [discriminate|].
    destruct (in_int64 z); simpl in *; auto. }
  apply existsb_exists in Hex. destruct Hex as (z & Hz & Hneg).
  exists x, z. repeat split; try assumption. now destruct (in_int64 z).
Qed.

Lemma Forall2_In_l {X Y : Type} (R : X -> Y -> Prop) (l1 : list X) (l2 : list Y) (x : X) :
  Forall2 R l1 l2 -> In x l1 -> exists y, In y l2 /\ R x y.
Proof.
  induction 1 as [|a b l1 l2 Hab _ IH]; simpl; [tauto|].
  intros [->|Hin]; [eauto|]. destruct (IH Hin) as (y & Hy & Hr). eauto.
Qed.

Lemma Forall2_In_r {X Y : Type} (R : X -> Y -> Prop) (l1 : list X) (l2 : list Y) (y : Y) :
  Forall2 R l1 l2 -> In y l2 -> exists x, In x l1 /\ R x y.
Proof.
  induction 1 as [|a b l1 l2 Hab _ IH]; simpl; [tauto|].
  intros [->|Hin]; [eauto|]. destruct (IH Hin) as (x & Hx & Hr). eauto.
Qed.



Lemma parse_lines_bad_token (rest : list string) (line tok : string) (e : exn) :
  In line rest -> In tok (tokens line) -> int tok = Raise e ->
  exists e', mapM Transform.parse_line rest = Raise e'.
Proof.
  intros Hline Htok Hbad.
  destruct (mapM_In_raise int (tokens line) tok e Htok Hbad) as [e' He'].
  exact (mapM_In_raise Transform.parse_line rest line e' Hline He').
Qed.





(* ===================================================================== *)
(** ** The iterator                                                       *)
(* ===================================================================== *)

Section IteratorRuns.
Context {A : Type}.
Variable cfg : Iterator.t A.

Local Abbreviation st := (Iterator.with_state cfg).

Lemma batched_body_without_batch_size (i : Z) :
  Iterator.batch_size cfg = None ->
  exists e, Iterator.batched_body cfg i = Raise e.
Proof.
  intros Hbs. unfold Iterator.batched_body, Iterator.full_body, Iterator.contiguous_body.
  rewrite Hbs.
  destruct (Iterator.full_index cfg) as [[|x fi]|]; simpl;
    try (destruct (list_getitem (Iterator.index cfg) i); simpl); eauto.
Qed.

Lemma len_without_batch_size :
  Iterator.batch_size cfg = None -> Iterator.well_formed cfg ->
  Iterator.length cfg = Iterator.bound cfg.
Proof.
  unfold Iterator.well_formed, Iterator.__len__. intros -> H. simpl in H.
  destruct (Iterator.length cfg <? 0); [discriminate|]. now injection H.
Qed.

Lemma produced_snoc (ps k : Z) (vs : list (pyval A)) (v : pyval A) :
  ps <= k -> Iterator.produced cfg ps k vs -> Iterator.primary_body cfg k = Ok v ->
  Iterator.produced cfg ps (k + 1) (vs ++ [v]).
Proof.
  intros Hk Hvs Hv. unfold Iterator.produced in *. rewrite zrange_snoc by assumption.
  apply Forall2_app; [assumption|]. repeat constructor. assumption.
Qed.

Lemma produced_cons_inv (ps k : Z) (v : pyval A) (vs : list (pyval A)) :
  Iterator.produced cfg ps k (v :: vs) ->
  ps < k /\ Iterator.primary_body cfg ps = Ok v /\ Iterator.produced cfg (ps + 1) k vs.
Proof.
  unfold Iterator.produced. intros H.
  destruct (Z.lt_ge_cases ps k) as [Hlt|Hge].
  - rewrite zrange_cons in H by assumption. inversion H; subst. auto.
  - rewrite zrange_empty in H by lia. inversion H.
Qed.

Lemma produced_nil (ps : Z) : Iterator.produced cfg ps ps [].
Proof. unfold Iterator.produced. rewrite zrange_empty by lia. constructor. Qed.

Lemma emit_cases (q : list (result (pyval A))) (th : option Iterator.pc) (ps : Z)
    (r : result (pyval A)) (next : Iterator.pc) :
  Iterator.emit (st q th ps) r next = st q th ps \/
  (exists v, r = Ok v /\ Iterator.emit (st q th ps) r next = st (q ++ [Ok v]) (Some next) ps) \/
  (exists e, r = Raise e /\
             Iterator.emit (st q th ps) r next = st (q ++ [Raise e]) (Some Iterator.Done) ps).
Proof.
  unfold Iterator.emit. simpl.
  destruct (List.length q <? Iterator.maxsize)%nat; [|now left].
  destruct r as [v|e]; right; [left|right]; eauto.
Qed.

(** The steps of the worker, by program counter. *)
Lemma worker_step_unstarted (q : list (result (pyval A))) (ps : Z) :
  Iterator.worker_step (st q None ps) = st q None ps.
Proof. reflexivity. Qed.

Lemma worker_step_Start (q : list (result (pyval A))) (ps : Z) :
  Iterator.worker_step (st q (Some Iterator.Start) ps) =
  match Iterator.batch_size cfg with
  | None => st q (Some (Iterator.NoBatch ps)) ps
  | Some _ => st q (Some Iterator.Enter) ps
  end.
Proof. unfold Iterator.worker_step. simpl. now destruct (Iterator.batch_size cfg). Qed.

Lemma worker_step_NoBatch (q : list (result (pyval A))) (ps i : Z) :
  Iterator.worker_step (st q (Some (Iterator.NoBatch i)) ps) =
  if i <? Iterator.length cfg
  then Iterator.emit (st q (Some (Iterator.NoBatch i)) ps)
                     (Iterator.nobatch_body cfg i) (Iterator.NoBatch (i + 1))
  else st q (Some Iterator.Enter) ps.
Proof. reflexivity. Qed.

Lemma worker_step_Enter (q : list (result (pyval A))) (ps : Z) :
  Iterator.worker_step (st q (Some Iterator.Enter) ps) =
  match Iterator.__len__ cfg with
  | Ok _ => st q (Some (Iterator.Batched ps)) ps
  | Raise _ => st q (Some Iterator.Done) ps
  end.
Proof. reflexivity. Qed.

Lemma worker_step_Batched (q : list (result (pyval A))) (ps i : Z) :
  Iterator.worker_step (st q (Some (Iterator.Batched i)) ps) =
  match Iterator.__len__ cfg with
  | Ok n =>
      if i <? n
      then Iterator.emit (st q (Some (Iterator.Batched i)) ps)
                         (Iterator.batched_body cfg i) (Iterator.Batched (i + 1))
      else st q (Some Iterator.Done) ps
  | Raise _ => st q (Some Iterator.Done) ps
  end.
Proof. reflexivity. Qed.

Lemma worker_step_Done (q : list (result (pyval A))) (ps : Z) :
  Iterator.worker_step (st q (Some Iterator.Done) ps) = st q (Some Iterator.Done) ps.
Proof. reflexivity. Qed.

(** The worker preserves the invariant and never touches the position. *)
Lemma worker_step_inv (q : list (result (pyval A))) (th : option Iterator.pc) (ps : Z) :
  Iterator.well_formed cfg ->
  Iterator.worker_inv cfg q th ps ->
  exists q' th',
    Iterator.worker_step (st q th ps) = st q' th' ps /\
    Iterator.worker_inv cfg q' th' ps.
Proof.
  intros Hwf Hinv.
  destruct th as [c|]; [|exists q, None; auto].
  destruct Hinv as (k & vs & tail & Hq & Hk & Hvs & Htail & Hpc).
  unfold Iterator.pc_ok in Hpc.
  destruct c as [|i| |i|].
  - (* Start *)
    rewrite worker_step_Start.
    destruct (Iterator.batch_size cfg) eqn:Hbs.
    + exists q, (Some Iterator.Enter). split; [reflexivity|].
      exists k, vs, tail. unfold Iterator.pc_ok. rewrite Hbs. auto 6.
    + exists q, (Some (Iterator.NoBatch ps)). split; [reflexivity|].
      subst q. exists ps, [], []. unfold Iterator.pc_ok. rewrite Hbs.
      repeat split; auto using produced_nil; lia.
  - (* NoBatch i *)
    rewrite worker_step_NoBatch.
    destruct (Iterator.batch_size cfg) eqn:Hbs; [contradiction|].
    destruct Hpc as [-> ->]. rewrite app_nil_r in Hq. subst q.
    destruct (k <? Iterator.length cfg).
    + destruct (emit_cases (map Ok vs) (Some (Iterator.NoBatch k)) ps
                  (Iterator.nobatch_body cfg k) (Iterator.NoBatch (k + 1)))
        as [H|[(v & Hv & H)|(e & He & H)]].
      * exists (map Ok vs), (Some (Iterator.NoBatch k)). split; [exact H|].
        exists k, vs, []. unfold Iterator.pc_ok. rewrite Hbs, app_nil_r. repeat split; auto.
      * exists (map Ok vs ++ [Ok v]), (Some (Iterator.NoBatch (k + 1))). split; [exact H|].
        exists (k + 1), (vs ++ [v]), []. unfold Iterator.pc_ok.
        rewrite Hbs, map_app, app_nil_r.
        repeat split; auto; [lia|].
        apply produced_snoc; auto. unfold Iterator.primary_body. now rewrite Hbs.
      * exists (map Ok vs ++ [Raise e]), (Some Iterator.Done). split; [exact H|].
        exists k, vs, [Raise e]. unfold Iterator.pc_ok.
        repeat split; auto. repeat constructor.
    + exists (map Ok vs), (Some Iterator.Enter). split; [reflexivity|].
      exists k, vs, []. unfold Iterator.pc_ok. rewrite Hbs, app_nil_r. repeat split; auto.
  - (* Enter *)
    rewrite worker_step_Enter, Hwf.
    exists q, (Some (Iterator.Batched ps)). split; [reflexivity|].
    destruct (Iterator.batch_size cfg) eqn:Hbs.
    + rewrite Hpc. exists ps, [], []. unfold Iterator.pc_ok. rewrite Hbs.
      repeat split; auto using produced_nil; lia.
    + exists k, vs, tail. unfold Iterator.pc_ok. rewrite Hbs. repeat split; auto.
  - (* Batched i *)
    rewrite worker_step_Batched, Hwf.
    destruct (i <? Iterator.bound cfg).
    + destruct (emit_cases q (Some (Iterator.Batched i)) ps
                  (Iterator.batched_body cfg i) (Iterator.Batched (i + 1)))
        as [H|[(v & Hv & H)|(e & He & H)]].
      * exists q, (Some (Iterator.Batched i)). split; [exact H|].
        exists k, vs, tail. unfold Iterator.pc_ok. repeat split; auto.
      * destruct (Iterator.batch_size cfg) eqn:Hbs.
        -- destruct Hpc as [-> ->]. rewrite app_nil_r in Hq. subst q.
           exists (map Ok vs ++ [Ok v]), (Some (Iterator.Batched (k + 1))). split; [exact H|].
           exists (k + 1), (vs ++ [v]), []. unfold Iterator.pc_ok.
           rewrite Hbs, map_app, app_nil_r.
           repeat split; auto; [lia|].
           apply produced_snoc; auto. unfold Iterator.primary_body. now rewrite Hbs.
        -- destruct (batched_body_without_batch_size i Hbs) as [e He]. congruence.
      * exists (q ++ [Raise e]), (Some Iterator.Done). split; [exact H|].
        exists k, vs, (tail ++ [Raise e]). subst q. rewrite <- app_assoc.
        unfold Iterator.pc_ok. repeat split; auto.
        apply Forall_app. split; [assumption|]. repeat constructor.
    + exists q, (Some Iterator.Done). split; [reflexivity|].
      exists k, vs, tail. unfold Iterator.pc_ok. repeat split; auto.
  - (* Done *)
    rewrite worker_step_Done. exists q, (Some Iterator.Done). split; [reflexivity|].
    exists k, vs, tail. auto 6.
Qed.

(** [__next__] with a worker. *)
Lemma next_prefetch (q : list (result (pyval A))) (th : option Iterator.pc) (ps : Z) :
  Iterator.prefetch cfg = true ->
  Iterator.__next__ (st q th ps) =
  let th' := match th with None => Some Iterator.Start | Some _ => th end in
  if Iterator.bound cfg <=? ps then (Iterator.StopIteration, st q th' ps)
  else match q with
       | [] => (Iterator.Waiting, st q th' ps)
       | Ok item :: q' => (Iterator.Item item, st q' th' (ps + 1))
       | Raise e :: q' => (Iterator.Exc e, st q' th' ps)
       end.
Proof.
  intros Hpf. unfold Iterator.__next__, Iterator.bound. simpl. rewrite Hpf.
  destruct th as [c|]; simpl; rewrite ?Hpf; simpl;
    destruct (Z.of_nat (List.length (Iterator.index cfg)) <=? ps); try reflexivity;
    rewrite ?Hpf; destruct q as [|[item|e] q']; simpl; rewrite ?Hpf; reflexivity.
Qed.

(** [__next__] without a worker, on an empty queue. *)
Lemma next_sync (ps : Z) :
  Iterator.prefetch cfg = false -> Iterator.well_formed cfg ->
  Iterator.__next__ (st [] None ps) =
  if Iterator.bound cfg <=? ps then (Iterator.StopIteration, st [] None ps)
  else match Iterator.primary_body cfg ps with
       | Ok item => (Iterator.Item item, st [] None (ps + 1))
       | Raise e => (Iterator.Exc e, st [] None ps)
       end.
Proof.
  intros Hpf Hwf. unfold Iterator.__next__.
  repeat progress (st_simpl; rewrite ?Hpf).
  fold (Iterator.bound cfg).
  destruct (Z.leb_spec (Iterator.bound cfg) ps) as [Hle|Hlt]; [reflexivity|].
  unfold Iterator.produce_sync, Iterator.produce_batched_sync, Iterator.primary_body.
  st_simpl.
  change (Iterator.__len__ (st [] None ps)) with (Iterator.__len__ cfg). rewrite Hwf.
  change (Iterator.batched_body (st [] None ps) ps) with (Iterator.batched_body cfg ps).
  change (Iterator.nobatch_body (st [] None ps) ps) with (Iterator.nobatch_body cfg ps).
  destruct (Iterator.batch_size cfg) eqn:Hbs.
  - destruct (Z.ltb_spec ps (Iterator.bound cfg)); [|lia].
    destruct (Iterator.batched_body cfg ps); reflexivity.
  - rewrite (len_without_batch_size Hbs Hwf).
    destruct (Z.ltb_spec ps (Iterator.bound cfg)); [|lia].
    destruct (Iterator.nobatch_body cfg ps); reflexivity.
Qed.

Lemma inv_start (ps : Z) : Iterator.worker_inv cfg [] (Some Iterator.Start) ps.
Proof.
  exists ps, [], []. unfold Iterator.pc_ok.
  repeat split; auto using produced_nil; lia.
Qed.

Lemma inv_deliver (v : pyval A) (q : list (result (pyval A))) (c : Iterator.pc) (ps : Z) :
  Iterator.worker_inv cfg (Ok v :: q) (Some c) ps ->
  Iterator.primary_body cfg ps = Ok v /\ Iterator.worker_inv cfg q (Some c) (ps + 1).
Proof.
  intros (k & vs & tail & Hq & Hk & Hvs & Htail & Hpc).
  destruct vs as [|v' vs]; simpl in Hq.
  - subst tail. inversion Htail as [|? ? Hbad _]. destruct Hbad.
  - injection Hq as <- ->.
    apply produced_cons_inv in Hvs. destruct Hvs as (Hlt & Hv & Hvs).
    split; [assumption|].
    exists k, vs, tail. repeat split; auto; [lia|].
    unfold Iterator.pc_ok in *.
    destruct c, (Iterator.batch_size cfg); auto; discriminate.
Qed.

Lemma inv_fail (e : exn) (q : list (result (pyval A))) (c : Iterator.pc) (ps : Z) :
  Iterator.worker_inv cfg (Raise e :: q) (Some c) ps ->
  Iterator.worker_inv cfg q (Some c) ps.
Proof.
  intros (k & vs & tail & Hq & Hk & Hvs & Htail & Hpc).
  destruct vs as [|v' vs]; simpl in Hq; [|discriminate].
  subst tail. inversion Htail; subst.
  exists k, [], q. repeat split; auto.
  unfold Iterator.pc_ok in *.
  destruct c, (Iterator.batch_size cfg); auto; try discriminate;
    destruct Hpc; discriminate.
Qed.

Lemma produced_cons (ps k : Z) (v : pyval A) (vs : list (pyval A)) :
  Iterator.primary_body cfg ps = Ok v -> Iterator.produced cfg (ps + 1) (ps + 1 + k) vs ->
  0 <= k -> Iterator.produced cfg ps (ps + (1 + k)) (v :: vs).
Proof.
  intros Hv Hvs Hk. unfold Iterator.produced in *.
  rewrite zrange_cons by lia. constructor; [assumption|].
  now replace (ps + (1 + k)) with (ps + 1 + k) by lia.
Qed.

(** Safety of a run with a worker: whatever the schedule, the values handed
    to the caller are the items of consecutive positions, the position never
    passes the bound, and [StopIteration] is raised only at the bound. *)
Lemma run_prefetch_safe (sched : list Iterator.action) :
  Iterator.prefetch cfg = true -> Iterator.well_formed cfg ->
  forall q th ps evs s',
    Iterator.worker_inv cfg q th ps ->
    Iterator.run sched (st q th ps) = (evs, s') ->
    let n := Z.of_nat (List.length (Iterator.delivered evs)) in
    Iterator.produced cfg ps (ps + n) (Iterator.delivered evs) /\
    (ps <= Iterator.bound cfg ->
     ps + n <= Iterator.bound cfg /\
     (In Iterator.StopIteration evs -> ps + n = Iterator.bound cfg)).
Proof.
  intros Hpf Hwf. induction sched as [|a sched IH]; intros q th ps evs s' Hinv Hrun.
  - injection Hrun as <- _. simpl. rewrite Z.add_0_r.
    split; [apply produced_nil|]. intros Hle. split; [lia|contradiction].
  - destruct a; cbn [Iterator.run] in Hrun.
    + destruct (worker_step_inv q th ps Hwf Hinv) as (q' & th' & Hstep & Hinv').
      rewrite Hstep in Hrun. eapply IH; eassumption.
    + rewrite next_prefetch in Hrun by assumption. cbv zeta in Hrun.
      set (th' := match th with None => Some Iterator.Start | Some _ => th end) in Hrun.
      assert (Hinv' : Iterator.worker_inv cfg q th' ps).
      { destruct th as [c|]; [exact Hinv|]. simpl in Hinv. subst q. apply inv_start. }
      assert (Hth' : exists c, th' = Some c) by (destruct th; subst th'; eauto).
      destruct Hth' as [c Hc]. rewrite Hc in *. clear th' Hc Hinv.
      destruct (Z.leb_spec (Iterator.bound cfg) ps) as [Hstop|Hgo].
      * destruct (Iterator.run sched (st q (Some c) ps)) as [evs1 s1] eqn:Hr.
        injection Hrun as <- <-.
        destruct (IH _ _ _ _ _ Hinv' Hr) as [Hvs Hb]. cbn [Iterator.delivered].
        split; [exact Hvs|]. intros Hle. destruct (Hb Hle) as [Hmax _].
        split; [exact Hmax|]. intros _. lia.
      * destruct q as [|[v|e] q'].
        -- destruct (Iterator.run sched (st [] (Some c) ps)) as [evs1 s1] eqn:Hr.
           injection Hrun as <- <-.
           destruct (IH _ _ _ _ _ Hinv' Hr) as [Hvs Hb]. cbn [Iterator.delivered].
           split; [exact Hvs|]. intros Hle. destruct (Hb Hle) as [Hmax Hs].
           split; [exact Hmax|]. intros [Hin|Hin]; [discriminate|auto].
        -- destruct (Iterator.run sched (st q' (Some c) (ps + 1))) as [evs1 s1] eqn:Hr.
           injection Hrun as <- <-.
           apply inv_deliver in Hinv'. destruct Hinv' as [Hv Hinv'].
           destruct (IH _ _ _ _ _ Hinv' Hr) as [Hvs Hb]. cbn [Iterator.delivered List.length].
           rewrite Nat2Z.inj_succ, <- Z.add_1_l.
           split; [apply produced_cons; auto; lia|].
           intros Hle. destruct Hb as [Hmax Hs]; [lia|].
           split; [lia|]. intros [Hin|Hin]; [discriminate|]. specialize (Hs Hin). lia.
        -- destruct (Iterator.run sched (st q' (Some c) ps)) as [evs1 s1] eqn:Hr.
           injection Hrun as <- <-.
           apply inv_fail in Hinv'.
           destruct (IH _ _ _ _ _ Hinv' Hr) as [Hvs Hb]. cbn [Iterator.delivered].
           split; [exact Hvs|]. intros Hle. destruct (Hb Hle) as [Hmax Hs].
           split; [exact Hmax|]. intros [Hin|Hin]; [discriminate|auto].
Qed.

(** The same without a worker. *)
Lemma run_sync_safe (sched : list Iterator.action) :
  Iterator.prefetch cfg = false -> Iterator.well_formed cfg ->
  forall ps evs s',
    Iterator.run sched (st [] None ps) = (evs, s') ->
    let n := Z.of_nat (List.length (Iterator.delivered evs)) in
    Iterator.produced cfg ps (ps + n) (Iterator.delivered evs) /\
    (ps <= Iterator.bound cfg ->
     ps + n <= Iterator.bound cfg /\
     (In Iterator.StopIteration evs -> ps + n = Iterator.bound cfg)).
Proof.
  intros Hpf Hwf. induction sched as [|a sched IH]; intros ps evs s' Hrun.
  - injection Hrun as <- _. simpl. rewrite Z.add_0_r.
    split; [apply produced_nil|]. intros Hle. split; [lia|contradiction].
  - destruct a; cbn [Iterator.run] in Hrun.
    + rewrite worker_step_unstarted in Hrun. eapply IH; eassumption.
    + rewrite next_sync in Hrun by assumption.
      destruct (Z.leb_spec (Iterator.bound cfg) ps) as [Hstop|Hgo].
      * destruct (Iterator.run sched (st [] None ps)) as [evs1 s1] eqn:Hr.
        injection Hrun as <- <-.
        destruct (IH _ _ _ Hr) as [Hvs Hb]. cbn [Iterator.delivered].
        split; [exact Hvs|]. intros Hle. destruct (Hb Hle) as [Hmax _].
        split; [exact Hmax|]. intros _. lia.
      * destruct (Iterator.primary_body cfg ps) as [v|e] eqn:Hv.
        -- destruct (Iterator.run sched (st [] None (ps + 1))) as [evs1 s1] eqn:Hr.
           injection Hrun as <- <-.
           destruct (IH _ _ _ Hr) as [Hvs Hb]. cbn [Iterator.delivered List.length].
           rewrite Nat2Z.inj_succ, <- Z.add_1_l.
           split; [apply produced_cons; auto; lia|].
           intros Hle. destruct Hb as [Hmax Hs]; [lia|].
           split; [lia|]. intros [Hin|Hin]; [discriminate|]. specialize (Hs Hin). lia.
        -- destruct (Iterator.run sched (st [] None ps)) as [evs1 s1] eqn:Hr.
           injection Hrun as <- <-.
           destruct (IH _ _ _ Hr) as [Hvs Hb]. cbn [Iterator.delivered].
           split; [exact Hvs|]. intros Hle. destruct (Hb Hle) as [Hmax Hs].
           split; [exact Hmax|]. intros [Hin|Hin]; [discriminate|auto].
Qed.


End IteratorRuns.

Section CompleteRuns.
Context {A : Type}.
Variable cfg : Iterator.t A.
Variable item : Z -> pyval A.

Local Abbreviation st := (Iterator.with_state cfg).

Lemma delivered_items (vs : list (pyval A)) (rest : list (Iterator.event A)) :
  Iterator.delivered (map (@Iterator.Item A) vs ++ rest) = vs ++ Iterator.delivered rest.
Proof. induction vs as [|v vs IH]; simpl; [reflexivity|]. now rewrite IH. Qed.

(** Without a worker, [n] calls deliver the next [n] items. *)
Lemma run_sync_lockstep (n : nat) (rest : list Iterator.action) :
  Iterator.prefetch cfg = false -> Iterator.well_formed cfg ->
  forall ps,
    ps + Z.of_nat n <= Iterator.bound cfg ->
    (forall j, ps <= j < ps + Z.of_nat n -> Iterator.primary_body cfg j = Ok (item j)) ->
    Iterator.run (repeat Iterator.Next n ++ rest) (st [] None ps) =
    (map (fun j => Iterator.Item (item j)) (zrange ps (ps + Z.of_nat n))
       ++ fst (Iterator.run rest (st [] None (ps + Z.of_nat n))),
     snd (Iterator.run rest (st [] None (ps + Z.of_nat n)))).
Proof.
  intros Hpf Hwf. induction n as [|n IH]; intros ps Hle Hitems.
  - simpl. rewrite Z.add_0_r, zrange_empty by lia. simpl.
    now destruct (Iterator.run rest (st [] None ps)).
  - cbn [repeat app Iterator.run]. rewrite next_sync by assumption.
    destruct (Z.leb_spec (Iterator.bound cfg) ps); [lia|].
    rewrite Hitems by lia.
    rewrite IH by (try lia; intros j Hj; apply Hitems; lia).
    rewrite (zrange_cons ps) by lia.
    replace (ps + 1 + Z.of_nat n) with (ps + Z.of_nat (S n)) by lia.
    reflexivity.
Qed.

(** With a worker standing at the caller's position and an empty queue, [n]
    rounds of one worker step and one call deliver the next [n] items. *)
Lemma run_prefetch_lockstep (n : nat) (rest : list Iterator.action) :
  Iterator.prefetch cfg = true -> Iterator.well_formed cfg ->
  forall (a : nat) ps,
    ps + Z.of_nat n <= Iterator.bound cfg ->
    (forall j, ps <= j < ps + Z.of_nat n -> Iterator.primary_body cfg j = Ok (item j)) ->
    Iterator.run (flat_map (fun _ => [Iterator.Work; Iterator.Next]) (seq a n) ++ rest)
                 (st [] (Some (Iterator.loop_pc cfg ps)) ps) =
    (map (fun j => Iterator.Item (item j)) (zrange ps (ps + Z.of_nat n))
       ++ fst (Iterator.run rest
                 (st [] (Some (Iterator.loop_pc cfg (ps + Z.of_nat n))) (ps + Z.of_nat n))),
     snd (Iterator.run rest
            (st [] (Some (Iterator.loop_pc cfg (ps + Z.of_nat n))) (ps + Z.of_nat n)))).
Proof.
  intros Hpf Hwf. induction n as [|n IH]; intros a ps Hle Hitems.
  - simpl. rewrite Z.add_0_r, zrange_empty by lia. simpl.
    now destruct (Iterator.run rest (st [] (Some (Iterator.loop_pc cfg ps)) ps)).
  - cbn [seq flat_map app Iterator.run].
    assert (Hstep : Iterator.worker_step (st [] (Some (Iterator.loop_pc cfg ps)) ps)
                    = st [Ok (item ps)] (Some (Iterator.loop_pc cfg (ps + 1))) ps).
    { specialize (Hitems ps ltac:(lia)). unfold Iterator.primary_body in Hitems.
      unfold Iterator.loop_pc. destruct (Iterator.batch_size cfg) eqn:Hbs.
      - rewrite worker_step_Batched, Hwf.
        destruct (Z.ltb_spec ps (Iterator.bound cfg)); [|lia].
        rewrite Hitems. reflexivity.
      - rewrite worker_step_NoBatch, (len_without_batch_size cfg Hbs Hwf).
        destruct (Z.ltb_spec ps (Iterator.bound cfg)); [|lia].
        rewrite Hitems. reflexivity. }
    rewrite Hstep, next_prefetch by assumption. cbv zeta.
    destruct (Z.leb_spec (Iterator.bound cfg) ps); [lia|].
    rewrite IH by (try lia; intros j Hj; apply Hitems; lia).
    rewrite (zrange_cons ps) by lia.
    replace (ps + 1 + Z.of_nat n) with (ps + Z.of_nat (S n)) by lia.
    reflexivity.
Qed.

Lemma run_Next_cons (rest : list Iterator.action) (s s' : Iterator.t A)
    (ev : Iterator.event A) :
  Iterator.__next__ s = (ev, s') -> ev <> Iterator.Hang ->
  Iterator.run (Iterator.Next :: rest) s =
  (ev :: fst (Iterator.run rest s'), snd (Iterator.run rest s')).
Proof.
  intros Hnext Hev. cbn [Iterator.run]. rewrite Hnext.
  destruct (Iterator.run rest s') as [evs s'']. now destruct ev.
Qed.

(** A complete run: the lockstep schedule delivers every item and then
    [StopIteration]. *)
Lemma run_lockstep :
  Iterator.well_formed cfg ->
  (forall j, 0 <= j < Iterator.bound cfg -> Iterator.primary_body cfg j = Ok (item j)) ->
  let evs := fst (Iterator.run (Iterator.lockstep (Iterator.prefetch cfg)
                                  (Iterator.batch_size cfg)
                                  (List.length (Iterator.index cfg)))
                               (st [] None 0)) in
  Iterator.delivered evs = map item (zrange 0 (Iterator.bound cfg)) /\
  In Iterator.StopIteration evs.
Proof.
  intros Hwf Hitems. unfold Iterator.lockstep.
  set (n := List.length (Iterator.index cfg)).
  assert (Hn : Iterator.bound cfg = Z.of_nat n) by reflexivity.
  assert (Hdone : forall (pre : list (Iterator.event A)),
             Iterator.delivered pre = [] ->
             let evs := pre ++ map (fun j => Iterator.Item (item j))
                                   (zrange 0 (Iterator.bound cfg))
                            ++ [Iterator.StopIteration] in
             Iterator.delivered evs = map item (zrange 0 (Iterator.bound cfg)) /\
             In Iterator.StopIteration evs).
  { intros pre Hpre evs. subst evs. split.
    - rewrite <- (map_map item (@Iterator.Item A)).
      induction pre as [|[v|e| | |] pre IH]; simpl in *; try discriminate; auto.
      rewrite delivered_items. simpl. apply app_nil_r.
    - apply in_or_app. right. apply in_or_app. right. now left. }
  destruct (Iterator.prefetch cfg) eqn:Hpf.
  - assert (Hnext : exists e,
               Iterator.__next__ (st [] None 0) = (e, st [] (Some Iterator.Start) 0) /\
               (e = Iterator.StopIteration \/ e = Iterator.Waiting)).
    { rewrite next_prefetch by assumption. cbv zeta.
      destruct (Iterator.bound cfg <=? 0); eauto. }
    destruct Hnext as (e & Hnext & He).
    rewrite (run_Next_cons _ _ _ _ Hnext) by (destruct He; subst; discriminate).
    cbn [Iterator.run fst]. rewrite worker_step_Start.
    assert (Hloop : forall rest,
               Iterator.run (match Iterator.batch_size cfg with
                             | None => []
                             | Some _ => [Iterator.Work]
                             end ++ rest)
                            (match Iterator.batch_size cfg with
                             | None => st [] (Some (Iterator.NoBatch 0)) 0
                             | Some _ => st [] (Some Iterator.Enter) 0
                             end)
               = Iterator.run rest (st [] (Some (Iterator.loop_pc cfg 0)) 0)).
    { intros rest. unfold Iterator.loop_pc. destruct (Iterator.batch_size cfg); [|reflexivity].
      cbn [app Iterator.run]. now rewrite worker_step_Enter, Hwf. }
    rewrite Hloop, run_prefetch_lockstep
      by (try assumption; try lia; intros; apply Hitems; lia).
    rewrite Z.add_0_l, <- Hn. cbn [Iterator.run fst].
    rewrite next_prefetch by assumption. cbv zeta.
    rewrite Z.leb_refl. cbn [fst].
    apply (Hdone [e]). destruct He; subst; reflexivity.
  - rewrite (run_sync_lockstep n [Iterator.Next])
      by (try assumption; try lia; intros; apply Hitems; lia).
    rewrite Z.add_0_l, <- Hn. cbn [Iterator.run fst].
    rewrite next_sync by assumption. rewrite Z.leb_refl. cbn [fst].
    apply (Hdone []). reflexivity.
Qed.

End CompleteRuns.

Section Construction.
Context {A : Type}.

(** What [__init__] returns: the arguments, an empty queue, no worker,
    position 0, and an ordering index of [len(self)] entries. *)
Lemma init_ok (data : Source A) (label : list (Source A)) (prefetch : bool)
    (length : option Z) (batch_size : option Z)
    (transform : option (pyval A -> result (pyval A)))
    (shuffle full_shuffle : bool) (rnd_index rnd_full : list Z -> list Z)
    (it : Iterator.t A) :
  (forall l, Permutation l (rnd_index l)) ->
  Iterator.__init__ data label prefetch length batch_size transform shuffle full_shuffle
                    rnd_index rnd_full = Ok it ->
  it = Iterator.with_state it [] None 0 /\
  Iterator.well_formed it /\
  Iterator.data it = data /\ Iterator.label it = label /\
  Iterator.prefetch it = prefetch /\ Iterator.batch_size it = batch_size /\
  Iterator.transform it = transform /\
  Iterator.length it = match length with Some n => n | None => src_len data end /\
  Iterator.full_index it =
    (if full_shuffle then Some (rnd_full (zrange 0 (Iterator.length it))) else None) /\
  Forall (fun lab => src_len lab = Iterator.length it) label.
Proof.
  intros Hperm. unfold Iterator.__init__.
  set (len := match length with Some n => n | None => src_len data end).
  destruct (forallb (fun lab => len =? src_len lab) label) eqn:Hlab; [|discriminate].
  cbn [negb].
  destruct (Iterator.__len__
              (Iterator.mk data label prefetch batch_size [] len transform [] None None 0))
    as [n|e] eqn:Hlen; [|discriminate].
  cbn [bind]. intros H. injection H as <-.
  repeat split.
  - unfold Iterator.well_formed, Iterator.bound. cbn [Iterator.index].
    change (Iterator.__len__ _) with
      (Iterator.__len__
         (Iterator.mk data label prefetch batch_size [] len transform [] None None 0)).
    rewrite Hlen. f_equal.
    assert (Hn : 0 <= n).
    { unfold Iterator.__len__ in Hlen. cbn [Iterator.batch_size Iterator.length] in Hlen.
      destruct (match batch_size with Some bs => ceil_div len bs | None => Ok len end)
        as [m|]; [|discriminate].
      cbn [bind] in Hlen. destruct (Z.ltb_spec m 0); [discriminate|].
      injection Hlen as <-. assumption. }
    destruct shuffle.
    + rewrite <- (Permutation_length (Hperm (zrange 0 n))), zrange_length. lia.
    + rewrite zrange_length. lia.
  - rewrite forallb_forall in Hlab. apply Forall_forall. intros lab Hin.
    specialize (Hlab lab Hin). cbn [Iterator.length]. lia.
Qed.


(** Safety of a run of a freshly constructed iterator, in either mode. *)
Lemma run_safe (it : Iterator.t A) (sched : list Iterator.action)
    (evs : list (Iterator.event A)) (s' : Iterator.t A) :
  it = Iterator.with_state it [] None 0 ->
  Iterator.well_formed it ->
  Iterator.run sched it = (evs, s') ->
  let n := Z.of_nat (List.length (Iterator.delivered evs)) in
  Iterator.produced it 0 n (Iterator.delivered evs) /\
  n <= Iterator.bound it /\
  (In Iterator.StopIteration evs -> n = Iterator.bound it).
Proof.
  intros Hit Hwf Hrun. rewrite Hit in Hrun.
  assert (Hb : 0 <= Iterator.bound it) by (unfold Iterator.bound; lia).
  destruct (Iterator.prefetch it) eqn:Hpf.
  - destruct (run_prefetch_safe it sched Hpf Hwf [] None 0 evs s' eq_refl Hrun) as [H1 H2].
    destruct (H2 Hb) as [H3 H4]. rewrite Z.add_0_l in *. auto.
  - destruct (run_sync_safe it sched Hpf Hwf 0 evs s' Hrun) as [H1 H2].
    destruct (H2 Hb) as [H3 H4]. rewrite Z.add_0_l in *. auto.
Qed.

Lemma Forall2_nth_error_r {X Y : Type} (R : X -> Y -> Prop) (l1 : list X) (l2 : list Y)
    (k : nat) (y : Y) :
  Forall2 R l1 l2 -> nth_error l2 k = Some y ->
  exists x, nth_error l1 k = Some x /\ R x y.
Proof.
  intros H. revert k. induction H as [|x y' l1 l2 Hxy _ IH]; intros [|k] Hk;
    simpl in *; try discriminate.
  - injection Hk as ->. eauto.
  - now apply IH.
Qed.

Lemma produced_nth (it : Iterator.t A) (n : Z) (vs : list (pyval A)) (k : nat)
    (v : pyval A) :
  Iterator.produced it 0 n vs -> nth_error vs k = Some v ->
  Iterator.primary_body it (Z.of_nat k) = Ok v.
Proof.
  intros Hvs Hk. destruct (Forall2_nth_error_r _ _ _ _ _ Hvs Hk) as (j & Hj & Hv).
  assert (Hlt : (k < List.length (zrange 0 n))%nat) by (apply nth_error_Some; congruence).
  rewrite zrange_length in Hlt. rewrite zrange_nth_error in Hj by assumption.
  injection Hj as <-. exact Hv.
Qed.

Lemma produced_map (it : Iterator.t A) (g : Z -> pyval A) (n : Z) (vs : list (pyval A)) :
  (forall j, 0 <= j < n -> Iterator.primary_body it j = Ok (g j)) ->
  Iterator.produced it 0 n vs -> vs = map g (zrange 0 n).
Proof.
  intros Hg Hvs. unfold Iterator.produced in Hvs.
  assert (Hin : forall j, In j (zrange 0 n) -> 0 <= j < n) by (intros j; apply zrange_In).
  induction Hvs as [|j v l vs Hv _ IH]; [reflexivity|]. simpl. f_equal.
  - rewrite Hg in Hv by (apply Hin; now left). now injection Hv.
  - apply IH. intros k Hk. apply Hin. now right.
Qed.

(** Fetching element [j] from label sources that can all be read. *)
Lemma labels_getitem (label : list (Source A)) (lelem : list (Z -> pyval A)) (n j : Z) :
  Forall2 (fun lab le => forall j, 0 <= j < n -> src_getitem lab j = Ok (le j))
          label lelem ->
  0 <= j < n ->
  mapM (fun lab => src_getitem lab j) label = Ok (map (fun le => le j) lelem).
Proof.
  intros H Hj. apply mapM_ok_iff.
  induction H as [|lab le label lelem Hle _ IH]; constructor; auto.
Qed.

(** C10, amended.  An iterator constructed without a batch size, whatever the
    two shuffle flags and the permutations drawn for them, delivers in source
    order, with or without the worker.  In every run the n-th value handed to
    the caller is made of the elements [n] of the sources: [data[n]] when
    there are no label sources, the list [[data[n], label[n], ...]] when
    there are.  When every element of every source can be fetched, every run
    that reaches [StopIteration] has delivered exactly these items for
    n = 0, ..., length - 1, and the lockstep run is such a run. *)
Theorem no_batch_source_order (data : Source A) (label : list (Source A))
    (prefetch : bool) (length : option Z)
    (transform : option (pyval A -> result (pyval A)))
    (shuffle full_shuffle : bool) (rnd_index rnd_full : list Z -> list Z)
    (it : Iterator.t A) :
  (forall l, Permutation l (rnd_index l)) ->
  Iterator.__init__ data label prefetch length None transform shuffle full_shuffle
                    rnd_index rnd_full = Ok it ->
  (forall sched n v,
     nth_error (Iterator.delivered (fst (Iterator.run sched it))) n = Some v ->
     exists d labs,
       src_getitem data (Z.of_nat n) = Ok d /\
       mapM (fun lab => src_getitem lab (Z.of_nat n)) label = Ok labs /\
       v = Iterator.compose d labs /\
       (label = [] -> v = d)) /\
  (forall (elem : Z -> pyval A) (lelem : list (Z -> pyval A)),
     (forall j, 0 <= j < Iterator.length it -> src_getitem data j = Ok (elem j)) ->
     Forall2 (fun lab le =>
                forall j, 0 <= j < Iterator.length it -> src_getitem lab j = Ok (le j))
             label lelem ->
     let item := fun j => Iterator.compose (elem j) (map (fun le => le j) lelem) in
     (forall sched,
        In Iterator.StopIteration (fst (Iterator.run sched it)) ->
        Iterator.delivered (fst (Iterator.run sched it))
        = map item (zrange 0 (Iterator.length it))) /\
     (let evs := fst (Iterator.run (Iterator.lockstep prefetch None
                                      (Z.to_nat (Iterator.length it))) it) in
      Iterator.delivered evs = map item (zrange 0 (Iterator.length it)) /\
      In Iterator.StopIteration evs)).
Proof.
  intros Hperm Hinit.
  destruct (init_ok _ _ _ _ _ _ _ _ _ _ _ Hperm Hinit)
    as (Hit & Hwf & Hdata & Hlabel & Hpf & Hbs & _).
  assert (Hbody : forall j, Iterator.primary_body it j = Iterator.nobatch_body it j)
    by (intros j; unfold Iterator.primary_body; now rewrite Hbs).
  pose proof (len_without_batch_size it Hbs Hwf) as Hlen.
  split.
  - intros sched n v Hn.
    destruct (Iterator.run sched it) as [evs s'] eqn:Hrun. cbn [fst] in Hn.
    destruct (run_safe it sched evs s' Hit Hwf Hrun) as [Hvs _].
    pose proof (produced_nth _ _ _ _ _ Hvs Hn) as Hv.
    rewrite Hbody in Hv. unfold Iterator.nobatch_body in Hv.
    rewrite Hdata, Hlabel in Hv.
    destruct (src_getitem data (Z.of_nat n)) as [d|] eqn:Hd; [|discriminate].
    cbn [bind] in Hv.
    destruct (mapM (fun lab => src_getitem lab (Z.of_nat n)) label) as [labs|] eqn:Hl;
      [|discriminate].
    cbn [bind] in Hv. injection Hv as <-.
    exists d, labs. repeat split. intros ->. simpl in Hl. now injection Hl as <-.
  - intros elem lelem Helem Hlelem item.
    assert (Hitems : forall j, 0 <= j < Iterator.bound it ->
                               Iterator.primary_body it j = Ok (item j)).
    { intros j Hj. rewrite Hbody. unfold Iterator.nobatch_body.
      rewrite Hdata, Hlabel, Helem by lia. cbn [bind].
      rewrite (labels_getitem label lelem (Iterator.length it) j Hlelem) by lia.
      reflexivity. }
    split.
    + intros sched Hstop.
      destruct (Iterator.run sched it) as [evs s'] eqn:Hrun. cbn [fst] in *.
      destruct (run_safe it sched evs s' Hit Hwf Hrun) as (Hvs & _ & Hn).
      rewrite (Hn Hstop) in Hvs. rewrite Hlen.
      exact (produced_map it item _ _ Hitems Hvs).
    + pose proof (run_lockstep it item Hwf Hitems) as Hrun.
      rewrite <- Hit, Hpf, Hbs in Hrun.
      replace (Z.to_nat (Iterator.length it)) with (List.length (Iterator.index it))
        by (rewrite Hlen; unfold Iterator.bound; lia).
      rewrite Hlen. exact Hrun.
Qed.

End Construction.

(** *** Full shuffle *)

Section Slices.
Context {X : Type}.

Lemma firstn_plus (x y : nat) (l : list X) :
  firstn (x + y) l = firstn x l ++ firstn y (skipn x l).
Proof.
  revert l. induction x as [|x IH]; intros l; [reflexivity|].
  destruct l as [|a l]; simpl; [now rewrite firstn_nil|]. now rewrite IH.
Qed.

Lemma py_slice_In (l : list X) (lo hi : Z) (x : X) : In x (py_slice l lo hi) -> In x l.
Proof.
  unfold py_slice. intros H.
  set (a := Z.to_nat (norm_bound (Z.of_nat (List.length l)) lo)) in *.
  set (b := Z.to_nat _) in H.
  rewrite <- (firstn_skipn a l). apply in_or_app. right.
  rewrite <- (firstn_skipn b (skipn a l)). apply in_or_app. now left.
Qed.

(** Adjacent slices join. *)
Lemma py_slice_app (l : list X) (a b c : Z) :
  0 <= a <= b -> b <= c -> py_slice l a b ++ py_slice l b c = py_slice l a c.
Proof.
  intros Hab Hbc. unfold py_slice, norm_bound.
  destruct (Z.ltb_spec a 0); [lia|]. destruct (Z.ltb_spec b 0); [lia|].
  destruct (Z.ltb_spec c 0); [lia|].
  set (n := Z.of_nat (List.length l)).
  replace (Z.to_nat (Z.min c n - Z.min a n))
    with (Z.to_nat (Z.min b n - Z.min a n) + Z.to_nat (Z.min c n - Z.min b n))%nat by lia.
  rewrite firstn_plus, skipn_skipn. do 3 f_equal. lia.
Qed.



End Slices.

Lemma ceil_div_bounds (a b n : Z) :
  0 < b -> ceil_div a b = Ok n -> a <= n * b /\ (n - 1) * b < a.
Proof.
  intros Hb. unfold ceil_div. destruct (Z.eqb_spec b 0); [lia|].
  intros H. injection H as <-.
  pose proof (Z.div_mod (- a) b ltac:(lia)) as Hdm.
  pose proof (Z.mod_pos_bound (- a) b Hb) as Hm. nia.
Qed.


Lemma mapM_length {X Y : Type} (f : X -> result Y) (l : list X) (ys : list Y) :
  mapM f l = Ok ys -> List.length ys = List.length l.
Proof.
  intros H. apply mapM_ok_iff in H. symmetry. eapply Forall2_length. eassumption.
Qed.

Section FullShuffle.
Context {A : Type}.


End FullShuffle.

Section FullShuffleRuns.
Context {A : Type}.


Lemma batched_body_full (it : Iterator.t A) (fi : list Z) (i : Z) :
  Iterator.full_index it = Some fi -> fi <> [] ->
  Iterator.batched_body it i = Iterator.full_body it fi i.
Proof.
  intros Hfi Hne. unfold Iterator.batched_body. rewrite Hfi.
  destruct fi; [congruence|reflexivity].
Qed.


End FullShuffleRuns.


(** C10, as stated, fails for an iterator with a label source: the value
    handed out first is the list of [data[0]] and [label[0]], not
    [data[0]]. *)
Lemma no_batch_source_order_counterexample :
  exists it,
    Iterator.__init__ (list_source [10; 11; 12]) [list_source [20; 21; 22]] false None None
                      None false false (fun l => l) (fun l => l) = Ok it /\
    src_getitem (list_source [10; 11; 12]) 0 = Ok (Atom 10) /\
    fst (Iterator.run [Iterator.Next] it)
    = [Iterator.Item (PList [Atom 10; Atom 20])].
Proof. eexists. split; [reflexivity|]. split; reflexivity. Qed.

Lemma no_batch_source_order_witness :
  exists it,
    Iterator.__init__ (list_source [10; 11; 12]) [list_source [20; 21; 22]] true None None
                      None true true (@rev Z) (@rev Z) = Ok it /\
    Iterator.delivered (fst (Iterator.run (Iterator.lockstep true None 3) it))
    = [PList [Atom 10; Atom 20]; PList [Atom 11; Atom 21]; PList [Atom 12; Atom 22]].
Proof.
  eexists. split; [reflexivity|].
  match goal with
  | |- context [Iterator.run _ ?it] =>
      destruct (no_batch_source_order (list_source [10; 11; 12]) [list_source [20; 21; 22]]
                  true None None true true (@rev Z) (@rev Z) it (@Permutation_rev Z)
                  eq_refl) as [_ H]
  end.
  destruct (H (fun j => Atom (10 + j)) [fun j => Atom (20 + j)]) as [_ [Hd _]].
  - intros j Hj. cbn [Iterator.length] in Hj.
    assert (Hc : j = 0 \/ j = 1 \/ j = 2) by (simpl in Hj; lia).
    destruct Hc as [->|[->| ->]]; reflexivity.
  - constructor; [|constructor]. intros j Hj. cbn [Iterator.length] in Hj.
    assert (Hc : j = 0 \/ j = 1 \/ j = 2) by (simpl in Hj; lia).
    destruct Hc as [->|[->| ->]]; reflexivity.
  - exact Hd.
Defined.


(** *** Failures *)

Section Failures.
Context {A : Type}.

Lemma init_fresh (data : Source A) (label : list (Source A)) (prefetch : bool)
    (length : option Z) (batch_size : option Z)
    (transform : option (pyval A -> result (pyval A)))
    (shuffle full_shuffle : bool) (rnd_index rnd_full : list Z -> list Z)
    (it : Iterator.t A) :
  Iterator.__init__ data label prefetch length batch_size transform shuffle full_shuffle
                    rnd_index rnd_full = Ok it ->
  it = Iterator.with_state it [] None 0 /\ Iterator.prefetch it = prefetch.
Proof.
  unfold Iterator.__init__.
  destruct (negb _); [discriminate|].
  destruct (Iterator.__len__ _); [|discriminate].
  cbn [bind]. intros H. injection H as <-. split; reflexivity.
Qed.

Variable cfg : Iterator.t A.
Local Abbreviation st := (Iterator.with_state cfg).

Lemma failure_last_running (q : list (result (pyval A))) (th : option Iterator.pc) :
  Iterator.failure_last q th -> th <> Some Iterator.Done -> exists vs, q = map Ok vs.
Proof. intros [H|[H _]] Hth; [exact H|contradiction]. Qed.

Lemma emit_failure_last (q : list (result (pyval A))) (c next : Iterator.pc) (ps : Z)
    (r : result (pyval A)) :
  (exists vs, q = map Ok vs) ->
  exists q' th',
    Iterator.emit (st q (Some c) ps) r next = st q' th' ps /\ Iterator.failure_last q' th'.
Proof.
  intros [vs ->].
  destruct (emit_cases cfg (map Ok vs) (Some c) ps r next)
    as [H|[(v & _ & H)|(e & _ & H)]]; rewrite H.
  - exists (map Ok vs), (Some c). split; [reflexivity|]. left. eauto.
  - exists (map Ok vs ++ [Ok v]), (Some next). split; [reflexivity|].
    left. exists (vs ++ [v]). now rewrite map_app.
  - exists (map Ok vs ++ [Raise e]), (Some Iterator.Done). split; [reflexivity|].
    right. eauto.
Qed.

(** The worker puts nothing after a failure. *)
Lemma worker_step_failure_last (q : list (result (pyval A))) (th : option Iterator.pc)
    (ps : Z) :
  Iterator.failure_last q th ->
  exists q' th',
    Iterator.worker_step (st q th ps) = st q' th' ps /\ Iterator.failure_last q' th'.
Proof.
  intros Hfl.
  destruct th as [[|i| |i|]|].
  - rewrite worker_step_Start.
    destruct (failure_last_running _ _ Hfl ltac:(discriminate)) as [vs ->].
    destruct (Iterator.batch_size cfg); eexists _, _; (split; [reflexivity|]); left; eauto.
  - rewrite worker_step_NoBatch.
    pose proof (failure_last_running _ _ Hfl ltac:(discriminate)) as Hvs.
    destruct (i <? Iterator.length cfg); [now apply emit_failure_last|].
    eexists _, _. split; [reflexivity|]. now left.
  - rewrite worker_step_Enter.
    pose proof (failure_last_running _ _ Hfl ltac:(discriminate)) as Hvs.
    destruct (Iterator.__len__ cfg); eexists _, _; (split; [reflexivity|]); now left.
  - rewrite worker_step_Batched.
    pose proof (failure_last_running _ _ Hfl ltac:(discriminate)) as Hvs.
    destruct (Iterator.__len__ cfg) as [n|];
      [destruct (i <? n); [now apply emit_failure_last|]|];
      eexists _, _; (split; [reflexivity|]); now left.
  - rewrite worker_step_Done. eauto.
  - rewrite worker_step_unstarted. eauto.
Qed.

(** Once the failure has been taken off the queue and the worker has
    returned, every call of [__next__] waits. *)
Lemma run_terminal (sched : list Iterator.action) (ps : Z) :
  Iterator.prefetch cfg = true -> ps < Iterator.bound cfg ->
  forall evs s',
    Iterator.run sched (st [] (Some Iterator.Done) ps) = (evs, s') ->
    Forall (eq (@Iterator.Waiting A)) evs.
Proof.
  intros Hpf Hps. induction sched as [|a sched IH]; intros evs s' Hrun.
  - injection Hrun as <- _. constructor.
  - destruct a; cbn [Iterator.run] in Hrun.
    + rewrite worker_step_Done in Hrun. eapply IH; eassumption.
    + rewrite next_prefetch in Hrun by assumption. cbv zeta in Hrun.
      destruct (Z.leb_spec (Iterator.bound cfg) ps); [lia|].
      destruct (Iterator.run sched (st [] (Some Iterator.Done) ps)) as [evs1 s1] eqn:Hr.
      injection Hrun as <- <-. constructor; [reflexivity|]. eapply IH; reflexivity.
Qed.

(** In a run with a worker, whatever follows a raised failure is waiting. *)
Lemma run_after_failure (sched : list Iterator.action) :
  Iterator.prefetch cfg = true ->
  forall q th ps evs s',
    Iterator.failure_last q th ->
    Iterator.run sched (st q th ps) = (evs, s') ->
    forall pre e post, evs = pre ++ Iterator.Exc e :: post ->
                       Forall (eq (@Iterator.Waiting A)) post.
Proof.
  intros Hpf. induction sched as [|a sched IH]; intros q th ps evs s' Hfl Hrun pre e post Hevs.
  - injection Hrun as <- _. now destruct pre.
  - destruct a; cbn [Iterator.run] in Hrun.
    + destruct (worker_step_failure_last q th ps Hfl) as (q' & th' & Hstep & Hfl').
      rewrite Hstep in Hrun. eapply IH; eassumption.
    + rewrite next_prefetch in Hrun by assumption. cbv zeta in Hrun.
      set (th' := match th with None => Some Iterator.Start | Some _ => th end) in Hrun.
      assert (Hfl' : Iterator.failure_last q th').
      { destruct th as [c|]; [exact Hfl|]. destruct Hfl as [H|[H _]]; [now left|discriminate]. }
      clearbody th'. clear Hfl th.
      assert (Htail : forall ev evs1,
                 ev <> Iterator.Exc e \/
                 Forall (eq (@Iterator.Waiting A)) evs1 ->
                 (forall pre', evs1 = pre' ++ Iterator.Exc e :: post ->
                               Forall (eq (@Iterator.Waiting A)) post) ->
                 ev :: evs1 = pre ++ Iterator.Exc e :: post ->
                 Forall (eq (@Iterator.Waiting A)) post).
      { intros ev evs1 Hev Hrec Heq. destruct pre as [|p pre']; simpl in Heq.
        - injection Heq as -> ->. destruct Hev as [Hev|Hev]; [congruence|exact Hev].
        - injection Heq as _ ->. eapply Hrec. reflexivity. }
      destruct (Z.leb_spec (Iterator.bound cfg) ps) as [Hstop|Hgo].
      * destruct (Iterator.run sched (st q th' ps)) as [evs1 s1] eqn:Hr.
        injection Hrun as <- <-.
        apply (fun H1 H2 => Htail _ _ H1 H2 Hevs); [left; discriminate|].
        intros pre' Hpre'. eapply IH; eassumption.
      * destruct q as [|[v|e0] q'].
        -- destruct (Iterator.run sched (st [] th' ps)) as [evs1 s1] eqn:Hr.
           injection Hrun as <- <-.
           apply (fun H1 H2 => Htail _ _ H1 H2 Hevs); [left; discriminate|].
           intros pre' Hpre'. eapply IH; eassumption.
        -- destruct (Iterator.run sched (st q' th' (ps + 1))) as [evs1 s1] eqn:Hr.
           injection Hrun as <- <-.
           assert (Hfl'' : Iterator.failure_last q' th').
           { destruct Hfl' as [[vs Hvs]|(Hth & vs & e1 & Hvs)];
               (destruct vs as [|v' vs]; simpl in Hvs; [discriminate|]);
               injection Hvs as _ ->; [left|right]; eauto. }
           apply (fun H1 H2 => Htail _ _ H1 H2 Hevs); [left; discriminate|].
           intros pre' Hpre'. eapply IH; eassumption.
        -- destruct (Iterator.run sched (st q' th' ps)) as [evs1 s1] eqn:Hr.
           injection Hrun as <- <-.
           assert (Hend : th' = Some Iterator.Done /\ q' = []).
           { destruct Hfl' as [[vs Hvs]|(Hth & vs & e1 & Hvs)];
               (destruct vs as [|v' vs]; simpl in Hvs; [|discriminate]);
               [discriminate|]. injection Hvs as _ <-. auto. }
           destruct Hend as [-> ->].
           pose proof (run_terminal sched ps Hpf Hgo evs1 s1 Hr) as Hwait.
           apply (fun H1 H2 => Htail _ _ H1 H2 Hevs); [right; exact Hwait|].
           intros pre' Hpre'. rewrite Hpre' in Hwait.
           apply Forall_app in Hwait. destruct Hwait as [_ Hwait].
           now inversion Hwait.
Qed.

End Failures.

Section FailureDelivery.
Context {A : Type}.

(** With a worker: a failing production step puts the failure on the queue
    and ends [produce]. *)
Lemma worker_puts_failure (self : Iterator.t A) (e : exn) :
  Iterator.prefetch self = true ->
  Iterator.next_step self = Some (Raise e) ->
  (List.length (Iterator.queue self) < Iterator.maxsize)%nat ->
  Iterator.worker_step self =
    Iterator.set_thread (Iterator.set_queue self (Iterator.queue self ++ [Raise e]))
                        (Some Iterator.Done).
Proof.
  intros Hpf Hstep Hroom. apply Nat.ltb_lt in Hroom.
  unfold Iterator.next_step in Hstep. rewrite Hpf in Hstep.
  unfold Iterator.worker_step, Iterator.emit.
  destruct (Iterator.thread self) as [[|i| |i|]|]; try discriminate.
  - destruct (i <? Iterator.length self); [|discriminate].
    injection Hstep as ->. now rewrite Hroom.
  - destruct (Iterator.__len__ self) as [n|]; [|discriminate].
    destruct (i <? n); [|discriminate].
    injection Hstep as ->. now rewrite Hroom.
Qed.

(** Without a worker: the failure leaves [produce(False)] and [__next__] as
    an exception; queue and position stay as they were. *)
Lemma sync_raises_failure (self : Iterator.t A) (e : exn) :
  Iterator.prefetch self = false ->
  Iterator.pos self < Iterator.bound self ->
  Iterator.next_step self = Some (Raise e) ->
  Iterator.produce_sync self = Iterator.Raised e /\
  Iterator.__next__ self = (Iterator.Exc e, self).
Proof.
  intros Hpf Hpos Hstep.
  assert (Hprod : Iterator.produce_sync self = Iterator.Raised e).
  { unfold Iterator.next_step in Hstep. rewrite Hpf in Hstep.
    unfold Iterator.produce_sync, Iterator.produce_batched_sync.
    destruct (Iterator.batch_size self).
    - destruct (Iterator.__len__ self) as [n|]; [|discriminate].
      destruct (Iterator.pos self <? n); [|discriminate]. now injection Hstep as ->.
    - destruct (Iterator.pos self <? Iterator.length self); [now injection Hstep as ->|].
      destruct (Iterator.__len__ self) as [n|]; [|discriminate].
      destruct (Iterator.pos self <? n); [|discriminate]. now injection Hstep as ->. }
  split; [exact Hprod|].
  unfold Iterator.__next__. rewrite Hpf.
  assert (Hself : match Iterator.thread self with
                  | Some _ => self
                  | None => self
                  end = self) by now destruct (Iterator.thread self).
  rewrite Hself, Hpf, Hprod. unfold Iterator.bound in Hpos.
  destruct (Z.leb_spec (Z.of_nat (List.length (Iterator.index self))) (Iterator.pos self));
    [lia|reflexivity].
Qed.

(** With a worker: the call that takes a failure off the queue raises it and
    leaves the position where it was. *)
Lemma next_reraises (self : Iterator.t A) (e : exn) (q : list (result (pyval A))) :
  Iterator.prefetch self = true ->
  Iterator.pos self < Iterator.bound self ->
  Iterator.queue self = Raise e :: q ->
  fst (Iterator.__next__ self) = Iterator.Exc e /\
  Iterator.queue (snd (Iterator.__next__ self)) = q /\
  Iterator.pos (snd (Iterator.__next__ self)) = Iterator.pos self.
Proof.
  intros Hpf Hpos Hq. unfold Iterator.__next__, Iterator.bound in *. rewrite Hpf.
  destruct (Iterator.thread self);
    cbn [Iterator.set_thread Iterator.index Iterator.pos Iterator.prefetch Iterator.queue];
    (destruct (Z.leb_spec (Z.of_nat (List.length (Iterator.index self))) (Iterator.pos self));
     [lia|]);
    rewrite Hpf;
    cbn [Iterator.set_thread Iterator.index Iterator.pos Iterator.prefetch Iterator.queue];
    rewrite Hq; repeat split.
Qed.

(** C1, as stated, fails without a worker: the first production step of this
    iterator fails with [OSError]; the failure is raised by [produce(False)]
    and by [__next__], and the queue, empty before, is empty after. *)
Lemma failure_delivery_counterexample :
  exists it,
    Iterator.__init__ broken_source [] false None None None false false
                      (fun l => l) (fun l => l) = Ok it /\
    Iterator.queue it = [] /\
    Iterator.produce_sync it = Iterator.Raised OSError /\
    fst (Iterator.__next__ it) = Iterator.Exc OSError /\
    Iterator.queue (snd (Iterator.__next__ it)) = [].
Proof. eexists. repeat split. Qed.

(** C1, amended.  With a worker (prefetch), a failure raised by a production
    step is put on the queue in place of a value and the worker returns, so
    that it puts nothing more; the call of [__next__] that takes the failure
    off the queue raises it and does not advance the position; in a run of a
    constructed iterator every call after that waits for ever.  Without a
    worker the failure is not put on the queue: it is raised by the
    production step and by [__next__] directly, and the iterator is left as it
    was. *)
Theorem failure_delivery :
  (forall (self : Iterator.t A) (e : exn),
     Iterator.prefetch self = true ->
     Iterator.next_step self = Some (Raise e) ->
     (List.length (Iterator.queue self) < Iterator.maxsize)%nat ->
     Iterator.queue (Iterator.worker_step self) = Iterator.queue self ++ [Raise e] /\
     Iterator.thread (Iterator.worker_step self) = Some Iterator.Done /\
     Iterator.next_step (Iterator.worker_step self) = None /\
     Iterator.worker_step (Iterator.worker_step self) = Iterator.worker_step self) /\
  (forall (self : Iterator.t A) (e : exn) (q : list (result (pyval A))),
     Iterator.prefetch self = true ->
     Iterator.pos self < Iterator.bound self ->
     Iterator.queue self = Raise e :: q ->
     fst (Iterator.__next__ self) = Iterator.Exc e /\
     Iterator.queue (snd (Iterator.__next__ self)) = q /\
     Iterator.pos (snd (Iterator.__next__ self)) = Iterator.pos self) /\
  (forall (data : Source A) (label : list (Source A)) (length batch_size : option Z)
          (transform : option (pyval A -> result (pyval A)))
          (shuffle full_shuffle : bool) (rnd_index rnd_full : list Z -> list Z)
          (it : Iterator.t A) (sched : list Iterator.action)
          (pre post : list (Iterator.event A)) (e : exn),
     Iterator.__init__ data label true length batch_size transform shuffle full_shuffle
                       rnd_index rnd_full = Ok it ->
     fst (Iterator.run sched it) = pre ++ Iterator.Exc e :: post ->
     Forall (eq (@Iterator.Waiting A)) post) /\
  (forall (self : Iterator.t A) (e : exn),
     Iterator.prefetch self = false ->
     Iterator.pos self < Iterator.bound self ->
     Iterator.next_step self = Some (Raise e) ->
     Iterator.produce_sync self = Iterator.Raised e /\
     Iterator.__next__ self = (Iterator.Exc e, self)).
Proof.
  split; [|split; [|split]].
  - intros self e Hpf Hstep Hroom.
    rewrite (worker_puts_failure self e Hpf Hstep Hroom).
    repeat split. unfold Iterator.next_step. cbn [Iterator.set_thread Iterator.prefetch
      Iterator.set_queue Iterator.thread]. now rewrite Hpf.
  - exact next_reraises.
  - intros data label length batch_size transform shuffle full_shuffle rnd_index rnd_full
           it sched pre post e Hinit Hevs.
    destruct (init_fresh _ _ _ _ _ _ _ _ _ _ _ Hinit) as [Hit Hpf].
    destruct (Iterator.run sched it) as [evs s'] eqn:Hrun. cbn [fst] in Hevs.
    rewrite Hit in Hrun.
    eapply (run_after_failure it sched Hpf [] None 0 evs s'); [|exact Hrun|exact Hevs].
    left. exists []. reflexivity.
  - exact sync_raises_failure.
Qed.

End FailureDelivery.

Lemma failure_delivery_witness :
  exists it,
    Iterator.__init__ broken_source [] true None None None false false
                      (fun l => l) (fun l => l) = Ok it /\
    fst (Iterator.run [Iterator.Next; Iterator.Work; Iterator.Work; Iterator.Next;
                       Iterator.Work; Iterator.Next; Iterator.Next] it)
    = [Iterator.Waiting; Iterator.Exc OSError; Iterator.Waiting; Iterator.Waiting] /\
    Forall (eq (@Iterator.Waiting Z)) [Iterator.Waiting; Iterator.Waiting].
Proof.
  eexists. split; [reflexivity|]. split; [reflexivity|].
  destruct (@failure_delivery Z) as (_ & _ & H & _).
  eapply (H broken_source [] None None None false false (fun l => l) (fun l => l) _
            [Iterator.Next; Iterator.Work; Iterator.Work; Iterator.Next;
             Iterator.Work; Iterator.Next; Iterator.Next]
            [Iterator.Waiting] _ OSError eq_refl).
  reflexivity.
Defined.

(** *** The transform *)

Section TransformApplication.
Context {A : Type}.

(** A batch of the full-shuffle path: the transform of the fetched elements,
    with the transform of each label's elements. *)
Lemma full_body_transformed (self : Iterator.t A) (fi : list Z) (i bs : Z)
    (f : pyval A -> result (pyval A)) (v : pyval A) :
  Iterator.batch_size self = Some bs -> Iterator.transform self = Some f ->
  Iterator.full_body self fi i = Ok v ->
  exists raw tb lbs,
    mapM (src_getitem (Iterator.data self)) (py_slice fi (i * bs) ((i + 1) * bs)) = Ok raw /\
    f (PList raw) = Ok tb /\
    Forall2 (fun lab lb =>
               exists rawl,
                 mapM (src_getitem lab) (py_slice fi (i * bs) ((i + 1) * bs)) = Ok rawl /\
                 f (PList rawl) = Ok lb)
            (Iterator.label self) lbs /\
    v = Iterator.compose tb lbs.
Proof.
  intros Hbs Htr. unfold Iterator.full_body, Iterator.apply_transform.
  rewrite Hbs, Htr. cbn [Iterator.mul_bs bind].
  set (inds := py_slice fi (i * bs) ((i + 1) * bs)).
  destruct (mapM (src_getitem (Iterator.data self)) inds) as [raw|] eqn:Hraw;
    [|discriminate].
  cbn [bind]. destruct (f (PList raw)) as [tb|] eqn:Htb; [|discriminate].
  cbn [bind].
  destruct (mapM (fun lab => raw0 <- mapM (src_getitem lab) inds ;; f (PList raw0))
                 (Iterator.label self)) as [lbs|] eqn:Hlbs; [|discriminate].
  cbn [bind]. intros H. injection H as <-.
  exists raw, tb, lbs. split; [reflexivity|]. split; [assumption|].
  split; [|reflexivity].
  apply mapM_ok_iff in Hlbs. eapply Forall2_impl; [|exact Hlbs].
  intros lab lb Hlb. cbv beta in Hlb.
  destruct (mapM (src_getitem lab) inds) as [rawl|]; [|discriminate].
  exists rawl. split; [reflexivity|exact Hlb].
Qed.

(** A batch of the contiguous path: what the sources return for the range,
    as it is. *)
Lemma contiguous_body_raw (self : Iterator.t A) (i bs : Z) (v : pyval A) :
  Iterator.batch_size self = Some bs ->
  Iterator.contiguous_body self i = Ok v ->
  exists idx raw lbs,
    list_getitem (Iterator.index self) i = Ok idx /\
    Iterator.fetch_range (Iterator.data self) (idx * bs) ((idx + 1) * bs) = Ok raw /\
    Forall2 (fun lab lb => Iterator.fetch_range lab (idx * bs) ((idx + 1) * bs) = Ok lb)
            (Iterator.label self) lbs /\
    v = Iterator.compose raw lbs.
Proof.
  intros Hbs. unfold Iterator.contiguous_body. rewrite Hbs.
  destruct (list_getitem (Iterator.index self) i) as [idx|]; [|discriminate].
  cbn [Iterator.mul_bs bind].
  destruct (Iterator.fetch_range (Iterator.data self) (idx * bs) ((idx + 1) * bs))
    as [raw|] eqn:Hraw; [|discriminate].
  cbn [bind].
  destruct (mapM (fun lab => Iterator.fetch_range lab (idx * bs) ((idx + 1) * bs))
                 (Iterator.label self)) as [lbs|] eqn:Hlbs; [|discriminate].
  cbn [bind]. intros H. injection H as <-.
  exists idx, raw, lbs. split; [reflexivity|]. split; [exact Hraw|].
  split; [now apply mapM_ok_iff|reflexivity].
Qed.

(** C4, as stated, fails in the modes "none" and "batchShuffle": with batch
    size 2 and a transform that wraps its argument, the first item delivered
    is the raw slice, not its transform. *)
Lemma transform_counterexample :
  (exists it,
     Iterator.__init__ (list_source [10; 11; 12; 13; 14]) [] false None (Some 2)
                       (Some mark_transform) false false (@rev Z) (@rev Z) = Ok it /\
     fst (Iterator.__next__ it) = Iterator.Item (PList [Atom 10; Atom 11]) /\
     mark_transform (PList [Atom 10; Atom 11])
     = Ok (PList [Atom 99; PList [Atom 10; Atom 11]])) /\
  (exists it,
     Iterator.__init__ (list_source [10; 11; 12; 13; 14]) [] false None (Some 2)
                       (Some mark_transform) true false (@rev Z) (@rev Z) = Ok it /\
     fst (Iterator.__next__ it) = Iterator.Item (PList [Atom 14]) /\
     mark_transform (PList [Atom 14]) = Ok (PList [Atom 99; PList [Atom 14]])).
Proof. split; eexists; repeat split. Qed.

(** C4, amended.  For an iterator constructed with a batch size and a
    transform, in every run the n-th value delivered is, in the mode
    "fullShuffle" (with a non-empty element permutation), composed of the
    transform of the elements fetched at chunk n of the permutation and of the
    transform of each label's elements at the same indices; in the modes
    "none" and "batchShuffle" it is composed of what the data source and each
    label source return for the range named by [index[n]], to which the
    transform is not applied. *)
Theorem transform_application (data : Source A) (label : list (Source A))
    (prefetch : bool) (length : option Z) (bs : Z)
    (f : pyval A -> result (pyval A))
    (shuffle full_shuffle : bool) (rnd_index rnd_full : list Z -> list Z)
    (it : Iterator.t A) :
  (forall l, Permutation l (rnd_index l)) ->
  Iterator.__init__ data label prefetch length (Some bs) (Some f) shuffle full_shuffle
                    rnd_index rnd_full = Ok it ->
  forall sched n v,
    nth_error (Iterator.delivered (fst (Iterator.run sched it))) n = Some v ->
    let fi := rnd_full (zrange 0 (Iterator.length it)) in
    if full_shuffle && negb (Nat.eqb (List.length fi) 0) then
      let inds := py_slice fi (Z.of_nat n * bs) ((Z.of_nat n + 1) * bs) in
      exists raw tb lbs,
        mapM (src_getitem data) inds = Ok raw /\
        f (PList raw) = Ok tb /\
        Forall2 (fun lab lb => exists rawl, mapM (src_getitem lab) inds = Ok rawl /\
                                            f (PList rawl) = Ok lb) label lbs /\
        v = Iterator.compose tb lbs
    else
      exists idx raw lbs,
        list_getitem (Iterator.index it) (Z.of_nat n) = Ok idx /\
        Iterator.fetch_range data (idx * bs) ((idx + 1) * bs) = Ok raw /\
        Forall2 (fun lab lb => Iterator.fetch_range lab (idx * bs) ((idx + 1) * bs) = Ok lb)
                label lbs /\
        v = Iterator.compose raw lbs.
Proof.
  intros Hperm Hinit sched n v Hn.
  destruct (init_ok _ _ _ _ _ _ _ _ _ _ _ Hperm Hinit)
    as (Hit & Hwf & Hd & Hl & Hpre & Hb & Htr & _ & Hfi & _).
  destruct (Iterator.run sched it) as [evs s'] eqn:Hrun. cbn [fst] in Hn.
  destruct (run_safe it sched evs s' Hit Hwf Hrun) as [Hvs _].
  pose proof (produced_nth _ _ _ _ _ Hvs Hn) as Hv.
  unfold Iterator.primary_body, Iterator.batched_body in Hv. rewrite Hb, Hfi in Hv.
  cbv zeta. set (fi := rnd_full (zrange 0 (Iterator.length it))) in *.
  destruct full_shuffle; cbn [andb].
  - destruct fi as [|x fi'] eqn:Hfieq; cbn [List.length Nat.eqb negb].
    + rewrite <- Hd, <- Hl. now apply contiguous_body_raw.
    + rewrite <- Hd, <- Hl. now apply full_body_transformed.
  - rewrite <- Hd, <- Hl. now apply contiguous_body_raw.
Qed.

End TransformApplication.

Lemma transform_application_witness :
  exists it,
    Iterator.__init__ (list_source [10; 11; 12; 13; 14]) [] false None (Some 2)
                      (Some mark_transform) false true (@rev Z) (@rev Z) = Ok it /\
    fst (Iterator.run [Iterator.Next] it)
    = [Iterator.Item (PList [Atom 99; PList [Atom 14; Atom 13]])] /\
    exists raw tb,
      mapM (src_getitem (list_source [10; 11; 12; 13; 14])) [4; 3] = Ok raw /\
      mark_transform (PList raw) = Ok tb /\
      PList [Atom 99; PList [Atom 14; Atom 13]] = tb.
Proof.
  eexists. split; [reflexivity|]. split; [reflexivity|].
  match goal with
  | |- context [mark_transform] =>
      pose proof (transform_application (list_source [10; 11; 12; 13; 14]) [] false None 2
                    mark_transform false true (@rev Z) (@rev Z) _
                    (@Permutation_rev Z) eq_refl [Iterator.Next] 0%nat
                    (PList [Atom 99; PList [Atom 14; Atom 13]]) eq_refl) as H
  end.
  cbv zeta in H. cbn [andb negb] in H.
  destruct H as (raw & tb & lbs & Hraw & Htb & Hlbs & Hv).
  inversion Hlbs; subst. exists raw, tb. repeat split; assumption.
Defined.


(* ===================================================================== *)
(** ** Further properties of the record file                              *)
(* ===================================================================== *)

Lemma wc_l_le (file : list string) : 0 <= wc_l file <= Z.of_nat (List.length file).
Proof.
  unfold wc_l. pose proof (filter_length_le ends_with_newline file). lia.
Qed.

Lemma clip_bounds (v low high : Z) :
  low <= high -> low <= _clip v low high <= high.
Proof.
  intros H. unfold _clip.
  destruct (Z.ltb_spec v low);
    [destruct (Z.gtb_spec low high)|destruct (Z.gtb_spec v high)]; lia.
Qed.

(** X1.  [_clip] clamps into [low, high] when the bounds are in order, and
    returns [high] whatever the value when they are not (as for the start
    bound of a slice of a file without records, where high = -1). *)
Theorem clip_range (v low high : Z) :
  (low <= high ->
   low <= _clip v low high <= high /\
   (low <= v <= high -> _clip v low high = v) /\
   (v < low -> _clip v low high = low) /\
   (high < v -> _clip v low high = high)) /\
  (high < low -> _clip v low high = high).
Proof.
  unfold _clip.
  destruct (Z.ltb_spec v low);
    [destruct (Z.gtb_spec low high)|destruct (Z.gtb_spec v high)];
    repeat split; intros; lia.
Qed.

Lemma clip_range_witness : _clip 5 (-3) 2 = 2 /\ _clip 0 0 (-1) = -1.
Proof.
  destruct (clip_range 5 (-3) 2) as [H _].
  destruct (H ltac:(lia)) as (_ & _ & _ & Hhigh).
  destruct (clip_range 0 0 (-1)) as [_ H'].
  split; [apply Hhigh; lia|apply H'; lia].
Defined.

(** X2.  The count derived from [wc -l] never exceeds the count derived from
    scanning the file, and the two agree when every physical line ends in a
    newline. *)
Theorem count_by_platform (contents : list string) (skip group : Z) (preserve : bool)
    (unix win : Lines.t) :
  0 < group ->
  Lines.__init__ (Some contents) false skip group preserve = Ok unix ->
  Lines.__init__ (Some contents) true skip group preserve = Ok win ->
  Lines.length unix <= Lines.length win /\
  (forallb ends_with_newline contents = true -> Lines.length unix = Lines.length win).
Proof.
  intros Hg Hu Hw. apply lines_count in Hu, Hw. rewrite Hu, Hw. split.
  - apply Z.div_le_mono; [assumption|]. pose proof (wc_l_le contents). lia.
  - intros Hall. do 2 f_equal. unfold wc_l.
    now rewrite (forallb_filter_id _ _ Hall).
Qed.

Lemma count_by_platform_witness :
  Lines.length (Lines.mk ["a" ++ newline; "b"]%string 1 0 1 false)
  <= Lines.length (Lines.mk ["a" ++ newline; "b"]%string 2 0 1 false).
Proof.
  apply (count_by_platform ["a" ++ newline; "b"]%string 0 1 false
           (Lines.mk ["a" ++ newline; "b"]%string 1 0 1 false)
           (Lines.mk ["a" ++ newline; "b"]%string 2 0 1 false));
    [lia|reflexivity|reflexivity].
Defined.

Lemma skipn_cons_nth {X : Type} (l : list X) (a : nat) (d : X) :
  (a < List.length l)%nat -> skipn a l = nth a l d :: skipn (S a) l.
Proof.
  revert a. induction l as [|x l IH]; intros [|a] H; simpl in *; try lia; [reflexivity|].
  apply IH. lia.
Qed.

Lemma block_nth {X : Type} (l : list X) (d : X) (n a : nat) :
  (a + n <= List.length l)%nat ->
  firstn n (skipn a l) = map (fun k => nth (a + k) l d) (seq 0 n).
Proof.
  revert a. induction n as [|n IH]; intros a H; [reflexivity|].
  rewrite (skipn_cons_nth l a d) by lia. cbn [firstn seq map].
  rewrite Nat.add_0_r. f_equal.
  rewrite IH by lia. rewrite <- seq_shift, map_map. apply map_ext.
  intros k. f_equal. lia.
Qed.

(** X3.  Where a record is read.  For a file opened with a positive group
    and a non-negative skip, scalar access at a valid index [i] returns the
    record made of the [group] consecutive physical lines that follow the
    first [skip + i*group] lines of the file, each as [linecache] caches it
    and stripped of its terminator unless newlines are preserved; all of
    these lines exist in the file. *)
Theorem record_lines_exist (contents : list string) (win32 : bool) (skip group : Z)
    (preserve : bool) (self : Lines.t) (i : Z) :
  Lines.__init__ (Some contents) win32 skip group preserve = Ok self ->
  0 <= skip -> 0 < group ->
  0 <= i < Lines.length self ->
  let block := firstn (Z.to_nat group) (skipn (Z.to_nat (skip + i * group)) contents) in
  List.length block = Z.to_nat group /\
  Lines.__getitem__ self (Lines.Int i)
  = Ok (Lines.One
          (if group =? 1
           then Lines.Line (Lines.strip_newline self (cached_line (nth 0 block EmptyString)))
           else Lines.Group (map (fun l => Lines.strip_newline self (cached_line l)) block))).
Proof.
  intros Hinit Hskip Hg Hi block.
  pose proof (lines_count _ _ _ _ _ _ Hinit) as Hcount.
  rewrite getitem_below_count by lia.
  unfold Lines.__init__ in Hinit. destruct (Z.eqb_spec group 0); [lia|].
  injection Hinit as <-. unfold Lines.read.
  cbn [Lines.skip Lines.group Lines.file Lines.length] in *.
  set (linecount := if win32 then Z.of_nat (List.length contents) else wc_l contents) in *.
  assert (Hlc : linecount <= Z.of_nat (List.length contents)).
  { subst linecount. destruct win32; [lia|apply wc_l_le]. }
  assert (Hdiv : group * ((linecount - skip) / group) <= linecount - skip)
    by (apply Z.mul_div_le; lia).
  assert (Hend : skip + (i + 1) * group <= Z.of_nat (List.length contents)) by nia.
  assert (Hblock : block = map (fun k => nth (Z.to_nat (skip + i * group) + k) contents
                                            EmptyString)
                               (seq 0 (Z.to_nat group))).
  { subst block. apply block_nth. nia. }
  split.
  - rewrite Hblock, length_map, length_seq. reflexivity.
  - assert (Hline : forall k, (k < Z.to_nat group)%nat ->
               getline contents (skip + 1 + i * group + Z.of_nat k)
               = cached_line (nth (Z.to_nat (skip + i * group) + k) contents EmptyString)).
    { intros k Hk. unfold getline.
      destruct (Z.leb_spec 1 (skip + 1 + i * group + Z.of_nat k)); [|nia].
      destruct (Z.leb_spec (skip + 1 + i * group + Z.of_nat k)
                           (Z.of_nat (List.length contents))); [|nia].
      cbn [andb]. do 2 f_equal. nia. }
    do 2 f_equal. rewrite Hblock.
    destruct (Z.eqb_spec group 1) as [->|Hne].
    + change (Z.to_nat 1) with 1%nat. cbn [seq map nth]. do 2 f_equal.
      rewrite <- (Hline 0%nat) by lia. f_equal. lia.
    + f_equal. unfold zrange. rewrite Z.sub_0_r, !map_map.
      apply map_ext_in. intros k Hk. apply in_seq in Hk. f_equal.
      rewrite <- Hline by lia. reflexivity.
Qed.

Lemma record_lines_exist_witness :
  Lines.__getitem__ sample_lines (Lines.Int 1)
  = Ok (Lines.One (Lines.Group ["3"; "4,5,6"]%string)).
Proof.
  destruct (record_lines_exist sample_file false 0 2 false sample_lines 1 eq_refl)
    as [_ H]; try lia.
  - simpl. lia.
  - exact H.
Defined.

(** X4.  With a non-negative count no slice raises, whatever its bounds, and
    when there is at least one record a slice only holds records of valid
    indices: it is the list of the records [low .. high) for some
    [0 <= low < count] and [0 <= high <= count]. *)
Theorem slice_never_raises (self : Lines.t) (lo hi : option Z) :
  0 <= Lines.length self ->
  exists low high,
    Lines.__getitem__ self (Lines.Slice lo hi)
    = Ok (Lines.Many (map (Lines.read self) (zrange low high))) /\
    (0 < Lines.length self ->
     0 <= low < Lines.length self /\ 0 <= high <= Lines.length self).
Proof.
  intros Hn. unfold Lines.__getitem__. rewrite lines_len_ok by assumption. cbn [bind].
  eexists _, _. split; [reflexivity|]. intros Hpos.
  set (n := Lines.length self) in *.
  destruct (clip_bounds (match lo with None => 0 | Some s => s end) (- n) (n - 1)
              ltac:(lia)) as [Hl1 Hl2].
  destruct (clip_bounds (match hi with None => n | Some s => s end) (- n) n
              ltac:(lia)) as [Hh1 Hh2].
  split.
  - destruct (Z.ltb_spec (_clip (match lo with None => 0 | Some s => s end) (- n) (n - 1)) 0);
      lia.
  - destruct (Z.ltb_spec (_clip (match hi with None => n | Some s => s end) (- n) n) 0);
      lia.
Qed.

Lemma slice_never_raises_witness :
  exists low high,
    Lines.__getitem__ sample_lines (Lines.Slice (Some (-7)) (Some 40))
    = Ok (Lines.Many (map (Lines.read sample_lines) (zrange low high))) /\
    (0 <= low < 3 /\ 0 <= high <= 3).
Proof.
  destruct (slice_never_raises sample_lines (Some (-7)) (Some 40)) as (low & high & H1 & H2);
    [simpl; lia|].
  exists low, high. split; [exact H1|]. apply H2. simpl. lia.
Defined.

(** X5.  Iterating over the file yields its [count] records in index order,
    and when there is at least one record these are the records of the full
    slice [self[:]]; iterating over a file without records yields nothing. *)
Theorem iter_is_full_slice (self : Lines.t) :
  0 <= Lines.length self ->
  Lines.__iter__ self
  = Ok (map (fun i => Lines.One (Lines.read self i)) (zrange 0 (Lines.length self))) /\
  (0 < Lines.length self ->
   Lines.__getitem__ self (Lines.Slice None None)
   = Ok (Lines.Many (map (Lines.read self) (zrange 0 (Lines.length self))))) /\
  (Lines.length self = 0 -> Lines.__iter__ self = Ok []).
Proof.
  intros Hn.
  assert (Hiter : Lines.__iter__ self
                  = Ok (map (fun i => Lines.One (Lines.read self i))
                            (zrange 0 (Lines.length self)))).
  { unfold Lines.__iter__. rewrite lines_len_ok by assumption. cbn [bind].
    rewrite <- mapM_pure. apply mapM_ext. intros i Hi. apply zrange_In in Hi.
    apply getitem_below_count; lia. }
  split; [exact Hiter|]. split.
  - intros Hpos. rewrite slice_start_in_range by (auto; lia).
    do 3 f_equal. unfold normalized_range, norm_bound.
    destruct (Z.ltb_spec 0 0); [lia|].
    destruct (Z.ltb_spec (Lines.length self) 0); [lia|]. f_equal; lia.
  - intros H0. rewrite Hiter, H0. reflexivity.
Qed.

Lemma iter_is_full_slice_witness :
  Lines.__iter__ sample_lines
  = Ok [Lines.One (Lines.Group ["2"; "1,2"]%string);
        Lines.One (Lines.Group ["3"; "4,5,6"]%string);
        Lines.One (Lines.Group ["1"; "7"]%string)].
Proof.
  destruct (iter_is_full_slice sample_lines) as [H _]; [simpl; lia|].
  rewrite H. reflexivity.
Defined.


(* ===================================================================== *)
(** ** Further properties of the transform and of batches                 *)
(* ===================================================================== *)

Lemma mapM_map {X Y W : Type} (g : X -> Y) (f : Y -> result W) (l : list X) :
  mapM f (map g l) = mapM (fun x => f (g x)) l.
Proof. induction l as [|x l IH]; simpl; [reflexivity|]. now rewrite IH. Qed.

Lemma normalized_range_valid (n : Z) (lo hi : option Z) (i : Z) :
  0 <= n -> In i (normalized_range n lo hi) -> 0 <= i < n.
Proof.
  intros Hn Hi. unfold normalized_range in Hi. apply zrange_In in Hi.
  unfold norm_bound in Hi.
  destruct lo as [l|], hi as [h|];
    repeat match type of Hi with
           | context [?a <? ?b] => destruct (Z.ltb_spec a b)
           end; lia.
Qed.

Lemma transform_getitem_int (self : Transform.t) (i : Z) :
  0 <= Lines.length (Transform.data self) -> i < Lines.length (Transform.data self) ->
  Transform.__getitem__ self (Lines.Int i) =
  (items <- Transform.parse_record (Lines.read (Transform.data self) i) ;;
   tensors <- mapM torch_tensor items ;;
   Ok (Transform.Sequences tensors)).
Proof.
  intros Hn Hi. unfold Transform.__getitem__.
  now rewrite getitem_below_count by assumption.
Qed.

(** Scalar access returns the parsed record, and only when its entries lie
    in the 64-bit range. *)
Lemma transform_getitem_int_ok (self : Transform.t) (i : Z) (s : list tensor1) :
  0 <= Lines.length (Transform.data self) -> i < Lines.length (Transform.data self) ->
  Transform.__getitem__ self (Lines.Int i) = Ok (Transform.Sequences s) <->
  Transform.parse_record (Lines.read (Transform.data self) i) = Ok s /\
  Forall (fun x => forallb in_int64 x = true) s.
Proof.
  intros Hn Hi. rewrite transform_getitem_int by assumption.
  destruct (Transform.parse_record _) as [items|e]; cbn [bind].
  - destruct (mapM torch_tensor items) as [ts|e] eqn:Ht; cbn [bind].
    + apply tensors_ok in Ht. destruct Ht as [-> Hin]. split.
      * intros [= <-]. auto.
      * intros [[= <-] _]. reflexivity.
    + split; [discriminate|]. intros [[= <-] Hin].
      assert (Hok : mapM torch_tensor items = Ok items) by (apply tensors_ok; auto).
      congruence.
  - split; [discriminate|]. intros [H _]. discriminate.
Qed.

(** Every record read from one file parses into the same number of
    sequences. *)
Lemma parse_record_length (L : Lines.t) (j : Z) (s : list (list Z)) :
  Transform.parse_record (Lines.read L j) = Ok s ->
  List.length s = (Z.to_nat (Lines.group L) - 1)%nat.
Proof.
  unfold Lines.read. destruct (Lines.group L =? 1); [discriminate|].
  cbn [Transform.parse_record].
  destruct (map _ (zrange 0 (Lines.group L))) as [|m rest] eqn:Hmap; [discriminate|].
  intros H. apply mapM_length in H. rewrite H.
  apply (f_equal (@List.length string)) in Hmap.
  rewrite length_map, zrange_length, Z.sub_0_r in Hmap. simpl in Hmap. lia.
Qed.

Lemma zip_star_In {X : Type} (batch : list (list X)) (col : list X) (x : X) :
  In col (zip_star batch) -> In x col -> exists rec, In rec batch /\ In x rec.
Proof.
  intros Hcol Hx. apply In_nth_error in Hcol. destruct Hcol as [f Hf].
  apply zip_star_nth_error in Hf. destruct Hf as [_ Hf].
  destruct (Forall2_In_r _ _ _ _ Hf Hx) as (rec & Hrec & Hnth).
  exists rec. split; [assumption|]. eapply nth_error_In. eassumption.
Qed.

(** The assembler on Python lists: whatever it returns is the assembled
    batch of the same sequences. *)
Lemma transform_batch_lists_result (batch : list (list (list Z))) (fields : list string)
    (seq_len : Z) (b : Batch.t) :
  _transform_batch_lists batch fields seq_len = Ok b ->
  b = _transform_batch batch fields seq_len.
Proof.
  unfold _transform_batch_lists, _transform_batch.
  destruct (mapM _ (zip_star batch)) as [cols|] eqn:Hm; [|discriminate].
  cbn [bind]. intros [= <-]. f_equal.
  apply mapM_ok_iff in Hm.
  induction Hm as [|col y cols ys Hy _ IH]; [reflexivity|].
  simpl. rewrite IH. f_equal.
  destruct (mapM torch_tensor col) as [ts|] eqn:Ht; [|discriminate].
  apply tensors_ok in Ht. destruct Ht as [-> _]. cbn [bind] in Hy. now injection Hy.
Qed.

(** It returns when every entry of every record lies in the 64-bit range. *)
Lemma transform_batch_lists_ok (batch : list (list (list Z))) (fields : list string)
    (seq_len : Z) :
  Forall (Forall (fun x => forallb in_int64 x = true)) batch ->
  _transform_batch_lists batch fields seq_len = Ok (_transform_batch batch fields seq_len).
Proof.
  intros Hall.
  destruct (_transform_batch_lists batch fields seq_len) as [b|e] eqn:Hb.
  - f_equal. now apply transform_batch_lists_result.
  - exfalso. unfold _transform_batch_lists in Hb.
    destruct (mapM _ (zip_star batch)) as [cols|e'] eqn:Hm; [discriminate|].
    apply mapM_raise_In in Hm. destruct Hm as (col & Hcol & Hraise).
    destruct (mapM torch_tensor col) as [ts|e''] eqn:Ht; [discriminate|].
    apply tensors_raise in Ht. destruct Ht as (_ & x & z & Hx & Hz & Hbig).
    destruct (zip_star_In _ _ _ Hcol Hx) as (rec & Hrec & Hxr).
    rewrite Forall_forall in Hall. specialize (Hall rec Hrec).
    rewrite Forall_forall in Hall. specialize (Hall x Hxr).
    rewrite forallb_forall in Hall. specialize (Hall z Hz). congruence.
Qed.

(** It raises when a sequence that every record has holds an entry outside
    the 64-bit range. *)
Lemma transform_batch_lists_raise (batch : list (list (list Z))) (fields : list string)
    (seq_len : Z) (rec : list (list Z)) (f : nat) (x : list Z) :
  Forall (fun r => (f < List.length r)%nat) batch ->
  In rec batch -> nth_error rec f = Some x -> forallb in_int64 x = false ->
  exists e, _transform_batch_lists batch fields seq_len = Raise e.
Proof.
  intros Hlen Hrec Hx Hbad.
  assert (Hcol : In (field_seqs batch f) (zip_star batch)).
  { apply (nth_error_In _ f). apply zip_star_nth_error. split.
    - intros ->. contradiction.
    - now apply column_of_field_seqs. }
  assert (Hin : In x (field_seqs batch f)).
  { unfold field_seqs. apply in_map_iff. exists rec. split; [|assumption].
    now apply nth_error_nth. }
  unfold _transform_batch_lists.
  assert (Hraise : exists e, (tensors <- mapM torch_tensor (field_seqs batch f) ;;
                              Ok (pad_sequence tensors (-1))) = Raise e).
  { destruct (mapM_In_raise torch_tensor (field_seqs batch f) x RuntimeError Hin)
      as [e He].
    - unfold torch_tensor. now rewrite Hbad.
    - exists e. now rewrite He. }
  destruct Hraise as [e He].
  destruct (mapM_In_raise (fun item => tensors <- mapM torch_tensor item ;;
                                       Ok (pad_sequence tensors (-1)))
              (zip_star batch) _ e Hcol He) as [e' He'].
  exists e'. now rewrite He'.
Qed.

(** X6.  Parsing a slice is assembling the records parsed one by one: when
    the file has records and the start bound lies below the count, if
    [parseOne] returns the sequences [s_i] for every index of the normalised
    range, then the slice returns the batch assembled from these [s_i]; and if
    [parseOne] fails at some index of the range, so does the slice. *)
Theorem parse_slice_assembles (self : Transform.t) (lo hi : option Z) :
  0 < Lines.length (Transform.data self) ->
  match lo with None => True | Some l => l < Lines.length (Transform.data self) end ->
  let range := normalized_range (Lines.length (Transform.data self)) lo hi in
  (forall seqs,
     Forall2 (fun i s => Transform.__getitem__ self (Lines.Int i)
                         = Ok (Transform.Sequences s)) range seqs ->
     Transform.__getitem__ self (Lines.Slice lo hi)
     = Ok (Transform.Assembled
             (_transform_batch seqs (Transform.inputs self) (Transform.seq_len self)))) /\
  (forall i e,
     In i range -> Transform.__getitem__ self (Lines.Int i) = Raise e ->
     exists e', Transform.__getitem__ self (Lines.Slice lo hi) = Raise e').
Proof.
  intros Hn Hlo range.
  set (L := Transform.data self) in *.
  assert (Hslice : Transform.__getitem__ self (Lines.Slice lo hi) =
                   (items <- mapM (fun i => Transform.parse_record (Lines.read L i)) range ;;
                    b <- _transform_batch_lists items (Transform.inputs self)
                                                (Transform.seq_len self) ;;
                    Ok (Transform.Assembled b))).
  { unfold Transform.__getitem__. fold L. rewrite slice_start_in_range by assumption.
    cbn [bind]. now rewrite mapM_map. }
  assert (Hvalid : forall i, In i range -> 0 <= Lines.length L /\ i < Lines.length L).
  { intros i Hi. apply normalized_range_valid in Hi; lia. }
  rewrite Hslice. split.
  - intros seqs Hseqs.
    assert (Hm : mapM (fun i => Transform.parse_record (Lines.read L i)) range = Ok seqs /\
                 Forall (Forall (fun x => forallb in_int64 x = true)) seqs).
    { clear Hslice. induction Hseqs as [|i s r ss His _ IH].
      - split; [reflexivity|constructor].
      - destruct (Hvalid i (or_introl eq_refl)) as [H0 Hi].
        apply (transform_getitem_int_ok self i s H0 Hi) in His.
        destruct His as [Hp Hin]. fold L in Hp.
        destruct IH as [IH1 IH2]; [intros j Hj; apply Hvalid; now right|].
        split; [|now constructor].
        cbn [mapM]. rewrite Hp, IH1. reflexivity. }
    destruct Hm as [-> Hin]. cbn [bind].
    now rewrite transform_batch_lists_ok.
  - intros i e Hi He.
    destruct (Hvalid i Hi) as [H0 Hlt].
    rewrite (transform_getitem_int self i H0 Hlt) in He. fold L in He.
    destruct (Transform.parse_record (Lines.read L i)) as [items|e0] eqn:Hp.
    + cbn [bind] in He.
      destruct (mapM torch_tensor items) as [ts|e1] eqn:Ht; [discriminate|].
      apply tensors_raise in Ht. destruct Ht as (_ & x & z & Hx & Hz & Hbig).
      destruct (mapM (fun i => Transform.parse_record (Lines.read L i)) range)
        as [seqs|e2] eqn:Hm; [|cbn [bind]; eauto].
      cbn [bind]. apply mapM_ok_iff in Hm.
      destruct (Forall2_In_l _ _ _ _ Hm Hi) as (rec & Hrec & Hprec).
      assert (rec = items) by congruence. subst rec.
      apply In_nth_error in Hx. destruct Hx as [f Hf].
      assert (Hflen : (f < List.length items)%nat) by (apply nth_error_Some; congruence).
      assert (Hlen : Forall (fun r => (f < List.length r)%nat) seqs).
      { apply Forall_forall. intros r Hr.
        destruct (Forall2_In_r _ _ _ _ Hm Hr) as (j & _ & Hj).
        rewrite (parse_record_length _ _ _ Hj), <- (parse_record_length _ _ _ Hp).
        exact Hflen. }
      assert (Hbad : forallb in_int64 x = false).
      { destruct (forallb in_int64 x) eqn:Hall; [|reflexivity].
        rewrite forallb_forall in Hall. specialize (Hall z Hz). congruence. }
      destruct (transform_batch_lists_raise seqs (Transform.inputs self)
                  (Transform.seq_len self) items f x Hlen Hrec Hf Hbad) as [e' He'].
      exists e'. now rewrite He'.
    + destruct (mapM_In_raise (fun i => Transform.parse_record (Lines.read L i))
                  range i e0 Hi Hp) as [e' He'].
      exists e'. now rewrite He'.
Qed.

Lemma parse_slice_assembles_witness :
  Transform.__getitem__ sample_transform (Lines.Slice (Some 0) (Some 2))
  = Ok (Transform.Assembled (_transform_batch [[[1; 2]]; [[4; 5; 6]]] ["q"%string] 200)).
Proof.
  destruct (parse_slice_assembles sample_transform (Some 0) (Some 2)) as [H _];
    [simpl; lia|simpl; lia|].
  apply H. repeat constructor.
Defined.

(** *** The field index of a batch *)

Lemma dict_get_set (d : list (string * Z)) (k k' : string) (v : Z) :
  Batch.dict_get (Batch.dict_set d k v) k' =
  if String.eqb k k' then Some v else Batch.dict_get d k'.
Proof.
  induction d as [|[k0 v0] d IH]; simpl.
  - reflexivity.
  - destruct (String.eqb_spec k0 k) as [->|Hne]; simpl.
    + destruct (String.eqb_spec k k'); reflexivity.
    + destruct (String.eqb_spec k0 k') as [->|Hne'].
      * destruct (String.eqb_spec k k'); [congruence|reflexivity].
      * exact IH.
Qed.

Lemma enumerate_dict_absent (fields : list string) (i : Z) (d : list (string * Z))
    (f : string) :
  ~ In f fields ->
  Batch.dict_get (Batch.enumerate_dict fields i d) f = Batch.dict_get d f.
Proof.
  revert i d. induction fields as [|g fields IH]; intros i d Hnot; simpl; [reflexivity|].
  rewrite IH by (intros H; apply Hnot; now right).
  rewrite dict_get_set. destruct (String.eqb_spec g f) as [->|]; [|reflexivity].
  exfalso. apply Hnot. now left.
Qed.

Lemma enumerate_dict_last (l1 l2 : list string) (f : string) (i : Z)
    (d : list (string * Z)) :
  ~ In f l2 ->
  Batch.dict_get (Batch.enumerate_dict (l1 ++ f :: l2) i d) f
  = Some (i + Z.of_nat (List.length l1)).
Proof.
  revert i d. induction l1 as [|g l1 IH]; intros i d Hnot; simpl.
  - rewrite enumerate_dict_absent by assumption.
    rewrite dict_get_set, String.eqb_refl. f_equal. lia.
  - rewrite IH by assumption. f_equal. lia.
Qed.

(** X7.  The field index built by [Batch.__init__] maps a field name to the
    position of its last occurrence in [fields] (its only one when the names
    are distinct), and has no entry for a name that is not in [fields]. *)
Theorem stoi_lookup (data : list (list (list Z))) (fields : list string) (seq_len : Z)
    (f : string) :
  (forall l1 l2, fields = l1 ++ f :: l2 -> ~ In f l2 ->
     Batch.dict_get (Batch.stoi (Batch.__init__ data fields seq_len)) f
     = Some (Z.of_nat (List.length l1))) /\
  (~ In f fields ->
   Batch.dict_get (Batch.stoi (Batch.__init__ data fields seq_len)) f = None).
Proof.
  unfold Batch.__init__. cbn [Batch.stoi]. split.
  - intros l1 l2 -> Hnot. now rewrite enumerate_dict_last.
  - intros Hnot. now rewrite enumerate_dict_absent.
Qed.

Lemma stoi_lookup_witness :
  Batch.dict_get (Batch.stoi (Batch.__init__ [] ["q"; "s"; "q"]%string 2)) "q"%string
  = Some 2.
Proof.
  destruct (stoi_lookup [] ["q"; "s"; "q"]%string 2 "q"%string) as [H _].
  apply (H ["q"; "s"]%string []); [reflexivity|intros []].
Defined.

(** X8.  Error and edge behaviour of [Batch.get]: without any array it raises
    [IndexError]; with no field requested it returns the empty list; with
    [seq_len = 0] and a field requested it raises [ZeroDivisionError]; for a
    field name that is not in the index it raises [KeyError] when there is at
    least one window, and returns an empty list of windows for that field when
    there is none. *)
Theorem batch_get_errors (b : Batch.t) (f : string) (fields : list string) :
  (Batch.data b = [] -> Batch.get b fields = Raise IndexError) /\
  (Batch.data b <> [] -> Batch.get b [] = Ok []) /\
  (Batch.data b <> [] -> Batch.seq_len b = 0 ->
   Batch.get b (f :: fields) = Raise ZeroDivisionError) /\
  (forall d0 rest,
     Batch.data b = d0 :: rest -> Batch.seq_len b <> 0 ->
     Batch.dict_get (Batch.stoi b) f = None ->
     Batch.get b [f] =
     if 0 <? size1 d0 / Batch.seq_len b then Raise KeyError else Ok [[]]).
Proof.
  unfold Batch.get. repeat split.
  - now intros ->.
  - destruct (Batch.data b); [congruence|reflexivity].
  - intros Hd Hsl. destruct (Batch.data b); [congruence|].
    simpl. unfold Batch.windows. now rewrite Hsl.
  - intros d0 rest -> Hsl Hf. simpl. unfold Batch.windows.
    destruct (Z.eqb_spec (Batch.seq_len b) 0); [contradiction|]. rewrite Hf.
    destruct (Z.ltb_spec 0 (size1 d0 / Batch.seq_len b)) as [Hpos|Hnone].
    + rewrite zrange_cons by lia. reflexivity.
    + rewrite zrange_empty by lia. reflexivity.
Qed.

Lemma batch_get_errors_witness :
  Batch.get (_transform_batch [[[1; 2; 3]]] ["q"%string] 2) ["x"%string] = Raise KeyError /\
  Batch.get (_transform_batch [[[1; 2; 3]]] ["q"%string] 5) ["x"%string] = Ok [[]].
Proof.
  split.
  - destruct (batch_get_errors (_transform_batch [[[1; 2; 3]]] ["q"%string] 2)
                "x"%string []) as (_ & _ & _ & H).
    apply (H [[1; 2; 3]] [] eq_refl); [discriminate|reflexivity].
  - destruct (batch_get_errors (_transform_batch [[[1; 2; 3]]] ["q"%string] 5)
                "x"%string []) as (_ & _ & _ & H).
    apply (H [[1; 2; 3]] [] eq_refl); [discriminate|reflexivity].
Defined.

(** *** Windows partition the columns *)

Lemma chunks_prefix {X : Type} (l : list X) (b : Z) (m : nat) :
  0 < b ->
  List.concat (map (fun i => py_slice l (i * b) ((i + 1) * b)) (zrange 0 (Z.of_nat m)))
  = py_slice l 0 (Z.of_nat m * b).
Proof.
  intros Hb. induction m as [|m IH].
  - simpl. symmetry. apply length_zero_iff_nil, Nat2Z.inj.
    rewrite py_slice_length by lia. lia.
  - rewrite Nat2Z.inj_succ, <- Z.add_1_r, zrange_snoc by lia.
    rewrite map_app, concat_app, IH. simpl. rewrite app_nil_r.
    apply py_slice_app; nia.
Qed.

Lemma col_slice_row (M : list (list Z)) (lo hi : Z) (r : nat) :
  nth r (col_slice M lo hi) [] = py_slice (nth r M []) lo hi.
Proof.
  unfold col_slice.
  destruct (Nat.lt_ge_cases r (List.length M)) as [Hlt|Hge].
  - rewrite (nth_indep _ [] (py_slice [] lo hi)) by now rewrite length_map.
    exact (map_nth (fun row => py_slice row lo hi) M [] r).
  - rewrite !nth_overflow by (try rewrite length_map; assumption).
    unfold py_slice. now rewrite skipn_nil, firstn_nil.
Qed.

(** X9.  The windows of a field are consecutive and do not overlap: row by
    row, putting the windows that [get] returns for a field side by side gives
    back the first floor(L/seq_len)*seq_len columns of the field's array (as
    many of them as the array has), in order. *)
Theorem windows_partition (b : Batch.t) (L : Z) (f : string) (j : Z)
    (M : list (list Z)) (ws : list (list (list Z))) (r : nat) :
  0 < Batch.seq_len b -> 0 <= L ->
  Batch.dict_get (Batch.stoi b) f = Some j ->
  list_getitem (Batch.data b) j = Ok M ->
  Batch.windows b L f = Ok ws ->
  List.concat (map (fun w => nth r w []) ws)
  = py_slice (nth r M []) 0 (L / Batch.seq_len b * Batch.seq_len b).
Proof.
  intros Hsl HL Hj HM Hws.
  rewrite (windows_ok b L f j M) in Hws by (lia || assumption).
  injection Hws as <-.
  assert (Hm : 0 <= L / Batch.seq_len b) by (apply Z.div_pos; lia).
  rewrite map_map. unfold window.
  rewrite (map_ext _ (fun k => py_slice (nth r M []) (k * Batch.seq_len b)
                                        ((k + 1) * Batch.seq_len b)))
    by (intros k; apply col_slice_row).
  rewrite <- (Z2Nat.id (L / Batch.seq_len b)) by assumption.
  now apply chunks_prefix.
Qed.

Lemma windows_partition_witness :
  exists ws,
    Batch.windows (_transform_batch [[[1; 2; 3; 4; 5]]] ["q"%string] 2) 5 "q"%string = Ok ws /\
    List.concat (map (fun w => nth 0 w []) ws) = [1; 2; 3; 4].
Proof.
  eexists. split; [reflexivity|].
  etransitivity;
    [apply (windows_partition (_transform_batch [[[1; 2; 3; 4; 5]]] ["q"%string] 2) 5
              "q"%string 0 [[1; 2; 3; 4; 5]] _ 0%nat);
     solve [reflexivity | simpl; lia]|].
  reflexivity.
Defined.


(* ===================================================================== *)
(** ** Further properties of the iterator                                 *)
(* ===================================================================== *)

Section IteratorExtras.
Context {A : Type}.

(** X10.  Construction fails with [AssertionError] exactly when some label
    source reports a length other than the iterator's length; the check comes
    first, so it wins over the failure of [len(self)] (a zero batch size). *)
Theorem init_length_mismatch (data : Source A) (label : list (Source A))
    (prefetch : bool) (length : option Z) (batch_size : option Z)
    (transform : option (pyval A -> result (pyval A)))
    (shuffle full_shuffle : bool) (rnd_index rnd_full : list Z -> list Z) :
  Iterator.__init__ data label prefetch length batch_size transform shuffle full_shuffle
                    rnd_index rnd_full = Raise AssertionError <->
  exists lab, In lab label /\
              src_len lab <> match length with Some n => n | None => src_len data end.
Proof.
  unfold Iterator.__init__.
  set (len := match length with Some n => n | None => src_len data end).
  destruct (forallb (fun lab => len =? src_len lab) label) eqn:Hall; cbn [negb].
  - split.
    + unfold Iterator.__len__. cbn [Iterator.batch_size Iterator.length].
      destruct batch_size as [bs|]; cbn [bind].
      * unfold ceil_div. destruct (bs =? 0); cbn [bind]; [discriminate|].
        destruct (_ <? 0); cbn [bind]; discriminate.
      * destruct (len <? 0); cbn [bind]; discriminate.
    + intros (lab & Hin & Hne). rewrite forallb_forall in Hall.
      specialize (Hall lab Hin). lia.
  - split; [|reflexivity]. intros _.
    assert (Hex : existsb (fun lab => negb (len =? src_len lab)) label = true).
    { clear -Hall. induction label as [|lab l IH]; simpl in *; [discriminate|].
      destruct (len =? src_len lab); simpl in *; auto. }
    apply existsb_exists in Hex. destruct Hex as (lab & Hin & Hne).
    exists lab. split; [assumption|].
    destruct (Z.eqb_spec len (src_len lab)); [discriminate|congruence].
Qed.

(** X11.  A constructed iterator hands out at most [len(self)] values in any
    run, and exactly [len(self)] in a run that reaches [StopIteration], with
    or without the worker and whatever the ordering; [len(self)] is the
    element count without a batch size and the least [n] with
    [n * batch_size >= length] for a positive batch size.  With a batch size
    the length and the batch size are taken below 2^53 in magnitude, where
    the ceiling of the float quotient that [__len__] computes is exact. *)
Theorem run_length (data : Source A) (label : list (Source A)) (prefetch : bool)
    (length : option Z) (batch_size : option Z)
    (transform : option (pyval A -> result (pyval A)))
    (shuffle full_shuffle : bool) (rnd_index rnd_full : list Z -> list Z)
    (it : Iterator.t A) :
  (forall l, Permutation l (rnd_index l)) ->
  Iterator.__init__ data label prefetch length batch_size transform shuffle full_shuffle
                    rnd_index rnd_full = Ok it ->
  match batch_size with
  | None => True
  | Some bs => float_exact (Iterator.length it) bs
  end ->
  exists n,
    Iterator.__len__ it = Ok n /\ 0 <= n /\
    match batch_size with
    | None => n = Iterator.length it
    | Some bs => 0 < bs -> (n - 1) * bs < Iterator.length it <= n * bs
    end /\
    forall sched,
      let evs := fst (Iterator.run sched it) in
      Z.of_nat (List.length (Iterator.delivered evs)) <= n /\
      (In Iterator.StopIteration evs -> Z.of_nat (List.length (Iterator.delivered evs)) = n).
Proof.
  intros Hperm Hinit _.
  destruct (init_ok _ _ _ _ _ _ _ _ _ _ _ Hperm Hinit)
    as (Hit & Hwf & _ & _ & _ & Hbs & _).
  exists (Iterator.bound it). split; [exact Hwf|].
  split; [unfold Iterator.bound; lia|]. split.
  - destruct batch_size as [bs|].
    + intros Hpos. unfold Iterator.well_formed, Iterator.__len__ in Hwf. rewrite Hbs in Hwf.
      destruct (ceil_div (Iterator.length it) bs) as [n|] eqn:Hc; [|discriminate].
      cbn [bind] in Hwf. destruct (n <? 0); [discriminate|]. injection Hwf as <-.
      destruct (ceil_div_bounds _ _ _ Hpos Hc). lia.
    + symmetry. now apply len_without_batch_size.
  - intros sched. destruct (Iterator.run sched it) as [evs s'] eqn:Hrun. cbn [fst].
    destruct (run_safe it sched evs s' Hit Hwf Hrun) as (_ & Hle & Hstop). auto.
Qed.

(** *** The queue bound and the position *)

Lemma emit_queue (self : Iterator.t A) (r : result (pyval A)) (next : Iterator.pc) :
  Iterator.pos (Iterator.emit self r next) = Iterator.pos self /\
  ((List.length (Iterator.queue self) <= Iterator.maxsize)%nat ->
   (List.length (Iterator.queue (Iterator.emit self r next)) <= Iterator.maxsize)%nat) /\
  ((Iterator.maxsize <= List.length (Iterator.queue self))%nat ->
   Iterator.queue (Iterator.emit self r next) = Iterator.queue self).
Proof.
  unfold Iterator.emit.
  destruct (Nat.ltb_spec (List.length (Iterator.queue self)) Iterator.maxsize) as [Hlt|Hge].
  - destruct r; cbn [Iterator.set_thread Iterator.set_queue Iterator.queue Iterator.pos];
      rewrite ?length_app; simpl; repeat split; intros; lia.
  - repeat split; auto.
Qed.

Lemma worker_step_queue (self : Iterator.t A) :
  Iterator.pos (Iterator.worker_step self) = Iterator.pos self /\
  ((List.length (Iterator.queue self) <= Iterator.maxsize)%nat ->
   (List.length (Iterator.queue (Iterator.worker_step self)) <= Iterator.maxsize)%nat) /\
  ((Iterator.maxsize <= List.length (Iterator.queue self))%nat ->
   Iterator.queue (Iterator.worker_step self) = Iterator.queue self).
Proof.
  unfold Iterator.worker_step.
  destruct (Iterator.thread self) as [[|i| |i|]|]; try (repeat split; auto; fail).
  - destruct (Iterator.batch_size self); repeat split; auto.
  - destruct (i <? Iterator.length self); [apply emit_queue|repeat split; auto].
  - destruct (Iterator.__len__ self); repeat split; auto.
  - destruct (Iterator.__len__ self) as [n|]; [|repeat split; auto].
    destruct (i <? n); [apply emit_queue|repeat split; auto].
Qed.

Lemma produce_sync_cases (self : Iterator.t A) :
  Iterator.produce_sync self = Iterator.Blocked \/
  (exists e, Iterator.produce_sync self = Iterator.Raised e) \/
  Iterator.produce_sync self = Iterator.Returned self \/
  (exists item,
     (List.length (Iterator.queue self) < Iterator.maxsize)%nat /\
     Iterator.produce_sync self
     = Iterator.Returned (Iterator.set_queue self (Iterator.queue self ++ [Ok item]))).
Proof.
  assert (Hput : forall item,
             Iterator.put_sync self item = Iterator.Blocked \/
             ((List.length (Iterator.queue self) < Iterator.maxsize)%nat /\
              Iterator.put_sync self item
              = Iterator.Returned (Iterator.set_queue self (Iterator.queue self ++ [Ok item])))).
  { intros item. unfold Iterator.put_sync.
    destruct (Nat.ltb_spec (List.length (Iterator.queue self)) Iterator.maxsize); auto. }
  assert (Hb : Iterator.produce_batched_sync self = Iterator.Blocked \/
               (exists e, Iterator.produce_batched_sync self = Iterator.Raised e) \/
               Iterator.produce_batched_sync self = Iterator.Returned self \/
               (exists item,
                  (List.length (Iterator.queue self) < Iterator.maxsize)%nat /\
                  Iterator.produce_batched_sync self
                  = Iterator.Returned
                      (Iterator.set_queue self (Iterator.queue self ++ [Ok item])))).
  { unfold Iterator.produce_batched_sync.
    destruct (Iterator.__len__ self) as [n|e]; [|eauto].
    destruct (Iterator.pos self <? n); [|auto].
    destruct (Iterator.batched_body self (Iterator.pos self)) as [item|e]; [|eauto].
    destruct (Hput item) as [H|H]; [auto|]. right. right. right. eauto. }
  unfold Iterator.produce_sync.
  destruct (Iterator.batch_size self); [exact Hb|].
  destruct (Iterator.pos self <? Iterator.length self); [|exact Hb].
  destruct (Iterator.nobatch_body self (Iterator.pos self)) as [item|e]; [|eauto].
  destruct (Hput item) as [H|H]; [auto|]. right. right. right. eauto.
Qed.

(** One call of [__next__]: the position moves by one exactly when a value
    is returned, and the queue stays within its bound. *)
Lemma next_queue_pos (self : Iterator.t A) :
  Iterator.pos (snd (Iterator.__next__ self)) =
    match fst (Iterator.__next__ self) with
    | Iterator.Item _ => Iterator.pos self + 1
    | _ => Iterator.pos self
    end /\
  ((List.length (Iterator.queue self) <= Iterator.maxsize)%nat ->
   (List.length (Iterator.queue (snd (Iterator.__next__ self))) <= Iterator.maxsize)%nat).
Proof.
  unfold Iterator.__next__.
  set (self1 := match Iterator.thread self with
                | Some _ => self
                | None => if Iterator.prefetch self
                          then Iterator.set_thread self (Some Iterator.Start) else self
                end).
  assert (H1 : Iterator.pos self1 = Iterator.pos self /\
               Iterator.queue self1 = Iterator.queue self).
  { subst self1. destruct (Iterator.thread self); [auto|].
    destruct (Iterator.prefetch self); auto. }
  destruct H1 as [Hp Hq]. rewrite <- Hp, <- Hq. clearbody self1. clear Hp Hq self.
  destruct (Z.of_nat (List.length (Iterator.index self1)) <=? Iterator.pos self1);
    [cbn [fst snd]; auto|].
  assert (Hget : forall s : Iterator.t A,
             Iterator.pos s = Iterator.pos self1 ->
             ((List.length (Iterator.queue self1) <= Iterator.maxsize)%nat ->
              (List.length (Iterator.queue s) <= S Iterator.maxsize)%nat /\
              (Iterator.prefetch s = true ->
               (List.length (Iterator.queue s) <= Iterator.maxsize)%nat) /\
              (List.length (Iterator.queue s) = S Iterator.maxsize -> False)) ->
             let r := match Iterator.queue s with
                      | [] => (if Iterator.prefetch s then Iterator.Waiting
                               else Iterator.Hang, s)
                      | Ok item :: q =>
                          (Iterator.Item item,
                           Iterator.set_pos (Iterator.set_queue s q) (Iterator.pos s + 1))
                      | Raise e :: q => (Iterator.Exc e, Iterator.set_queue s q)
                      end in
             Iterator.pos (snd r) =
               match fst r with
               | Iterator.Item _ => Iterator.pos self1 + 1
               | _ => Iterator.pos self1
               end /\
             ((List.length (Iterator.queue self1) <= Iterator.maxsize)%nat ->
              (List.length (Iterator.queue (snd r)) <= Iterator.maxsize)%nat)).
  { intros s Hs Hb. cbv zeta.
    destruct (Iterator.queue s) as [|[item|e] q] eqn:Hqs.
    - destruct (Iterator.prefetch s); cbn [fst snd]; rewrite Hqs; simpl; split; auto; lia.
    - cbn [fst snd Iterator.set_pos Iterator.set_queue Iterator.pos Iterator.queue].
      split; [lia|]. intros Hle. destruct (Hb Hle) as (H1 & _ & _). simpl in H1. lia.
    - cbn [fst snd Iterator.set_pos Iterator.set_queue Iterator.pos Iterator.queue].
      split; [assumption|]. intros Hle. destruct (Hb Hle) as (H1 & _ & _). simpl in H1. lia. }
  destruct (Iterator.prefetch self1) eqn:Hpf.
  - apply Hget; [reflexivity|]. intros Hle. repeat split; auto; lia.
  - destruct (produce_sync_cases self1) as [H|[(e & H)|[H|(item & Hroom & H)]]]; rewrite H.
    + cbn [fst snd]. auto.
    + cbn [fst snd]. auto.
    + apply Hget; [reflexivity|]. intros Hle. repeat split; auto; lia.
    + apply Hget; [reflexivity|]. intros Hle.
      cbn [Iterator.set_queue Iterator.queue Iterator.prefetch].
      rewrite length_app. simpl. repeat split; lia.
Qed.

(** X12.  Backpressure and position: in any run from any state whose queue
    is within its bound, the queue never holds more than 8 entries; a worker
    step on a full queue leaves the queue as it is; and the position at the
    end is the position at the start plus the number of values handed out, so
    that it never decreases. *)
Theorem queue_bound_and_position (self : Iterator.t A) (sched : list Iterator.action) :
  (List.length (Iterator.queue self) <= Iterator.maxsize)%nat ->
  (List.length (Iterator.queue (snd (Iterator.run sched self))) <= 8)%nat /\
  Iterator.pos (snd (Iterator.run sched self))
  = Iterator.pos self
    + Z.of_nat (List.length (Iterator.delivered (fst (Iterator.run sched self)))) /\
  (List.length (Iterator.queue self) = 8%nat ->
   Iterator.queue (Iterator.worker_step self) = Iterator.queue self).
Proof.
  intros Hq. split; [|split].
  - revert self Hq. induction sched as [|a sched IH]; intros self Hq; [exact Hq|].
    destruct a; cbn [Iterator.run].
    + apply IH. now apply worker_step_queue.
    + destruct (next_queue_pos self) as [_ Hn]. specialize (Hn Hq).
      destruct (Iterator.__next__ self) as [ev s1]. cbn [snd] in Hn.
      specialize (IH s1 Hn). destruct (Iterator.run sched s1) as [evs s2].
      now destruct ev.
  - clear Hq. revert self. induction sched as [|a sched IH]; intros self.
    + simpl. lia.
    + destruct a; cbn [Iterator.run].
      * rewrite IH. destruct (worker_step_queue self) as [-> _]. reflexivity.
      * destruct (next_queue_pos self) as [Hp _].
        destruct (Iterator.__next__ self) as [ev s1]. cbn [fst snd] in Hp.
        specialize (IH s1). destruct (Iterator.run sched s1) as [evs s2].
        cbn [fst snd] in IH.
        destruct ev; cbn [fst snd Iterator.delivered List.length]; lia.
  - intros H8. apply worker_step_queue. unfold Iterator.maxsize. lia.
Qed.

End IteratorExtras.

Lemma init_length_mismatch_witness :
  Iterator.__init__ (list_source [1; 2; 3]) [list_source [1; 2]] false None (Some 0) None
                    false false (fun l => l) (fun l => l) = Raise AssertionError.
Proof.
  apply (init_length_mismatch (list_source [1; 2; 3]) [list_source [1; 2]] false None
           (Some 0) None false false (fun l => l) (fun l => l)).
  exists (list_source [1; 2]). split; [now left|discriminate].
Defined.

Lemma run_length_witness :
  exists it n,
    Iterator.__init__ (list_source [10; 11; 12; 13; 14]) [] false None (Some 2) None
                      true false (@rev Z) (@rev Z) = Ok it /\
    Iterator.__len__ it = Ok n /\ (n - 1) * 2 < 5 <= n * 2.
Proof.
  eexists.
  match goal with
  | |- exists n, _ = Ok ?it /\ _ =>
      destruct (run_length (list_source [10; 11; 12; 13; 14]) [] false None (Some 2) None
                  true false (@rev Z) (@rev Z) it (@Permutation_rev Z) eq_refl)
        as (n & Hlen & _ & Hb & _); [split; reflexivity|]
  end.
  exists n. split; [reflexivity|]. split; [exact Hlen|]. apply Hb. lia.
Defined.

Lemma queue_bound_and_position_witness :
  exists it,
    Iterator.__init__ (list_source [10; 11; 12; 13; 14]) [] true None None None
                      false false (fun l => l) (fun l => l) = Ok it /\
    (List.length (Iterator.queue
       (snd (Iterator.run [Iterator.Next; Iterator.Work; Iterator.Work; Iterator.Next] it)))
     <= 8)%nat /\
    Iterator.pos (snd (Iterator.run [Iterator.Next; Iterator.Work; Iterator.Work;
                                     Iterator.Next] it)) = 1.
Proof.
  eexists. split; [reflexivity|].
  match goal with
  | |- context [Iterator.run ?s ?it] =>
      destruct (queue_bound_and_position it s) as (H1 & H2 & _); [simpl; lia|]
  end.
  split; [exact H1|]. rewrite H2. reflexivity.
Defined.



(** *** Contiguous batches, resumption, blocking *)

Section IteratorOrder.
Context {A : Type}.

Lemma list_getitem_nth (l : list Z) (n : Z) :
  0 <= n < Z.of_nat (List.length l) -> list_getitem l n = Ok (nth (Z.to_nat n) l 0).
Proof.
  intros Hn. unfold list_getitem.
  destruct (Z.ltb_spec n 0); [lia|].
  destruct (Z.leb_spec 0 n); [|lia].
  destruct (Z.ltb_spec n (Z.of_nat (List.length l))); [|lia]. simpl.
  rewrite (nth_error_nth' l 0) by lia. reflexivity.
Qed.

Lemma map_nth_zrange (l : list Z) :
  map (fun n => nth (Z.to_nat n) l 0) (zrange 0 (Z.of_nat (List.length l))) = l.
Proof.
  unfold zrange. rewrite Z.sub_0_r, Nat2Z.id, map_map.
  rewrite (map_ext _ (fun k => nth k l 0)) by (intros k; simpl; now rewrite Nat2Z.id).
  induction l as [|x l IH]; [reflexivity|].
  simpl. f_equal. rewrite <- seq_shift, map_map. exact IH.
Qed.

Lemma init_index (data : Source A) (label : list (Source A)) (prefetch : bool)
    (length : option Z) (batch_size : option Z)
    (transform : option (pyval A -> result (pyval A)))
    (shuffle full_shuffle : bool) (rnd_index rnd_full : list Z -> list Z)
    (it : Iterator.t A) :
  Iterator.__init__ data label prefetch length batch_size transform shuffle full_shuffle
                    rnd_index rnd_full = Ok it ->
  exists n, Iterator.__len__ it = Ok n /\
            Iterator.index it = if shuffle then rnd_index (zrange 0 n) else zrange 0 n.
Proof.
  unfold Iterator.__init__.
  set (len := match length with Some n => n | None => src_len data end).
  destruct (negb _); [discriminate|].
  destruct (Iterator.__len__
              (Iterator.mk data label prefetch batch_size [] len transform [] None None 0))
    as [n|] eqn:Hn; [|discriminate].
  cbn [bind]. intros H. injection H as <-. exists n. split; [exact Hn|reflexivity].
Qed.

(** X13.  With a batch size and without full shuffle, a run that reaches
    [StopIteration] delivers, for the entries [k] of the ordering index in
    turn, the contiguous range [k*batch_size .. (k+1)*batch_size) as the
    sources return it: in source order without shuffle, and in the order of
    the drawn permutation of batch numbers with shuffle, each batch once. *)
Theorem contiguous_delivery (data : Source A) (label : list (Source A))
    (prefetch : bool) (length : option Z) (bs : Z)
    (transform : option (pyval A -> result (pyval A)))
    (shuffle : bool) (rnd_index rnd_full : list Z -> list Z) (it : Iterator.t A)
    (slice : Z -> pyval A) (labs : Z -> list (pyval A)) :
  (forall l, Permutation l (rnd_index l)) ->
  Iterator.__init__ data label prefetch length (Some bs) transform shuffle false
                    rnd_index rnd_full = Ok it ->
  (forall k, 0 <= k < Iterator.bound it ->
     Iterator.fetch_range data (k * bs) ((k + 1) * bs) = Ok (slice k) /\
     mapM (fun lab => Iterator.fetch_range lab (k * bs) ((k + 1) * bs)) label
     = Ok (labs k)) ->
  forall sched,
    In Iterator.StopIteration (fst (Iterator.run sched it)) ->
    let item := fun k => Iterator.compose (slice k) (labs k) in
    let delivered := Iterator.delivered (fst (Iterator.run sched it)) in
    delivered = map item (Iterator.index it) /\
    Permutation delivered (map item (zrange 0 (Iterator.bound it))) /\
    (shuffle = false -> delivered = map item (zrange 0 (Iterator.bound it))).
Proof.
  intros Hperm Hinit Hfetch sched Hstop item delivered.
  destruct (init_ok _ _ _ _ _ _ _ _ _ _ _ Hperm Hinit)
    as (Hit & Hwf & Hd & Hl & _ & Hb & _ & _ & Hfi & _).
  set (N := Iterator.bound it) in *.
  assert (Hindex : Iterator.index it
                   = if shuffle then rnd_index (zrange 0 N) else zrange 0 N).
  { destruct (init_index _ _ _ _ _ _ _ _ _ _ _ Hinit) as (n & Hlen & Hidx).
    unfold Iterator.well_formed in Hwf. fold N in Hwf. rewrite Hwf in Hlen.
    now injection Hlen as <-. }
  assert (Hpermidx : Permutation (zrange 0 N) (Iterator.index it)).
  { rewrite Hindex. destruct shuffle; [apply Hperm|apply Permutation_refl]. }
  assert (Hbody : forall n, 0 <= n < N ->
             Iterator.primary_body it n
             = Ok (item (nth (Z.to_nat n) (Iterator.index it) 0))).
  { intros n Hn. unfold Iterator.primary_body, Iterator.batched_body.
    rewrite Hb, Hfi. unfold Iterator.contiguous_body.
    rewrite list_getitem_nth by (fold (Iterator.bound it); exact Hn).
    cbn [bind]. rewrite Hb, Hd, Hl. cbn [Iterator.mul_bs bind].
    set (k := nth (Z.to_nat n) (Iterator.index it) 0).
    assert (Hk : 0 <= k < N).
    { apply zrange_In. eapply Permutation_in; [apply Permutation_sym, Hpermidx|].
      apply nth_In. unfold N, Iterator.bound in Hn. lia. }
    destruct (Hfetch k Hk) as [-> ->]. reflexivity. }
  destruct (Iterator.run sched it) as [evs s'] eqn:Hrun. cbn [fst] in *.
  destruct (run_safe it sched evs s' Hit Hwf Hrun) as (Hvs & _ & Hn).
  rewrite (Hn Hstop) in Hvs. fold N in Hvs.
  pose proof (produced_map it _ N _ Hbody Hvs) as Hdel.
  assert (Hmap : delivered = map item (Iterator.index it)).
  { subst delivered. rewrite Hdel.
    rewrite <- (map_map (fun n => nth (Z.to_nat n) (Iterator.index it) 0) item).
    unfold N, Iterator.bound. now rewrite map_nth_zrange. }
  split; [exact Hmap|]. split.
  - rewrite Hmap. apply Permutation_map, Permutation_sym, Hpermidx.
  - intros ->. now rewrite Hmap, Hindex.
Qed.

Lemma produced_map_from (it : Iterator.t A) (g : Z -> pyval A) (p q : Z)
    (vs : list (pyval A)) :
  (forall j, p <= j < q -> Iterator.primary_body it j = Ok (g j)) ->
  Iterator.produced it p q vs -> vs = map g (zrange p q).
Proof.
  intros Hg Hvs. unfold Iterator.produced in Hvs.
  assert (Hin : forall j, In j (zrange p q) -> p <= j < q) by (intros j; apply zrange_In).
  induction Hvs as [|j v l vs Hv _ IH]; [reflexivity|]. simpl. f_equal.
  - rewrite Hg in Hv by (apply Hin; now left). now injection Hv.
  - apply IH. intros k Hk. apply Hin. now right.
Qed.

(** A run from position [p] on: where it stands, what it can still hand
    out. *)
Lemma run_safe_from (it : Iterator.t A) (p : Z) (sched : list Iterator.action)
    (evs : list (Iterator.event A)) (s' : Iterator.t A) :
  Iterator.well_formed it ->
  Iterator.run sched (Iterator.with_state it [] None p) = (evs, s') ->
  let n := Z.of_nat (List.length (Iterator.delivered evs)) in
  Iterator.produced it p (p + n) (Iterator.delivered evs) /\
  (p <= Iterator.bound it ->
   p + n <= Iterator.bound it /\
   (In Iterator.StopIteration evs -> p + n = Iterator.bound it)).
Proof.
  intros Hwf Hrun.
  destruct (Iterator.prefetch it) eqn:Hpf.
  - exact (run_prefetch_safe it sched Hpf Hwf [] None p evs s' eq_refl Hrun).
  - exact (run_sync_safe it sched Hpf Hwf p evs s' Hrun).
Qed.

(** The lockstep schedule from position [p] on delivers every remaining item
    and then [StopIteration]. *)
Lemma run_lockstep_from (cfg : Iterator.t A) (item : Z -> pyval A) (p : Z) :
  Iterator.well_formed cfg ->
  0 <= p <= Iterator.bound cfg ->
  (forall j, p <= j < Iterator.bound cfg -> Iterator.primary_body cfg j = Ok (item j)) ->
  let evs := fst (Iterator.run (Iterator.lockstep (Iterator.prefetch cfg)
                                  (Iterator.batch_size cfg)
                                  (Z.to_nat (Iterator.bound cfg - p)))
                               (Iterator.with_state cfg [] None p)) in
  Iterator.delivered evs = map item (zrange p (Iterator.bound cfg)) /\
  In Iterator.StopIteration evs.
Proof.
  intros Hwf Hp Hitems. unfold Iterator.lockstep.
  set (n := Z.to_nat (Iterator.bound cfg - p)).
  assert (Hn : Iterator.bound cfg = p + Z.of_nat n) by (unfold n; lia).
  assert (Hdone : forall (pre : list (Iterator.event A)),
             Iterator.delivered pre = [] ->
             let evs := pre ++ map (fun j => Iterator.Item (item j))
                                   (zrange p (Iterator.bound cfg))
                            ++ [Iterator.StopIteration] in
             Iterator.delivered evs = map item (zrange p (Iterator.bound cfg)) /\
             In Iterator.StopIteration evs).
  { intros pre Hpre evs. subst evs. split.
    - rewrite <- (map_map item (@Iterator.Item A)).
      induction pre as [|[v|e| | |] pre IH]; simpl in *; try discriminate; auto.
      rewrite delivered_items. simpl. apply app_nil_r.
    - apply in_or_app. right. apply in_or_app. right. now left. }
  destruct (Iterator.prefetch cfg) eqn:Hpf.
  - assert (Hnext : exists e,
               Iterator.__next__ (Iterator.with_state cfg [] None p)
               = (e, Iterator.with_state cfg [] (Some Iterator.Start) p) /\
               (e = Iterator.StopIteration \/ e = Iterator.Waiting)).
    { rewrite next_prefetch by assumption. cbv zeta.
      destruct (Iterator.bound cfg <=? p); eauto. }
    destruct Hnext as (e & Hnext & He).
    rewrite (run_Next_cons _ _ _ _ Hnext) by (destruct He; subst; discriminate).
    cbn [Iterator.run fst]. rewrite worker_step_Start.
    assert (Hloop : forall rest,
               Iterator.run (match Iterator.batch_size cfg with
                             | None => []
                             | Some _ => [Iterator.Work]
                             end ++ rest)
                            (match Iterator.batch_size cfg with
                             | None => Iterator.with_state cfg []
                                         (Some (Iterator.NoBatch p)) p
                             | Some _ => Iterator.with_state cfg [] (Some Iterator.Enter) p
                             end)
               = Iterator.run rest (Iterator.with_state cfg []
                                      (Some (Iterator.loop_pc cfg p)) p)).
    { intros rest. unfold Iterator.loop_pc. destruct (Iterator.batch_size cfg); [|reflexivity].
      cbn [app Iterator.run]. now rewrite worker_step_Enter, Hwf. }
    rewrite Hloop, (run_prefetch_lockstep cfg item)
      by (try assumption; try lia; intros; apply Hitems; lia).
    rewrite <- Hn. cbn [Iterator.run fst].
    rewrite next_prefetch by assumption. cbv zeta.
    rewrite Z.leb_refl. cbn [fst].
    apply (Hdone [e]). destruct He; subst; reflexivity.
  - rewrite (run_sync_lockstep cfg item n [Iterator.Next])
      by (try assumption; try lia; intros; apply Hitems; lia).
    rewrite <- Hn. cbn [Iterator.run fst].
    rewrite next_sync by assumption. rewrite Z.leb_refl. cbn [fst].
    apply (Hdone []). reflexivity.
Qed.

(** X14.  Restoring a position.  A constructed iterator whose position is
    set to [p] before its first call hands out, in any run, the items of the
    positions [p], [p + 1], ... in turn and nothing of the positions before
    [p]; it hands out at most [len(self) - p] values, and exactly that many
    in a run that reaches [StopIteration].  Only the positions from [p] on
    are produced: when their items can be produced, every run that reaches
    [StopIteration] has delivered exactly these, whether or not an earlier
    position fails, and the lockstep run is such a run. *)
Theorem resume_from_position (data : Source A) (label : list (Source A))
    (prefetch : bool) (length : option Z) (batch_size : option Z)
    (transform : option (pyval A -> result (pyval A)))
    (shuffle full_shuffle : bool) (rnd_index rnd_full : list Z -> list Z)
    (it : Iterator.t A) (p : Z) :
  (forall l, Permutation l (rnd_index l)) ->
  Iterator.__init__ data label prefetch length batch_size transform shuffle full_shuffle
                    rnd_index rnd_full = Ok it ->
  0 <= p <= Iterator.bound it ->
  (forall sched,
     let evs := fst (Iterator.run sched (Iterator.set_pos it p)) in
     (forall n v, nth_error (Iterator.delivered evs) n = Some v ->
                  Iterator.primary_body it (p + Z.of_nat n) = Ok v) /\
     p + Z.of_nat (List.length (Iterator.delivered evs)) <= Iterator.bound it /\
     (In Iterator.StopIteration evs ->
      p + Z.of_nat (List.length (Iterator.delivered evs)) = Iterator.bound it)) /\
  (forall item : Z -> pyval A,
     (forall j, p <= j < Iterator.bound it -> Iterator.primary_body it j = Ok (item j)) ->
     (forall sched,
        In Iterator.StopIteration (fst (Iterator.run sched (Iterator.set_pos it p))) ->
        Iterator.delivered (fst (Iterator.run sched (Iterator.set_pos it p)))
        = map item (zrange p (Iterator.bound it))) /\
     (let evs := fst (Iterator.run (Iterator.lockstep prefetch batch_size
                                      (Z.to_nat (Iterator.bound it - p)))
                                   (Iterator.set_pos it p)) in
      Iterator.delivered evs = map item (zrange p (Iterator.bound it)) /\
      In Iterator.StopIteration evs)).
Proof.
  intros Hperm Hinit Hp.
  destruct (init_ok _ _ _ _ _ _ _ _ _ _ _ Hperm Hinit)
    as (Hit & Hwf & _ & _ & Hpf & Hbs & _).
  assert (Hset : Iterator.set_pos it p = Iterator.with_state it [] None p).
  { rewrite Hit at 1. reflexivity. }
  rewrite Hset. split.
  - intros sched evs. subst evs.
    destruct (Iterator.run sched (Iterator.with_state it [] None p)) as [evs s'] eqn:Hrun.
    cbn [fst].
    destruct (run_safe_from it p sched evs s' Hwf Hrun) as [Hvs Hb].
    destruct (Hb (proj2 Hp)) as [Hle Hstop].
    split; [|split; assumption].
    intros n v Hv.
    destruct (Forall2_nth_error_r _ _ _ _ _ Hvs Hv) as (j & Hj & Hjv).
    assert (Hlt : (n < List.length (Iterator.delivered evs))%nat)
      by (apply nth_error_Some; congruence).
    rewrite zrange_nth_error in Hj by lia. now injection Hj as <-.
  - intros item Hitems. split.
    + intros sched Hstop.
      destruct (Iterator.run sched (Iterator.with_state it [] None p)) as [evs s'] eqn:Hrun.
      cbn [fst] in *.
      destruct (run_safe_from it p sched evs s' Hwf Hrun) as [Hvs Hb].
      destruct (Hb (proj2 Hp)) as [_ Hn]. rewrite (Hn Hstop) in Hvs.
      exact (produced_map_from it item _ _ _ Hitems Hvs).
    + rewrite <- Hpf, <- Hbs. exact (run_lockstep_from it item p Hwf Hp Hitems).
Qed.

(** X15.  Without the worker no call of [__next__] blocks: in any run of a
    constructed iterator without prefetch every call returns, and what it
    returns is a value, the failure of its own production step, or
    [StopIteration]. *)
Theorem sync_calls_return (data : Source A) (label : list (Source A))
    (length : option Z) (batch_size : option Z)
    (transform : option (pyval A -> result (pyval A)))
    (shuffle full_shuffle : bool) (rnd_index rnd_full : list Z -> list Z)
    (it : Iterator.t A) (sched : list Iterator.action) :
  (forall l, Permutation l (rnd_index l)) ->
  Iterator.__init__ data label false length batch_size transform shuffle full_shuffle
                    rnd_index rnd_full = Ok it ->
  let evs := fst (Iterator.run sched it) in
  List.length evs
  = List.length (filter (fun a => match a with Iterator.Next => true | _ => false end)
                        sched) /\
  Forall (fun ev => match ev with
                    | Iterator.Item _ | Iterator.Exc _ | Iterator.StopIteration => True
                    | Iterator.Waiting | Iterator.Hang => False
                    end) evs.
Proof.
  intros Hperm Hinit.
  destruct (init_ok _ _ _ _ _ _ _ _ _ _ _ Hperm Hinit)
    as (Hit & Hwf & _ & _ & Hpf & _).
  rewrite Hit. clear Hit Hinit. cbv zeta.
  generalize 0.
  induction sched as [|a sched IH]; intros ps; [split; [reflexivity|constructor]|].
  destruct a; cbn [Iterator.run filter].
  - rewrite worker_step_unstarted. apply IH.
  - rewrite next_sync by assumption.
    destruct (Iterator.bound it <=? ps);
      [|destruct (Iterator.primary_body it ps)];
      match goal with
      | |- context [Iterator.run sched ?s] =>
          match s with
          | Iterator.with_state it [] None ?p1 =>
              destruct (IH p1) as [IH1 IH2]; destruct (Iterator.run sched s) as [evs s2]
          end
      end; cbn [fst List.length] in *; (split; [now rewrite IH1|now constructor]).
Qed.

End IteratorOrder.

Lemma contiguous_delivery_witness :
  exists it,
    Iterator.__init__ (list_source [10; 11; 12; 13; 14]) [] false None (Some 2) None
                      true false (@rev Z) (@rev Z) = Ok it /\
    Iterator.delivered
      (fst (Iterator.run [Iterator.Next; Iterator.Next; Iterator.Next; Iterator.Next] it))
    = [PList [Atom 14]; PList [Atom 12; Atom 13]; PList [Atom 10; Atom 11]].
Proof.
  eexists. split; [reflexivity|].
  match goal with
  | |- context [Iterator.run ?s ?it] =>
      destruct (contiguous_delivery (list_source [10; 11; 12; 13; 14]) [] false None 2 None
                  true (@rev Z) (@rev Z) it
                  (fun k => PList (map Atom (py_slice [10; 11; 12; 13; 14]
                                               (k * 2) ((k + 1) * 2))))
                  (fun _ => []) (@Permutation_rev Z) eq_refl) with (sched := s)
        as (H & _)
  end.
  - intros k Hk. split; reflexivity.
  - vm_compute. auto.
  - rewrite H. reflexivity.
Defined.

Lemma resume_from_position_witness :
  exists it,
    Iterator.__init__ (list_source [10; 11; 12; 13; 14]) [] true None None None
                      false false (fun l => l) (fun l => l) = Ok it /\
    nth_error (Iterator.delivered
                 (fst (Iterator.run [Iterator.Next; Iterator.Work; Iterator.Work;
                                     Iterator.Work; Iterator.Next; Iterator.Next]
                                    (Iterator.set_pos it 2)))) 1
    = Some (Atom 13) /\
    Iterator.primary_body it 3 = Ok (Atom 13).
Proof.
  eexists. split; [reflexivity|]. split; [reflexivity|].
  match goal with
  | |- Iterator.primary_body ?it _ = _ =>
      destruct (resume_from_position (list_source [10; 11; 12; 13; 14]) [] true None None
                  None false false (fun l => l) (fun l => l) it 2
                  (fun l => Permutation_refl l) eq_refl) as [H _];
        [split; vm_compute; discriminate|];
      destruct (H [Iterator.Next; Iterator.Work; Iterator.Work; Iterator.Work;
                   Iterator.Next; Iterator.Next]) as [Hn _];
      exact (Hn 1%nat (Atom 13) eq_refl)
  end.
Defined.

Lemma sync_calls_return_witness :
  exists it,
    Iterator.__init__ broken_source [] false None (Some 2) None false true
                      (fun l => l) (fun l => l) = Ok it /\
    List.length (fst (Iterator.run [Iterator.Next; Iterator.Work; Iterator.Next] it)) = 2%nat.
Proof.
  eexists. split; [reflexivity|].
  match goal with
  | |- context [Iterator.run ?s ?it] =>
      destruct (sync_calls_return broken_source [] None (Some 2) None false true
                  (fun l => l) (fun l => l) it s (fun l => Permutation_refl l) eq_refl)
        as [H _]
  end.
  exact H.
Defined.


(* ===================================================================== *)
(** ** The data set: file, transform and iterator together                *)
(* ===================================================================== *)

Lemma source_getitem_ok (tr : Transform.t) (cnt i : Z) (y : pyval Transform.value) :
  src_getitem (KTData.source tr cnt) i = Ok y ->
  exists s, Transform.parse_record (Lines.read (Transform.data tr) i) = Ok s /\
            y = Atom (Transform.Sequences s).
Proof.
  cbn [KTData.source src_getitem]. unfold Transform.__getitem__, Lines.__getitem__.
  destruct (Lines.__len__ _) as [n|]; [|discriminate]. cbn [bind].
  destruct (i <? n); [|discriminate]. cbn [bind].
  destruct (Transform.parse_record _) as [s|]; [|discriminate]. cbn [bind].
  destruct (mapM torch_tensor s) as [ts|] eqn:Ht; [|discriminate]. cbn [bind].
  apply tensors_ok in Ht. destruct Ht as [-> _].
  intros H. injection H as <-. eauto.
Qed.

Lemma source_getitems_ok (tr : Transform.t) (cnt : Z) (inds : list Z)
    (ys : list (pyval Transform.value)) :
  mapM (src_getitem (KTData.source tr cnt)) inds = Ok ys ->
  exists seqs,
    mapM (fun i => Transform.parse_record (Lines.read (Transform.data tr) i)) inds = Ok seqs /\
    ys = map (fun s => Atom (Transform.Sequences s)) seqs.
Proof.
  intros H. apply mapM_ok_iff in H.
  induction H as [|i y inds ys Hy _ (seqs & Hs & ->)].
  - exists []. split; reflexivity.
  - destruct (source_getitem_ok _ _ _ _ Hy) as (s & Hs' & ->).
    exists (s :: seqs). split; [|reflexivity].
    apply mapM_ok_iff. constructor; [assumption|now apply mapM_ok_iff].
Qed.

Lemma transform_of_sequences (kt : KTData.t) (seqs : list (list tensor1)) :
  KTData.transform kt (PList (map (fun s => Atom (Transform.Sequences s)) seqs))
  = Ok (Atom (Transform.Assembled
                (_transform_batch seqs (KTData.inputs kt) (KTData.seq_len kt)))).
Proof.
  unfold KTData.transform. rewrite mapM_map.
  rewrite (mapM_pure (fun s : list tensor1 => s)), map_id. reflexivity.
Qed.

(** X16.  What a data set hands out.  For a data set opened on a file, with a
    positive batch size, the n-th batch of any run of its iterator is the
    batch assembled from the records of a non-empty list of valid record
    indices, each parsed on its own: without shuffle the contiguous range
    [n*batch_size .. min((n+1)*batch_size, count)), with shuffle chunk [n] of
    the drawn permutation of all record indices.  Shuffling changes which
    records a batch holds, not how it is assembled. *)
Theorem ktdata_batches (contents : option (list string)) (win32 : bool)
    (inputs : option (list string)) (bs seq_len : Z) (shuffle : bool) (kt : KTData.t)
    (rnd_index rnd_full : list Z -> list Z) (it : Iterator.t Transform.value) :
  0 < bs ->
  (forall l, Permutation l (rnd_full l)) ->
  KTData.__init__ contents win32 inputs (Some bs) seq_len shuffle = Ok kt ->
  KTData.__iter__ kt rnd_index rnd_full = Ok it ->
  forall sched n v,
    nth_error (Iterator.delivered (fst (Iterator.run sched it))) n = Some v ->
    let count := Lines.length (KTData.data kt) in
    let idxs :=
      if shuffle
      then py_slice (rnd_full (zrange 0 count)) (Z.of_nat n * bs) ((Z.of_nat n + 1) * bs)
      else zrange (Z.of_nat n * bs) (Z.min ((Z.of_nat n + 1) * bs) count) in
    idxs <> [] /\
    (forall i, In i idxs -> 0 <= i < count) /\
    exists seqs,
      mapM (fun i => Transform.parse_record (Lines.read (KTData.data kt) i)) idxs = Ok seqs /\
      v = Atom (Transform.Assembled
                  (_transform_batch seqs (KTData.inputs kt) (KTData.seq_len kt))).
Proof.
  intros Hbs Hperm Hkt Hiter sched n v Hv count idxs.
  assert (Hcount : 0 <= count /\ KTData.batch_size kt = Some bs /\ KTData.shuffle kt = shuffle).
  { unfold KTData.__init__ in Hkt.
    destruct (Lines.__init__ _ _ _ _ _) as [L|] eqn:HL; [|discriminate].
    cbn [bind] in Hkt. injection Hkt as <-. subst count. cbn [KTData.data].
    repeat split. destruct contents as [c|]; [|discriminate].
    rewrite (lines_count _ _ _ _ _ _ HL).
    apply Z.div_pos; [|lia]. destruct win32; [lia|pose proof (wc_l_le c); lia]. }
  destruct Hcount as (Hcount & Hkbs & Hksh).
  set (tr := Transform.mk (KTData.data kt) (KTData.inputs kt) (KTData.seq_len kt)).
  assert (Hinit : Iterator.__init__ (KTData.source tr count) [] true None (Some bs)
                    (Some (KTData.transform kt)) false shuffle (fun l => l) rnd_full
                  = Ok it).
  { unfold KTData.__iter__, Transform.__len__ in Hiter. cbn [Transform.data] in Hiter.
    rewrite lines_len_ok in Hiter by assumption. cbn [bind] in Hiter.
    rewrite Hkbs, Hksh in Hiter. exact Hiter. }
  clear Hiter.
  destruct (init_ok _ _ _ _ _ _ _ _ _ _ _ (fun l => Permutation_refl l) Hinit)
    as (Hit & Hwf & Hd & Hl & _ & Hb & Ht & Hlen & Hfi & _).
  destruct (init_index _ _ _ _ _ _ _ _ _ _ _ Hinit) as (N & HN & Hidx).
  cbn [src_len KTData.source] in Hlen.
  assert (HNb : N = Iterator.bound it)
    by (unfold Iterator.well_formed in Hwf; congruence).
  destruct (Iterator.run sched it) as [evs s'] eqn:Hrun. cbn [fst] in Hv.
  destruct (run_safe it sched evs s' Hit Hwf Hrun) as (Hvs & Hle & _).
  pose proof (produced_nth _ _ _ _ _ Hvs Hv) as Hbody.
  assert (Hn : Z.of_nat n < Iterator.bound it).
  { assert (n < List.length (Iterator.delivered evs))%nat
      by (apply nth_error_Some; congruence). lia. }
  assert (Hlo : Z.of_nat n * bs < count).
  { unfold Iterator.well_formed, Iterator.__len__ in Hwf. rewrite Hb, Hlen in Hwf.
    destruct (ceil_div count bs) as [m|] eqn:Hc; [|discriminate].
    cbn [bind] in Hwf. destruct (m <? 0); [discriminate|]. injection Hwf as Hm.
    destruct (ceil_div_bounds _ _ _ Hbs Hc). nia. }
  unfold Iterator.primary_body in Hbody. rewrite Hb in Hbody.
  destruct shuffle.
  - (* chunks of the drawn permutation *)
    rewrite Hlen in Hfi.
    set (fi := rnd_full (zrange 0 count)) in *.
    assert (Hpfi : Permutation (zrange 0 count) fi) by apply Hperm.
    assert (Hfilen : Z.of_nat (List.length fi) = count).
    { rewrite <- (Permutation_length Hpfi), zrange_length. lia. }
    assert (Hne : fi <> []) by (intros E; rewrite E in Hfilen; simpl in Hfilen; lia).
    rewrite (batched_body_full it fi _ Hfi Hne) in Hbody.
    unfold Iterator.full_body, Iterator.apply_transform in Hbody.
    rewrite Hb, Hd, Hl, Ht in Hbody. cbn [Iterator.mul_bs bind] in Hbody.
    fold idxs in Hbody.
    destruct (mapM (src_getitem (KTData.source tr count)) idxs) as [ys|] eqn:Hys;
      [|discriminate].
    cbn [bind] in Hbody.
    destruct (source_getitems_ok _ _ _ _ Hys) as (seqs & Hseqs & ->).
    rewrite transform_of_sequences in Hbody. cbn [bind mapM Iterator.compose] in Hbody.
    injection Hbody as <-.
    split; [|split].
    + intros E. assert (Hlen0 : Z.of_nat (List.length idxs) = 0) by now rewrite E.
      subst idxs. rewrite py_slice_length in Hlen0 by lia. lia.
    + intros i Hi. apply py_slice_In in Hi. apply zrange_In.
      eapply Permutation_in; [apply Permutation_sym, Hpfi|exact Hi].
    + exists seqs. split; [exact Hseqs|reflexivity].
  - (* contiguous ranges *)
    assert (Hfi' : Iterator.full_index it = None) by exact Hfi.
    unfold Iterator.batched_body, Iterator.contiguous_body in Hbody.
    rewrite Hfi', Hidx in Hbody.
    rewrite list_getitem_nth in Hbody by (rewrite zrange_length; lia).
    rewrite (nth_error_nth (zrange 0 N) (Z.to_nat (Z.of_nat n)) 0
               (x := 0 + Z.of_nat n)) in Hbody
      by (rewrite Nat2Z.id; apply zrange_nth_error; lia).
    rewrite Z.add_0_l in Hbody.
    rewrite Hb, Hd, Hl in Hbody. cbn [Iterator.mul_bs bind] in Hbody.
    unfold Iterator.fetch_range in Hbody.
    cbn [KTData.source src_callable src_getslice mapM bind] in Hbody.
    unfold Transform.__getitem__ in Hbody. cbn [Transform.data tr] in Hbody.
    rewrite slice_start_in_range in Hbody by (fold count; lia).
    cbn [bind] in Hbody. rewrite mapM_map in Hbody.
    assert (Hrange : normalized_range (Lines.length (KTData.data kt))
                       (Some (Z.of_nat n * bs)) (Some ((Z.of_nat n + 1) * bs)) = idxs).
    { unfold normalized_range, norm_bound. fold count. subst idxs.
      destruct (Z.ltb_spec (Z.of_nat n * bs) 0); [lia|].
      destruct (Z.ltb_spec ((Z.of_nat n + 1) * bs) 0); [lia|].
      f_equal. lia. }
    rewrite Hrange in Hbody.
    destruct (mapM _ idxs) as [seqs|] eqn:Hseqs; [|discriminate].
    cbn [bind Transform.inputs Transform.seq_len tr] in Hbody.
    destruct (_transform_batch_lists seqs (KTData.inputs kt) (KTData.seq_len kt))
      as [b|] eqn:Hasm; [|discriminate].
    apply transform_batch_lists_result in Hasm. subst b.
    cbn [bind Iterator.compose] in Hbody.
    injection Hbody as <-.
    split; [|split].
    + intros E. assert (Hlen0 : List.length idxs = 0%nat) by now rewrite E.
      subst idxs. rewrite zrange_length in Hlen0. lia.
    + intros i Hi. apply zrange_In in Hi. lia.
    + exists seqs. split; reflexivity.
Qed.

Lemma ktdata_batches_witness :
  exists kt it,
    KTData.__init__ (Some sample_file) false (Some ["q"%string]) (Some 2) 200 false = Ok kt /\
    KTData.__iter__ kt (fun l => l) (fun l => l) = Ok it /\
    nth_error (Iterator.delivered
                 (fst (Iterator.run (Iterator.lockstep true (Some 2) 2) it))) 1
    = Some (Atom (Transform.Assembled (_transform_batch [[[7]]] ["q"%string] 200))).
Proof.
  eexists. eexists. split; [reflexivity|]. split; [reflexivity|].
  match goal with
  | |- nth_error (Iterator.delivered (fst (Iterator.run ?s ?it))) _ = _ =>
      destruct (ktdata_batches (Some sample_file) false (Some ["q"%string]) 2 200 false
                  _ (fun l => l) (fun l => l) it ltac:(lia)
                  (fun l => Permutation_refl l) eq_refl eq_refl s 1%nat
                  (Atom (Transform.Assembled (_transform_batch [[[7]]] ["q"%string] 200))))
        as (_ & _ & seqs & _ & _)
  end; reflexivity.
Defined.


(** X17.  A data set without a batch size hands out single records: the n-th
    value of any run of its iterator is the list of sequences parsed from
    record [n] of the file, in file order, whether [shuffle] is set or not
    (the drawn permutation is only read on the batched path). *)
Theorem ktdata_unbatched (contents : option (list string)) (win32 : bool)
    (inputs : option (list string)) (seq_len : Z) (shuffle : bool) (kt : KTData.t)
    (rnd_index rnd_full : list Z -> list Z) (it : Iterator.t Transform.value) :
  KTData.__init__ contents win32 inputs None seq_len shuffle = Ok kt ->
  KTData.__iter__ kt rnd_index rnd_full = Ok it ->
  forall sched n v,
    nth_error (Iterator.delivered (fst (Iterator.run sched it))) n = Some v ->
    Z.of_nat n < Lines.length (KTData.data kt) /\
    exists s,
      Transform.parse_record (Lines.read (KTData.data kt) (Z.of_nat n)) = Ok s /\
      v = Atom (Transform.Sequences s).
Proof.
  intros Hkt Hiter sched n v Hv.
  assert (Hkbs : KTData.batch_size kt = None).
  { unfold KTData.__init__ in Hkt.
    destruct (Lines.__init__ _ _ _ _ _); [|discriminate].
    cbn [bind] in Hkt. now injection Hkt as <-. }
  set (tr := Transform.mk (KTData.data kt) (KTData.inputs kt) (KTData.seq_len kt)).
  unfold KTData.__iter__ in Hiter. fold tr in Hiter.
  destruct (Transform.__len__ tr) as [count|] eqn:Hcount; [|discriminate].
  cbn [bind] in Hiter. rewrite Hkbs in Hiter.
  assert (Hc : count = Lines.length (KTData.data kt)).
  { unfold Transform.__len__, Lines.__len__ in Hcount. cbn [Transform.data tr] in Hcount.
    destruct (_ <? 0); [discriminate|]. now injection Hcount. }
  assert (Hinit : Iterator.__init__ (KTData.source tr count) [] true None None
                    (Some (KTData.transform kt)) false (KTData.shuffle kt)
                    (fun l => l) rnd_full = Ok it) by exact Hiter.
  clear Hiter.
  destruct (init_ok _ _ _ _ _ _ _ _ _ _ _ (fun l => Permutation_refl l) Hinit)
    as (Hit & Hwf & Hd & Hl & _ & Hb & _ & Hlen & _).
  cbn [src_len KTData.source] in Hlen.
  destruct (Iterator.run sched it) as [evs s'] eqn:Hrun. cbn [fst] in Hv.
  destruct (run_safe it sched evs s' Hit Hwf Hrun) as (Hvs & Hle & _).
  pose proof (produced_nth _ _ _ _ _ Hvs Hv) as Hbody.
  assert (Hn : (n < List.length (Iterator.delivered evs))%nat)
    by (apply nth_error_Some; congruence).
  split.
  - rewrite <- Hc, <- Hlen, (len_without_batch_size it Hb Hwf). lia.
  - unfold Iterator.primary_body in Hbody. rewrite Hb in Hbody.
    unfold Iterator.nobatch_body in Hbody. rewrite Hd, Hl in Hbody.
    destruct (src_getitem (KTData.source tr count) (Z.of_nat n)) as [y|] eqn:Hy;
      [|discriminate].
    cbn [bind mapM Iterator.compose] in Hbody. injection Hbody as <-.
    exact (source_getitem_ok _ _ _ _ Hy).
Qed.

Lemma ktdata_unbatched_witness :
  exists kt it,
    KTData.__init__ (Some sample_file) false (Some ["q"%string]) None 200 true = Ok kt /\
    KTData.__iter__ kt (fun l => l) (@rev Z) = Ok it /\
    nth_error (Iterator.delivered
                 (fst (Iterator.run (Iterator.lockstep true None 3) it))) 1
    = Some (Atom (Transform.Sequences [[4; 5; 6]])).
Proof.
  eexists. eexists. split; [reflexivity|]. split; [reflexivity|].
  match goal with
  | |- nth_error (Iterator.delivered (fst (Iterator.run ?s ?it))) _ = _ =>
      destruct (ktdata_unbatched (Some sample_file) false (Some ["q"%string]) 200 true
                  _ (fun l => l) (@rev Z) it eq_refl eq_refl s 1%nat
                  (Atom (Transform.Sequences [[4; 5; 6]])))
        as (_ & s0 & _ & _)
  end; reflexivity.
Defined.
